(** * Reactions (like / dislike) of the video-sharing backend

    A shallow embedding of the Mongoose models [Video], [Comment] and [Like]
    and of the route handlers of [routes/videos.js] and [routes/comments.js]
    that read or write them, followed by the properties of the reaction
    state machine.

    - A collection is the list of its documents in natural (insertion) order.
    - A handler is a program over the store's operations, one operation per
      [await] of the source; [run] executes a handler without interruption,
      [run_schedule] interleaves several handlers at their [await]s.
    - A JavaScript exception is [Throw]; every handler body sits in the
      source's [try { ... } catch (error) { res.status(500)... }]. *)

From Stdlib Require Import ZArith List Bool String Lia Arith PeanoNat.
Import ListNotations.

Set Implicit Arguments.

(** ** Documents *)

(** [mongoose.Schema.Types.ObjectId]; ids come from one generator that never
    hands out the same id twice. The handlers below take the ids of their
    queries as mongoose has cast them; [RouteParam] and [route] further down
    add the cast of [req.params.id] and its failure. *)
Definition ObjectId := nat.

(** [type: { type: String, enum: ['like', 'dislike'] }] *)
Inductive ReactionType : Type := like | dislike.

Definition ReactionType_eqb (a b : ReactionType) : bool :=
  match a, b with
  | like, like | dislike, dislike => true
  | _, _ => false
  end.

(** [LikeSchema]: [user] and [type] are required, [video] and [comment] are
    both optional. *)
Record Like : Type := mkLike {
  like_id      : ObjectId;
  like_user    : ObjectId;
  like_video   : option ObjectId;
  like_comment : option ObjectId;
  like_type    : ReactionType
}.

(** [VideoSchema], the fields the handlers below touch. *)
Record Video : Type := mkVideo {
  video_id       : ObjectId;
  video_user     : ObjectId;
  video_views    : Z;
  video_likes    : Z;
  video_dislikes : Z
}.

(** [CommentSchema] without its text. *)
Record Comment : Type := mkComment {
  comment_id            : ObjectId;
  comment_user          : ObjectId;
  comment_video         : ObjectId;
  comment_likes         : Z;
  comment_dislikes      : Z;
  comment_replies       : list ObjectId;
  comment_isReply       : bool;
  comment_parentComment : option ObjectId
}.

(** The paths of a loaded document a handler assigns to; [save] writes the
    modified paths only. A number is written with [$set]; [replies] is only
    ever changed by [push], which [save] writes as a [$push] of the pushed
    id. *)
Inductive VideoPath : Type := video_path_views | video_path_likes | video_path_dislikes.
Inductive CommentPath : Type :=
| comment_path_likes
| comment_path_dislikes
| comment_path_replies (pushed : ObjectId).

(** A document in the handler's memory: its current field values and the
    paths assigned since it was loaded. *)
Record Doc (T P : Type) : Type := mkDoc {
  value         : T;
  modifiedPaths : list P
}.

Definition loaded {T P : Type} (x : T) : Doc T P := mkDoc x [].

Definition VideoDoc := Doc Video VideoPath.
Definition CommentDoc := Doc Comment CommentPath.

Definition set_video_views (n : Z) (v : Video) : Video :=
  mkVideo (video_id v) (video_user v) n (video_likes v) (video_dislikes v).
Definition set_video_likes (n : Z) (v : Video) : Video :=
  mkVideo (video_id v) (video_user v) (video_views v) n (video_dislikes v).
Definition set_video_dislikes (n : Z) (v : Video) : Video :=
  mkVideo (video_id v) (video_user v) (video_views v) (video_likes v) n.

Definition set_comment_likes (n : Z) (c : Comment) : Comment :=
  mkComment (comment_id c) (comment_user c) (comment_video c) n (comment_dislikes c)
            (comment_replies c) (comment_isReply c) (comment_parentComment c).
Definition set_comment_dislikes (n : Z) (c : Comment) : Comment :=
  mkComment (comment_id c) (comment_user c) (comment_video c) (comment_likes c) n
            (comment_replies c) (comment_isReply c) (comment_parentComment c).
Definition set_comment_replies (r : list ObjectId) (c : Comment) : Comment :=
  mkComment (comment_id c) (comment_user c) (comment_video c) (comment_likes c)
            (comment_dislikes c) r (comment_isReply c) (comment_parentComment c).

Definition set_like_type (t : ReactionType) (l : Like) : Like :=
  mkLike (like_id l) (like_user l) (like_video l) (like_comment l) t.

(** [video.likes = n], [video.views = n], ... on a loaded document. *)
Definition assign_video (p : VideoPath) (n : Z) (d : VideoDoc) : VideoDoc :=
  mkDoc (match p with
         | video_path_views => set_video_views n (value d)
         | video_path_likes => set_video_likes n (value d)
         | video_path_dislikes => set_video_dislikes n (value d)
         end) (p :: modifiedPaths d).

Definition assign_comment_likes (n : Z) (d : CommentDoc) : CommentDoc :=
  mkDoc (set_comment_likes n (value d)) (comment_path_likes :: modifiedPaths d).
Definition assign_comment_dislikes (n : Z) (d : CommentDoc) : CommentDoc :=
  mkDoc (set_comment_dislikes n (value d)) (comment_path_dislikes :: modifiedPaths d).
(** [comment.replies.push(id)] *)
Definition push_comment_replies (id : ObjectId) (d : CommentDoc) : CommentDoc :=
  mkDoc (set_comment_replies (comment_replies (value d) ++ [id]) (value d))
        (comment_path_replies id :: modifiedPaths d).

(** ** The store *)

Record DB : Type := mkDB {
  videos   : list Video;
  comments : list Comment;
  likes    : list Like;
  next_id  : ObjectId
}.

Definition empty_db : DB := mkDB [] [] [] 0.

(** A filter object over [Like]: an absent key constrains nothing, a present
    key must equal the row's field. *)
Record LikeQuery : Type := mkLikeQuery {
  q_user    : option ObjectId;
  q_video   : option ObjectId;
  q_comment : option ObjectId
}.

(** A filter object over [Comment], on [video] and [parentComment]. *)
Record CommentQuery : Type := mkCommentQuery {
  q_comment_video  : option ObjectId;
  q_parentComment  : option ObjectId
}.

Definition opt_id_eqb (a b : option ObjectId) : bool :=
  match a, b with
  | Some x, Some y => Nat.eqb x y
  | None, None => true
  | _, _ => false
  end.

Definition key_matches (q : option ObjectId) (field : option ObjectId) : bool :=
  match q with
  | None => true
  | Some _ => opt_id_eqb q field
  end.

Definition like_matches (q : LikeQuery) (l : Like) : bool :=
  key_matches (q_user q) (Some (like_user l))
  && key_matches (q_video q) (like_video l)
  && key_matches (q_comment q) (like_comment l).

Definition comment_matches (q : CommentQuery) (c : Comment) : bool :=
  key_matches (q_comment_video q) (Some (comment_video c))
  && key_matches (q_parentComment q) (comment_parentComment c).

Definition has_video_id (id : ObjectId) (v : Video) : bool := Nat.eqb (video_id v) id.
Definition has_comment_id (id : ObjectId) (c : Comment) : bool := Nat.eqb (comment_id c) id.
Definition has_like_id (id : ObjectId) (l : Like) : bool := Nat.eqb (like_id l) id.

(** [deleteOne]: the first matching document goes. *)
Fixpoint remove_first {T : Type} (p : T -> bool) (l : list T) : list T :=
  match l with
  | [] => []
  | x :: r => if p x then r else x :: remove_first p r
  end.

(** [updateOne]: the first matching document is rewritten. *)
Fixpoint update_first {T : Type} (p : T -> bool) (f : T -> T) (l : list T) : list T :=
  match l with
  | [] => []
  | x :: r => if p x then f x :: r else x :: update_first p f r
  end.

(** [deleteMany]: every matching document goes. *)
Definition remove_all {T : Type} (p : T -> bool) (l : list T) : list T :=
  filter (fun x => negb (p x)) l.

(** The update [save] sends for one modified path of [src], applied to the
    stored document: [$set] of a number, [$push] onto the stored [replies]. *)
Definition write_video_path (src : Video) (p : VideoPath) (stored : Video) : Video :=
  match p with
  | video_path_views => set_video_views (video_views src) stored
  | video_path_likes => set_video_likes (video_likes src) stored
  | video_path_dislikes => set_video_dislikes (video_dislikes src) stored
  end.

Definition write_comment_path (src : Comment) (p : CommentPath) (stored : Comment) : Comment :=
  match p with
  | comment_path_likes => set_comment_likes (comment_likes src) stored
  | comment_path_dislikes => set_comment_dislikes (comment_dislikes src) stored
  | comment_path_replies pushed =>
      set_comment_replies (comment_replies stored ++ [pushed]) stored
  end.

Definition write_video (d : VideoDoc) (stored : Video) : Video :=
  fold_right (write_video_path (value d)) stored (modifiedPaths d).

Definition write_comment (d : CommentDoc) (stored : Comment) : Comment :=
  fold_right (write_comment_path (value d)) stored (modifiedPaths d).

(** The two unique indexes of [LikeSchema],
    [{ user: 1, video: 1 }, { unique: true, sparse: true }] and
    [{ user: 1, comment: 1 }, { unique: true, sparse: true }], as MongoDB
    keeps them. A sparse compound index leaves a document out only when it
    has none of the index's fields; [user] is required, so every row is in
    both indexes, and a field the row does not have is indexed as null.
    Two rows have the same key when their users are equal and their second
    fields are equal, two absent fields included. [index_conflict l rows]
    holds when inserting [l] would repeat a key of one of the two indexes. *)
Definition same_key (u1 : ObjectId) (t1 : option ObjectId)
           (u2 : ObjectId) (t2 : option ObjectId) : bool :=
  Nat.eqb u1 u2 && opt_id_eqb t1 t2.

Definition index_conflict (l : Like) (rows : list Like) : bool :=
  existsb (fun r => same_key (like_user l) (like_video l) (like_user r) (like_video r)
                    || same_key (like_user l) (like_comment l) (like_user r) (like_comment r))
          rows.

(** What a store call can throw. *)
Inductive Error : Type :=
| DuplicateKey       (* E11000, a unique index refused the insert *)
| DocumentNotFound.  (* save() of a document that is no longer stored *)

(** The store calls of the handlers. [Op X] answers with an [X]. *)
Inductive Op : Type -> Type :=
| Video_findById (id : ObjectId) : Op (option Video)
| Video_insert (user : ObjectId) : Op Video
| Video_save (d : VideoDoc) : Op unit
| Video_deleteOne (id : ObjectId) : Op unit
| Comment_findById (id : ObjectId) : Op (option Comment)
| Comment_insert (user video : ObjectId) (isReply : bool) (parent : option ObjectId)
    : Op Comment
| Comment_save (d : CommentDoc) : Op unit
| Comment_deleteMany (q : CommentQuery) : Op unit
| Comment_deleteOne (id : ObjectId) : Op unit
| Comment_pull_reply (parent : option ObjectId) (reply : ObjectId) : Op unit
| Like_findOne (q : LikeQuery) : Op (option Like)
| Like_insert (user : ObjectId) (video comment : option ObjectId) (t : ReactionType)
    : Op Like
| Like_save (l : Like) : Op unit
| Like_deleteOne (id : ObjectId) : Op unit
| Like_deleteMany (q : LikeQuery) : Op unit.

Definition with_videos (l : list Video) (db : DB) : DB :=
  mkDB l (comments db) (likes db) (next_id db).
Definition with_comments (l : list Comment) (db : DB) : DB :=
  mkDB (videos db) l (likes db) (next_id db).
Definition with_likes (l : list Like) (db : DB) : DB :=
  mkDB (videos db) (comments db) l (next_id db).

Definition exec_op {X : Type} (op : Op X) (db : DB) : (Error + X) * DB :=
  match op in Op X return (Error + X) * DB with
  | Video_findById id => (inr (find (has_video_id id) (videos db)), db)
  | Video_insert user =>
      (* new Video({...}).save(): likes, dislikes and views default to 0 *)
      let v := mkVideo (next_id db) user 0 0 0 in
      (inr v, mkDB (videos db ++ [v]) (comments db) (likes db) (S (next_id db)))
  | Video_save d =>
      if existsb (has_video_id (video_id (value d))) (videos db)
      then (inr tt, with_videos (update_first (has_video_id (video_id (value d)))
                                              (write_video d) (videos db)) db)
      else (inl DocumentNotFound, db)
  | Video_deleteOne id => (inr tt, with_videos (remove_first (has_video_id id) (videos db)) db)
  | Comment_findById id => (inr (find (has_comment_id id) (comments db)), db)
  | Comment_insert user video isReply parent =>
      let c := mkComment (next_id db) user video 0 0 [] isReply parent in
      (inr c, mkDB (videos db) (comments db ++ [c]) (likes db) (S (next_id db)))
  | Comment_save d =>
      if existsb (has_comment_id (comment_id (value d))) (comments db)
      then (inr tt, with_comments (update_first (has_comment_id (comment_id (value d)))
                                                (write_comment d) (comments db)) db)
      else (inl DocumentNotFound, db)
  | Comment_deleteMany q => (inr tt, with_comments (remove_all (comment_matches q) (comments db)) db)
  | Comment_deleteOne id =>
      (inr tt, with_comments (remove_first (has_comment_id id) (comments db)) db)
  | Comment_pull_reply parent reply =>
      (* Comment.updateOne({ _id: parent }, { $pull: { replies: reply } });
         an absent _id matches no document *)
      (inr tt, with_comments
                 (match parent with
                  | Some parent =>
                      update_first (has_comment_id parent)
                        (fun c => set_comment_replies
                                    (filter (fun r => negb (Nat.eqb r reply))
                                            (comment_replies c)) c)
                        (comments db)
                  | None => comments db
                  end) db)
  | Like_findOne q => (inr (find (like_matches q) (likes db)), db)
  | Like_insert user video comment t =>
      let l := mkLike (next_id db) user video comment t in
      if index_conflict l (likes db)
      then (inl DuplicateKey, db)
      else (inr l, mkDB (videos db) (comments db) (likes db ++ [l]) (S (next_id db)))
  | Like_save l =>
      (* existingLike.type = ...; existingLike.save(): $set of [type] *)
      if existsb (has_like_id (like_id l)) (likes db)
      then (inr tt, with_likes (update_first (has_like_id (like_id l))
                                             (set_like_type (like_type l)) (likes db)) db)
      else (inl DocumentNotFound, db)
  | Like_deleteOne id => (inr tt, with_likes (remove_first (has_like_id id) (likes db)) db)
  | Like_deleteMany q => (inr tt, with_likes (remove_all (like_matches q) (likes db)) db)
  end.

(** ** Handler programs *)

Inductive Prog (A : Type) : Type :=
| Ret (a : A)
| Throw (e : Error)
| Call (X : Type) (op : Op X) (k : Error + X -> Prog A).

Arguments Ret {A} a.
Arguments Throw {A} e.
Arguments Call {A X} op k.

Fixpoint bind {A B : Type} (p : Prog A) (f : A -> Prog B) : Prog B :=
  match p with
  | Ret a => f a
  | Throw e => Throw e
  | Call op k => Call op (fun r => bind (k r) f)
  end.

(** [await op]: the answer, or the store's exception rethrown. *)
Definition await {X : Type} (op : Op X) : Prog X :=
  Call op (fun r => match r with inl e => Throw e | inr x => Ret x end).

(** [try { p } catch (error) { h error }] *)
Fixpoint try_catch {A : Type} (p : Prog A) (h : Error -> Prog A) : Prog A :=
  match p with
  | Ret a => Ret a
  | Throw e => h e
  | Call op k => Call op (fun r => try_catch (k r) h)
  end.

Declare Scope prog_scope.
Delimit Scope prog_scope with prog.
Notation "x <- c ;; k" := (bind c (fun x => k))
  (at level 61, c at next level, right associativity) : prog_scope.
Notation "c ;; k" := (bind c (fun _ => k))
  (at level 61, right associativity) : prog_scope.
Local Open Scope prog_scope.

(** Uninterrupted execution. *)
Fixpoint run {A : Type} (p : Prog A) (db : DB) : (Error + A) * DB :=
  match p with
  | Ret a => (inr a, db)
  | Throw e => (inl e, db)
  | Call op k => let (r, db') := exec_op op db in run (k r) db'
  end.

(** Execution up to the next [await]. *)
Definition step {A : Type} (p : Prog A) (db : DB) : Prog A * DB :=
  match p with
  | Call op k => let (r, db') := exec_op op db in (k r, db')
  | _ => (p, db)
  end.

(** ** Responses *)

Inductive Response : Type :=
| res_message (status : nat) (message : string)          (* res.status(s).json({ message }) *)
| res_video (status : nat) (video : Video)               (* res.status(s).json(video) *)
| res_comment (status : nat) (comment : Comment)         (* res.status(s).json(comment) *)
| res_message_video (message : string) (video : Video)   (* res.json({ message, video }) *)
| res_message_comment (message : string) (comment : Comment)
| res_like_status (liked disliked : bool).               (* res.json({ liked, disliked }) *)

(** [catch (error) { console.error(...); res.status(500).json({ message: 'Server error' }) }] *)
Definition server_error (_ : Error) : Prog Response :=
  Ret (res_message 500 "Server error").

(** ** routes/videos.js

    [req_user] is [req.user._id], set by the [auth] middleware; [req_id] is
    [req.params.id]. Validation and upload middleware run before the bodies
    below and answer 400 without touching the store. *)

(** POST /api/videos *)
Definition videos_post (req_user : ObjectId) : Prog Response :=
  try_catch
    (video <- await (Video_insert req_user) ;;
     Ret (res_video 201 video))
    (fun _ => Ret (res_message 500 "Server error during video upload")).

(** GET /api/videos/:id *)
Definition videos_get (req_id : ObjectId) : Prog Response :=
  try_catch
    (video <- await (Video_findById req_id) ;;
     match video with
     | None => Ret (res_message 404 "Video not found")
     | Some video =>
         let video : VideoDoc := loaded video in
         let video := assign_video video_path_views (video_views (value video) + 1) video in
         await (Video_save video) ;;
         Ret (res_video 200 (value video))
     end)
    server_error.

(** POST /api/videos/:id/like *)
Definition videos_like (req_user req_id : ObjectId) : Prog Response :=
  try_catch
    (video <- await (Video_findById req_id) ;;
     match video with
     | None => Ret (res_message 404 "Video not found")
     | Some video =>
         let video : VideoDoc := loaded video in
         existingLike <- await (Like_findOne
           (mkLikeQuery (Some req_user) (Some (video_id (value video))) None)) ;;
         match existingLike with
         | Some existingLike =>
             match like_type existingLike with
             | like =>
                 await (Like_deleteOne (like_id existingLike)) ;;
                 let video := assign_video video_path_likes (video_likes (value video) - 1) video in
                 await (Video_save video) ;;
                 Ret (res_message_video "Like removed" (value video))
             | dislike =>
                 let existingLike := set_like_type like existingLike in
                 await (Like_save existingLike) ;;
                 let video := assign_video video_path_likes (video_likes (value video) + 1) video in
                 let video :=
                   assign_video video_path_dislikes (video_dislikes (value video) - 1) video in
                 await (Video_save video) ;;
                 Ret (res_message_video "Changed dislike to like" (value video))
             end
         | None =>
             await (Like_insert req_user (Some (video_id (value video))) None like) ;;
             let video := assign_video video_path_likes (video_likes (value video) + 1) video in
             await (Video_save video) ;;
             Ret (res_message_video "Video liked" (value video))
         end
     end)
    server_error.

(** POST /api/videos/:id/dislike *)
Definition videos_dislike (req_user req_id : ObjectId) : Prog Response :=
  try_catch
    (video <- await (Video_findById req_id) ;;
     match video with
     | None => Ret (res_message 404 "Video not found")
     | Some video =>
         let video : VideoDoc := loaded video in
         existingLike <- await (Like_findOne
           (mkLikeQuery (Some req_user) (Some (video_id (value video))) None)) ;;
         match existingLike with
         | Some existingLike =>
             match like_type existingLike with
             | dislike =>
                 await (Like_deleteOne (like_id existingLike)) ;;
                 let video :=
                   assign_video video_path_dislikes (video_dislikes (value video) - 1) video in
                 await (Video_save video) ;;
                 Ret (res_message_video "Dislike removed" (value video))
             | like =>
                 let existingLike := set_like_type dislike existingLike in
                 await (Like_save existingLike) ;;
                 let video := assign_video video_path_likes (video_likes (value video) - 1) video in
                 let video :=
                   assign_video video_path_dislikes (video_dislikes (value video) + 1) video in
                 await (Video_save video) ;;
                 Ret (res_message_video "Changed like to dislike" (value video))
             end
         | None =>
             await (Like_insert req_user (Some (video_id (value video))) None dislike) ;;
             let video :=
               assign_video video_path_dislikes (video_dislikes (value video) + 1) video in
             await (Video_save video) ;;
             Ret (res_message_video "Video disliked" (value video))
         end
     end)
    server_error.

(** GET /api/videos/:id/like-status *)
Definition videos_like_status (req_user req_id : ObjectId) : Prog Response :=
  try_catch
    (like_row <- await (Like_findOne (mkLikeQuery (Some req_user) (Some req_id) None)) ;;
     match like_row with
     | None => Ret (res_like_status false false)
     | Some like_row =>
         Ret (res_like_status (ReactionType_eqb (like_type like_row) like)
                              (ReactionType_eqb (like_type like_row) dislike))
     end)
    server_error.

(** POST /api/videos/:id/comments *)
Definition videos_comments_post (req_user req_id : ObjectId) : Prog Response :=
  try_catch
    (video <- await (Video_findById req_id) ;;
     match video with
     | None => Ret (res_message 404 "Video not found")
     | Some video =>
         comment <- await (Comment_insert req_user (video_id video) false None) ;;
         Ret (res_comment 201 comment)
     end)
    server_error.

(** DELETE /api/videos/:id *)
Definition videos_delete (req_user req_id : ObjectId) : Prog Response :=
  try_catch
    (video <- await (Video_findById req_id) ;;
     match video with
     | None => Ret (res_message 404 "Video not found")
     | Some video =>
         if negb (Nat.eqb (video_user video) req_user)
         then Ret (res_message 401 "Not authorized to delete this video")
         else
           await (Comment_deleteMany (mkCommentQuery (Some (video_id video)) None)) ;;
           await (Like_deleteMany (mkLikeQuery None (Some (video_id video)) None)) ;;
           await (Video_deleteOne (video_id video)) ;;
           Ret (res_message 200 "Video removed")
     end)
    server_error.

(** ** routes/comments.js *)

(** POST /api/comments/:id/replies *)
Definition comments_replies_post (req_user req_id : ObjectId) : Prog Response :=
  try_catch
    (parentComment <- await (Comment_findById req_id) ;;
     match parentComment with
     | None => Ret (res_message 404 "Comment not found")
     | Some parentComment =>
         let parentComment : CommentDoc := loaded parentComment in
         reply <- await (Comment_insert req_user (comment_video (value parentComment)) true
                           (Some (comment_id (value parentComment)))) ;;
         let parentComment := push_comment_replies (comment_id reply) parentComment in
         await (Comment_save parentComment) ;;
         Ret (res_comment 201 reply)
     end)
    server_error.

(** POST /api/comments/:id/like *)
Definition comments_like (req_user req_id : ObjectId) : Prog Response :=
  try_catch
    (comment <- await (Comment_findById req_id) ;;
     match comment with
     | None => Ret (res_message 404 "Comment not found")
     | Some comment =>
         let comment : CommentDoc := loaded comment in
         existingLike <- await (Like_findOne
           (mkLikeQuery (Some req_user) None (Some (comment_id (value comment))))) ;;
         match existingLike with
         | Some existingLike =>
             match like_type existingLike with
             | like =>
                 await (Like_deleteOne (like_id existingLike)) ;;
                 let comment := assign_comment_likes (comment_likes (value comment) - 1) comment in
                 await (Comment_save comment) ;;
                 Ret (res_message_comment "Like removed" (value comment))
             | dislike =>
                 let existingLike := set_like_type like existingLike in
                 await (Like_save existingLike) ;;
                 let comment := assign_comment_likes (comment_likes (value comment) + 1) comment in
                 let comment :=
                   assign_comment_dislikes (comment_dislikes (value comment) - 1) comment in
                 await (Comment_save comment) ;;
                 Ret (res_message_comment "Changed dislike to like" (value comment))
             end
         | None =>
             await (Like_insert req_user None (Some (comment_id (value comment))) like) ;;
             let comment := assign_comment_likes (comment_likes (value comment) + 1) comment in
             await (Comment_save comment) ;;
             Ret (res_message_comment "Comment liked" (value comment))
         end
     end)
    server_error.

(** POST /api/comments/:id/dislike *)
Definition comments_dislike (req_user req_id : ObjectId) : Prog Response :=
  try_catch
    (comment <- await (Comment_findById req_id) ;;
     match comment with
     | None => Ret (res_message 404 "Comment not found")
     | Some comment =>
         let comment : CommentDoc := loaded comment in
         existingLike <- await (Like_findOne
           (mkLikeQuery (Some req_user) None (Some (comment_id (value comment))))) ;;
         match existingLike with
         | Some existingLike =>
             match like_type existingLike with
             | dislike =>
                 await (Like_deleteOne (like_id existingLike)) ;;
                 let comment :=
                   assign_comment_dislikes (comment_dislikes (value comment) - 1) comment in
                 await (Comment_save comment) ;;
                 Ret (res_message_comment "Dislike removed" (value comment))
             | like =>
                 let existingLike := set_like_type dislike existingLike in
                 await (Like_save existingLike) ;;
                 let comment := assign_comment_likes (comment_likes (value comment) - 1) comment in
                 let comment :=
                   assign_comment_dislikes (comment_dislikes (value comment) + 1) comment in
                 await (Comment_save comment) ;;
                 Ret (res_message_comment "Changed like to dislike" (value comment))
             end
         | None =>
             await (Like_insert req_user None (Some (comment_id (value comment))) dislike) ;;
             let comment :=
               assign_comment_dislikes (comment_dislikes (value comment) + 1) comment in
             await (Comment_save comment) ;;
             Ret (res_message_comment "Comment disliked" (value comment))
         end
     end)
    server_error.

(** DELETE /api/comments/:id *)
Definition comments_delete (req_user req_id : ObjectId) : Prog Response :=
  try_catch
    (comment <- await (Comment_findById req_id) ;;
     match comment with
     | None => Ret (res_message 404 "Comment not found")
     | Some comment =>
         if negb (Nat.eqb (comment_user comment) req_user)
         then Ret (res_message 401 "Not authorized to delete this comment")
         else
           (if negb (comment_isReply comment)
            then await (Comment_deleteMany (mkCommentQuery None (Some (comment_id comment))))
            else await (Comment_pull_reply (comment_parentComment comment)
                                           (comment_id comment))) ;;
           await (Like_deleteMany (mkLikeQuery None None (Some (comment_id comment)))) ;;
           await (Comment_deleteOne (comment_id comment)) ;;
           Ret (res_message 200 "Comment removed")
     end)
    server_error.

(** ** Requests *)

Inductive Request : Type :=
| POST_videos (req_user : ObjectId)
| GET_videos_id (req_id : ObjectId)
| POST_videos_like (req_user req_id : ObjectId)
| POST_videos_dislike (req_user req_id : ObjectId)
| GET_videos_like_status (req_user req_id : ObjectId)
| POST_videos_comments (req_user req_id : ObjectId)
| DELETE_videos (req_user req_id : ObjectId)
| POST_comments_replies (req_user req_id : ObjectId)
| POST_comments_like (req_user req_id : ObjectId)
| POST_comments_dislike (req_user req_id : ObjectId)
| DELETE_comments (req_user req_id : ObjectId).

Definition handler (r : Request) : Prog Response :=
  match r with
  | POST_videos u => videos_post u
  | GET_videos_id id => videos_get id
  | POST_videos_like u id => videos_like u id
  | POST_videos_dislike u id => videos_dislike u id
  | GET_videos_like_status u id => videos_like_status u id
  | POST_videos_comments u id => videos_comments_post u id
  | DELETE_videos u id => videos_delete u id
  | POST_comments_replies u id => comments_replies_post u id
  | POST_comments_like u id => comments_like u id
  | POST_comments_dislike u id => comments_dislike u id
  | DELETE_comments u id => comments_delete u id
  end.

(** One request served to its end: the store it leaves. *)
Definition serve (db : DB) (r : Request) : DB := snd (run (handler r) db).

(** The requests of a list served one after the other. *)
Definition serve_all (rs : list Request) (db : DB) : DB := fold_left serve rs db.

(** The stores the server can be in when every request is served before the
    next one starts. *)
Definition reachable (db : DB) : Prop := exists rs, db = serve_all rs empty_db.

(** ** Route parameters

    [req.params.id] is the text of a path segment. Mongoose casts it to an
    [ObjectId] in the first query that uses it; several texts spell the same
    id (its 24 hexadecimal digits in either case) and [id.toString()] is one
    of them. A text that spells no id makes that query throw a [CastError]
    before anything is sent to the store; every handler with an [:id]
    catches it with [res.status(500).json({ message: 'Server error' })]. *)
Inductive RouteParam : Type :=
| spelling (id : ObjectId) (canonical : bool)  (* casts to [id]; [canonical]: it is [id.toString()] *)
| not_an_id.

Definition cast_param (p : RouteParam) : option ObjectId :=
  match p with
  | spelling id _ => Some id
  | not_an_id => None
  end.

(** [req.params.id === id.toString()] *)
Definition param_is (p : RouteParam) (id : ObjectId) : bool :=
  match p with
  | spelling i true => Nat.eqb i id
  | _ => false
  end.





(** ** Interleaved requests

    The pool holds the requests in flight, each as the rest of its handler;
    a schedule names, step by step, the request that runs up to its next
    [await]. *)
Fixpoint step_nth (i : nat) (pool : list (Prog Response)) (db : DB)
  : list (Prog Response) * DB :=
  match pool with
  | [] => ([], db)
  | p :: rest =>
      match i with
      | O => let (p', db') := step p db in (p' :: rest, db')
      | S j => let (rest', db') := step_nth j rest db in (p :: rest', db')
      end
  end.

Fixpoint run_schedule (sched : list nat) (pool : list (Prog Response)) (db : DB)
  : list (Prog Response) * DB :=
  match sched with
  | [] => (pool, db)
  | i :: sched' => let (pool', db') := step_nth i pool db in run_schedule sched' pool' db'
  end.

(** ** The reaction state machine, as the specification words it

    [react_spec] is written from the six-row table; the handlers above are
    compared with it. *)

(** What a reaction points at. *)
Inductive Target : Type :=
| on_video (id : ObjectId)
| on_comment (id : ObjectId).

Definition target_video (t : Target) : option ObjectId :=
  match t with on_video id => Some id | on_comment _ => None end.
Definition target_comment (t : Target) : option ObjectId :=
  match t with on_video _ => None | on_comment id => Some id end.

Definition Target_eqb (a b : Target) : bool :=
  match a, b with
  | on_video x, on_video y => Nat.eqb x y
  | on_comment x, on_comment y => Nat.eqb x y
  | _, _ => false
  end.

(** The row points at [t]. *)
Definition targets (t : Target) (l : Like) : bool :=
  match t with
  | on_video id => opt_id_eqb (like_video l) (Some id)
  | on_comment id => opt_id_eqb (like_comment l) (Some id)
  end.

(** The row is [actor]'s reaction to [t]. *)
Definition reaction_by (actor : ObjectId) (t : Target) (l : Like) : bool :=
  Nat.eqb (like_user l) actor && targets t l.

(** The row is a reaction of kind [k] to [t]. *)
Definition reaction_of_kind (t : Target) (k : ReactionType) (l : Like) : bool :=
  targets t l && ReactionType_eqb (like_type l) k.

Definition count {T : Type} (p : T -> bool) (l : list T) : nat := List.length (filter p l).

(** [find(actor, target)] of the Reaction Store. *)
Definition reaction_query (actor : ObjectId) (t : Target) : LikeQuery :=
  mkLikeQuery (Some actor) (target_video t) (target_comment t).

Definition find_reaction (actor : ObjectId) (t : Target) (db : DB) : option Like :=
  find (like_matches (reaction_query actor t)) (likes db).

(** The actor's reaction state: none, like or dislike. *)
Definition reaction_state (actor : ObjectId) (t : Target) (db : DB) : option ReactionType :=
  option_map like_type (find_reaction actor t db).

(** The target's stored [(likes, dislikes)], when it exists. *)
Definition counters (t : Target) (db : DB) : option (Z * Z) :=
  match t with
  | on_video id =>
      option_map (fun v => (video_likes v, video_dislikes v))
                 (find (has_video_id id) (videos db))
  | on_comment id =>
      option_map (fun c => (comment_likes c, comment_dislikes c))
                 (find (has_comment_id id) (comments db))
  end.

Definition target_exists (t : Target) (db : DB) : bool :=
  match t with
  | on_video id => existsb (has_video_id id) (videos db)
  | on_comment id => existsb (has_comment_id id) (comments db)
  end.

Inductive Transition : Type :=
| create_reaction (k : ReactionType)
| delete_reaction
| update_reaction (k : ReactionType).

(** The six rows: the transition and the deltas of (likes, dislikes). *)
Definition transition (existing : option ReactionType) (requested : ReactionType)
  : Transition * (Z * Z) :=
  match existing, requested with
  | None, like => (create_reaction like, (1, 0))
  | None, dislike => (create_reaction dislike, (0, 1))
  | Some like, like => (delete_reaction, (-1, 0))
  | Some dislike, dislike => (delete_reaction, (0, -1))
  | Some like, dislike => (update_reaction dislike, (-1, 1))
  | Some dislike, like => (update_reaction like, (1, -1))
  end%Z.

(** [adjust(targetRef, likeDelta, dislikeDelta)] of the Counter Maintainer. *)
Definition adjust (t : Target) (dl dd : Z) (db : DB) : DB :=
  match t with
  | on_video id =>
      with_videos
        (update_first (has_video_id id)
           (fun v => mkVideo (video_id v) (video_user v) (video_views v)
                             (video_likes v + dl) (video_dislikes v + dd))
           (videos db)) db
  | on_comment id =>
      with_comments
        (update_first (has_comment_id id)
           (fun c => mkComment (comment_id c) (comment_user c) (comment_video c)
                               (comment_likes c + dl) (comment_dislikes c + dd)
                               (comment_replies c) (comment_isReply c)
                               (comment_parentComment c))
           (comments db)) db
  end.

(** The Reaction Store's create, delete and updateKind. *)
Definition apply_transition (actor : ObjectId) (t : Target) (tr : Transition)
           (existing : option Like) (db : DB) : DB :=
  match tr, existing with
  | create_reaction k, _ =>
      mkDB (videos db) (comments db)
           (likes db ++ [mkLike (next_id db) actor (target_video t) (target_comment t) k])
           (S (next_id db))
  | delete_reaction, Some l =>
      with_likes (remove_first (has_like_id (like_id l)) (likes db)) db
  | update_reaction k, Some l =>
      with_likes (update_first (has_like_id (like_id l)) (set_like_type k) (likes db)) db
  | _, None => db
  end.

(** [react(actorId, targetRef, requestedKind)] on an existing target. *)
Definition react_spec (actor : ObjectId) (t : Target) (requested : ReactionType) (db : DB)
  : DB :=
  let existing := find_reaction actor t db in
  let '(tr, (dl, dd)) := transition (option_map like_type existing) requested in
  adjust t dl dd (apply_transition actor t tr existing db).

(** The request that reacts to [t] with kind [k]. *)
Definition react_request (actor : ObjectId) (t : Target) (k : ReactionType) : Request :=
  match t, k with
  | on_video id, like => POST_videos_like actor id
  | on_video id, dislike => POST_videos_dislike actor id
  | on_comment id, like => POST_comments_like actor id
  | on_comment id, dislike => POST_comments_dislike actor id
  end.

(** The actor has no reaction to [t] and the unique indexes refuse the row a
    reaction to [t] would create; the kind of the row plays no part in the
    indexes. *)
Definition create_refused (actor : ObjectId) (t : Target) (db : DB) : bool :=
  match find_reaction actor t db with
  | Some _ => false
  | None =>
      index_conflict (mkLike (next_id db) actor (target_video t) (target_comment t) like)
                     (likes db)
  end.

(** Both targets are videos, or both are comments. *)
Definition same_collection (t t' : Target) : bool :=
  match t, t' with
  | on_video _, on_video _ | on_comment _, on_comment _ => true
  | _, _ => false
  end.

(** The counters after deltas [dl] and [dd]. *)
Definition shift_counters (dl dd : Z) (c : option (Z * Z)) : option (Z * Z) :=
  option_map (fun c => (fst c + dl, snd c + dd)%Z) c.

(** A handler after its first two [await]s, both answered from [db]: the
    target and the actor's reaction have been read, nothing is written yet. *)
Definition after_reads (p : Prog Response) (db : DB) : Prog Response :=
  fst (step (fst (step p db)) db).

(** ** Invariants of the store *)

(** The (actor, target) key is unique. *)
Definition unique_reactions (db : DB) : Prop :=
  forall actor t, (count (reaction_by actor t) (likes db) <= 1)%nat.

(** The row has a video or a comment, and not both. *)
Definition single_target (l : Like) : Prop :=
  (exists id, like_video l = Some id /\ like_comment l = None)
  \/ (exists id, like_video l = None /\ like_comment l = Some id).

(** The counters of every stored target are the numbers of its rows. *)
Definition counters_consistent (db : DB) : Prop :=
  (forall v, In v (videos db) ->
     video_likes v = Z.of_nat (count (reaction_of_kind (on_video (video_id v)) like) (likes db))
     /\ video_dislikes v
        = Z.of_nat (count (reaction_of_kind (on_video (video_id v)) dislike) (likes db)))
  /\ (forall c, In c (comments db) ->
     comment_likes c
       = Z.of_nat (count (reaction_of_kind (on_comment (comment_id c)) like) (likes db))
     /\ comment_dislikes c
        = Z.of_nat (count (reaction_of_kind (on_comment (comment_id c)) dislike) (likes db))).

(** [counters_consistent], read through the lookup by id. *)
Definition counters_agree (db : DB) : Prop :=
  forall t lk dk, counters t db = Some (lk, dk) ->
    lk = Z.of_nat (count (reaction_of_kind t like) (likes db))
    /\ dk = Z.of_nat (count (reaction_of_kind t dislike) (likes db)).

(** Every stored id was handed out by the generator. *)
Definition ids_below (db : DB) : Prop :=
  (forall v, In v (videos db) -> video_id v < next_id db)
  /\ (forall c, In c (comments db) -> comment_id c < next_id db)
  /\ (forall l, In l (likes db) -> like_id l < next_id db).

(** [_id] is unique in each collection. *)
Definition ids_unique (db : DB) : Prop :=
  NoDup (map video_id (videos db))
  /\ NoDup (map comment_id (comments db))
  /\ NoDup (map like_id (likes db)).

(** What the storage layer keeps whatever the callers do. *)
Definition store_ok (db : DB) : Prop :=
  ids_below db /\ ids_unique db /\ unique_reactions db.

(** Every row points at ids the generator handed out. *)
Definition targets_below (db : DB) : Prop :=
  forall l id, In l (likes db) ->
    like_video l = Some id \/ like_comment l = Some id -> id < next_id db.

(** Every row on a video points at a stored video. *)
Definition video_rows_resolve (db : DB) : Prop :=
  forall l id, In l (likes db) -> like_video l = Some id ->
    existsb (has_video_id id) (videos db) = true.

(** The invariant of uninterrupted service. *)
Record Inv (db : DB) : Prop := mkInv {
  inv_store : store_ok db;
  inv_targets : targets_below db;
  inv_single : Forall single_target (likes db);
  inv_counters : counters_consistent db;
  inv_resolve : video_rows_resolve db
}.

(** Every [Like] a program inserts satisfies [P]. *)
Definition inserts_single_target {X : Type} (op : Op X) : Prop :=
  match op with
  | Like_insert user video comment t => single_target (mkLike 0 user video comment t)
  | _ => True
  end.

Fixpoint calls_ok {A : Type} (P : forall X, Op X -> Prop) (p : Prog A) : Prop :=
  match p with
  | Ret _ | Throw _ => True
  | Call op k => P _ op /\ forall r, calls_ok P (k r)
  end.

(** ** Answers *)


(** The [message] of the six branches at the video and at the comment
    handlers. *)
Definition react_message (t : Target) (existing : option ReactionType)
           (requested : ReactionType) : string :=
  match existing, requested with
  | None, like => match t with on_video _ => "Video liked" | on_comment _ => "Comment liked" end
  | None, dislike =>
      match t with on_video _ => "Video disliked" | on_comment _ => "Comment disliked" end
  | Some like, like => "Like removed"
  | Some dislike, dislike => "Dislike removed"
  | Some dislike, like => "Changed dislike to like"
  | Some like, dislike => "Changed like to dislike"
  end.

(** The [message] of an answer, when it has one. *)
Definition response_message (r : Response) : option string :=
  match r with
  | res_message _ m => Some m
  | res_message_video m _ => Some m
  | res_message_comment m _ => Some m
  | _ => None
  end.


(** The other kind. *)
Definition opposite (k : ReactionType) : ReactionType :=
  match k with like => dislike | dislike => like end.

(** The actor's reaction state after a request of kind [k]: the third
    column of the table, read as states. *)
Definition next_state (existing : option ReactionType) (k : ReactionType)
  : option ReactionType :=
  match existing with
  | None => Some k
  | Some e => if ReactionType_eqb e k then None else Some k
  end.

(** ** middleware/upload.js *)

(** [s.startsWith(prefix)] *)
Definition startsWith (s prefix : string) : bool := String.prefix prefix s.

(** What [fileFilter] hands to its callback: [cb(null, true)] or
    [cb(new Error(message), false)]. *)
Inductive FilterResult : Type :=
| accept_file
| reject_file (message : string).

Definition fileFilter (fieldname mimetype : string) : FilterResult :=
  if String.eqb fieldname "video" then
    if startsWith mimetype "video/" then accept_file
    else reject_file "Only video files are allowed!"
  else if String.eqb fieldname "thumbnail" || String.eqb fieldname "avatar" then
    if startsWith mimetype "image/" then accept_file
    else reject_file "Only image files are allowed!"
  else reject_file "Unexpected field".

(** [destination] of the disk storage: the path joined to [__dirname], or
    the empty [uploadPath] it starts from. *)
Definition destination (fieldname : string) : string :=
  if String.eqb fieldname "video" then "../uploads/videos"
  else if String.eqb fieldname "thumbnail" then "../uploads/thumbnails"
  else if String.eqb fieldname "avatar" then "../uploads/avatars"
  else "".

(** ** models/Subscription.js and routes/users.js

    The subscription handlers, each served without interruption; [req_id] is
    the text of [req.params.id]. *)

(** [SubscriptionSchema] *)
Record Subscription : Type := mkSubscription {
  subscription_id         : ObjectId;
  subscription_subscriber : ObjectId;
  subscription_channel    : ObjectId
}.

(** The fields of a user that the subscription handlers write. *)
Record User : Type := mkUser {
  user_id           : ObjectId;
  user_subscribers  : Z;
  user_subscribedTo : list ObjectId
}.

Record UserDB : Type := mkUserDB {
  users         : list User;
  subscriptions : list Subscription;
  user_next_id  : ObjectId
}.

Inductive UserResponse : Type :=
| user_res_message (status : nat) (message : string)   (* res.status(s).json({ message }) *)
| user_res_isSubscribed (isSubscribed : bool).         (* res.json({ isSubscribed }) *)

Definition has_user_id (id : ObjectId) (u : User) : bool := Nat.eqb (user_id u) id.
Definition has_subscription_id (id : ObjectId) (s : Subscription) : bool :=
  Nat.eqb (subscription_id s) id.

(** The filter [{ subscriber, channel }]. *)
Definition subscription_matches (subscriber channel : ObjectId) (s : Subscription) : bool :=
  Nat.eqb (subscription_subscriber s) subscriber && Nat.eqb (subscription_channel s) channel.

(** [{ $inc: { subscribers: n } }] *)
Definition inc_subscribers (n : Z) (u : User) : User :=
  mkUser (user_id u) (user_subscribers u + n) (user_subscribedTo u).
(** [{ $push: { subscribedTo: channel } }] *)
Definition push_subscribedTo (channel : ObjectId) (u : User) : User :=
  mkUser (user_id u) (user_subscribers u) (user_subscribedTo u ++ [channel]).
(** [{ $pull: { subscribedTo: channel } }] *)
Definition pull_subscribedTo (channel : ObjectId) (u : User) : User :=
  mkUser (user_id u) (user_subscribers u)
         (filter (fun c => negb (Nat.eqb c channel)) (user_subscribedTo u)).

(** POST /api/users/:id/subscribe. The test against the user's own id
    compares texts; the queries after it cast [req.params.id]. *)
Definition users_subscribe (req_user : ObjectId) (req_id : RouteParam) (db : UserDB)
  : UserResponse * UserDB :=
  if param_is req_id req_user
  then (user_res_message 400 "You cannot subscribe to yourself", db)
  else
    match cast_param req_id with
    | None => (user_res_message 500 "Server error", db)
    | Some req_id =>
        match find (has_user_id req_id) (users db) with
        | None => (user_res_message 404 "Channel not found", db)
        | Some channel =>
            match find (subscription_matches req_user req_id) (subscriptions db) with
            | Some existingSubscription =>
                (user_res_message 400 "Already subscribed to this channel", db)
            | None =>
                let subscription := mkSubscription (user_next_id db) req_user req_id in
                (* subscription.save() under the unique index { subscriber, channel } *)
                if existsb (subscription_matches req_user req_id) (subscriptions db)
                then (user_res_message 500 "Server error", db)
                else
                  let users1 :=
                    update_first (has_user_id req_id) (inc_subscribers 1) (users db) in
                  let users2 :=
                    update_first (has_user_id req_user) (push_subscribedTo req_id) users1 in
                  (user_res_message 200 "Subscribed successfully",
                   mkUserDB users2 (subscriptions db ++ [subscription])
                            (S (user_next_id db)))
            end
        end
    end.

(** POST /api/users/:id/unsubscribe *)
Definition users_unsubscribe (req_user : ObjectId) (req_id : RouteParam) (db : UserDB)
  : UserResponse * UserDB :=
  match cast_param req_id with
  | None => (user_res_message 500 "Server error", db)
  | Some req_id =>
      match find (subscription_matches req_user req_id) (subscriptions db) with
      | None => (user_res_message 400 "Not subscribed to this channel", db)
      | Some subscription =>
          let subscriptions1 :=
            remove_first (has_subscription_id (subscription_id subscription))
                         (subscriptions db) in
          let users1 :=
            update_first (has_user_id req_id) (inc_subscribers (-1)) (users db) in
          let users2 :=
            update_first (has_user_id req_user) (pull_subscribedTo req_id) users1 in
          (user_res_message 200 "Unsubscribed successfully",
           mkUserDB users2 subscriptions1 (user_next_id db))
      end
  end.

(** GET /api/users/:id/subscription-status *)
Definition users_subscription_status (req_user : ObjectId) (req_id : RouteParam)
           (db : UserDB) : UserResponse * UserDB :=
  match cast_param req_id with
  | None => (user_res_message 500 "Server error", db)
  | Some req_id =>
      match find (subscription_matches req_user req_id) (subscriptions db) with
      | Some subscription => (user_res_isSubscribed true, db)
      | None => (user_res_isSubscribed false, db)
      end
  end.

Inductive UserRequest : Type :=
| POST_users_subscribe (req_user : ObjectId) (req_id : RouteParam)
| POST_users_unsubscribe (req_user : ObjectId) (req_id : RouteParam)
| GET_users_subscription_status (req_user : ObjectId) (req_id : RouteParam).

Definition user_handler (r : UserRequest) (db : UserDB) : UserResponse * UserDB :=
  match r with
  | POST_users_subscribe u id => users_subscribe u id db
  | POST_users_unsubscribe u id => users_unsubscribe u id db
  | GET_users_subscription_status u id => users_subscription_status u id db
  end.

(** The (subscriber, channel) key is unique. *)
Definition subscriptions_unique (db : UserDB) : Prop :=
  forall subscriber channel,
    (count (subscription_matches subscriber channel) (subscriptions db) <= 1)%nat.

(** Nobody is subscribed to themselves. *)
Definition no_self_subscription (db : UserDB) : Prop :=
  forall s, In s (subscriptions db) -> subscription_subscriber s <> subscription_channel s.

(** The [subscribers] of the user a lookup by id returns is the number of
    subscriptions to that id. *)
Definition subscribers_consistent (db : UserDB) : Prop :=
  forall id u, find (has_user_id id) (users db) = Some u ->
    user_subscribers u
    = Z.of_nat (count (fun s => Nat.eqb (subscription_channel s) id) (subscriptions db)).

(** Subscription ids are unique and were handed out by the generator. *)
Definition subscription_ids_ok (db : UserDB) : Prop :=
  NoDup (map subscription_id (subscriptions db))
  /\ (forall s, In s (subscriptions db) -> subscription_id s < user_next_id db).

(** ** Runs *)

Example smoke_like_twice :
  serve_all [POST_videos 7; POST_videos_like 8 0; POST_videos_like 9 0; POST_videos_dislike 8 0]
            empty_db
  = mkDB [mkVideo 0 7 0 1 1] [] [mkLike 1 8 (Some 0) None dislike; mkLike 2 9 (Some 0) None like] 3.
Proof. reflexivity. Qed.

Example smoke_react_spec :
  react_spec 8 (on_video 0) dislike
    (serve_all [POST_videos 7; POST_videos_like 8 0; POST_videos_like 9 0] empty_db)
  = mkDB [mkVideo 0 7 0 1 1] [] [mkLike 1 8 (Some 0) None dislike; mkLike 2 9 (Some 0) None like] 3.
Proof. reflexivity. Qed.

(** ** Lists as collections *)

Unset Implicit Arguments.

Section Collections.
Variable T : Type.
Variables p q : T -> bool.
Variable f : T -> T.

Lemma find_existsb (l : list T) (x : T) :
  find p l = Some x -> existsb p l = true.
Proof.
  intros H. apply find_some in H. apply existsb_exists. exists x. exact H.
Qed.

Lemma existsb_find (l : list T) :
  existsb p l = true -> exists x, find p l = Some x.
Proof.
  induction l as [|y r IH]; simpl; [discriminate|].
  destruct (p y); [eauto | exact IH].
Qed.

Lemma find_none_existsb (l : list T) :
  find p l = None -> existsb p l = false.
Proof.
  intros H. destruct (existsb p l) eqn:E; [|reflexivity].
  apply existsb_find in E. destruct E as [x E]. congruence.
Qed.

(** The first match splits the collection. *)
Lemma find_split (l : list T) (x : T) :
  find p l = Some x ->
  exists l1 l2, l = l1 ++ x :: l2 /\ p x = true /\ forall y, In y l1 -> p y = false.
Proof.
  induction l as [|y r IH]; simpl; [discriminate|].
  destruct (p y) eqn:E.
  - intros [= ->]. exists [], r. repeat split; [exact E | intros ? []].
  - intros H. destruct (IH H) as (l1 & l2 & -> & Hx & Hl).
    exists (y :: l1), l2. repeat split; [exact Hx|].
    intros z [<- | Hz]; [exact E | exact (Hl z Hz)].
Qed.

Lemma update_first_split (l1 l2 : list T) (x : T) :
  p x = true -> (forall y, In y l1 -> p y = false) ->
  update_first p f (l1 ++ x :: l2) = l1 ++ f x :: l2.
Proof.
  intros Hx. induction l1 as [|y r IH]; simpl; intros Hl.
  - now rewrite Hx.
  - rewrite (Hl y (or_introl eq_refl)). f_equal. apply IH. intros; apply Hl; now right.
Qed.

Lemma remove_first_split (l1 l2 : list T) (x : T) :
  p x = true -> (forall y, In y l1 -> p y = false) ->
  remove_first p (l1 ++ x :: l2) = l1 ++ l2.
Proof.
  intros Hx. induction l1 as [|y r IH]; simpl; intros Hl.
  - now rewrite Hx.
  - rewrite (Hl y (or_introl eq_refl)). f_equal. apply IH. intros; apply Hl; now right.
Qed.

Lemma update_first_none (l : list T) :
  (forall y, In y l -> p y = false) -> update_first p f l = l.
Proof.
  induction l as [|y r IH]; simpl; intros Hl; [reflexivity|].
  rewrite (Hl y (or_introl eq_refl)). f_equal. apply IH. intros; apply Hl; now right.
Qed.

Lemma remove_first_none (l : list T) :
  (forall y, In y l -> p y = false) -> remove_first p l = l.
Proof.
  induction l as [|y r IH]; simpl; intros Hl; [reflexivity|].
  rewrite (Hl y (or_introl eq_refl)). f_equal. apply IH. intros; apply Hl; now right.
Qed.

Lemma find_app_none (l1 l2 : list T) :
  (forall y, In y l1 -> p y = false) -> find p (l1 ++ l2) = find p l2.
Proof.
  induction l1 as [|y r IH]; simpl; intros Hl; [reflexivity|].
  rewrite (Hl y (or_introl eq_refl)). apply IH. intros; apply Hl; now right.
Qed.

Lemma find_none_all (l : list T) :
  find p l = None -> forall y, In y l -> p y = false.
Proof. intros H y Hy. exact (find_none p l H y Hy). Qed.

Lemma all_find_none (l : list T) :
  (forall y, In y l -> p y = false) -> find p l = None.
Proof.
  induction l as [|y r IH]; simpl; intros Hl; [reflexivity|].
  rewrite (Hl y (or_introl eq_refl)). apply IH. intros; apply Hl; now right.
Qed.

Lemma count_app (l1 l2 : list T) : count p (l1 ++ l2) = count p l1 + count p l2.
Proof. unfold count. now rewrite filter_app, length_app. Qed.

Lemma count_cons (x : T) (l : list T) :
  count p (x :: l) = (if p x then 1 else 0) + count p l.
Proof. unfold count. simpl. now destruct (p x). Qed.

Lemma count_zero (l : list T) :
  (forall y, In y l -> p y = false) -> count p l = 0.
Proof.
  induction l as [|y r IH]; intros Hl; [reflexivity|].
  rewrite count_cons, (Hl y (or_introl eq_refl)). apply IH. intros; apply Hl; now right.
Qed.

Lemma count_zero_inv (l : list T) (y : T) :
  count p l = 0 -> In y l -> p y = false.
Proof.
  induction l as [|x r IH]; [intros _ []|].
  rewrite count_cons. intros H [<- | Hy].
  - destruct (p x); [discriminate | reflexivity].
  - apply IH; [|exact Hy]. destruct (p x); [discriminate | exact H].
Qed.

Lemma count_remove_all_le (l : list T) : count p (remove_all q l) <= count p l.
Proof.
  induction l as [|x r IH]; [apply Nat.le_refl|].
  unfold remove_all in *. simpl. rewrite (count_cons x r).
  destruct (q x); simpl; [|rewrite count_cons]; lia.
Qed.

Lemma count_remove_first_le (l : list T) : count p (remove_first q l) <= count p l.
Proof.
  induction l as [|x r IH]; [apply Nat.le_refl|].
  simpl. rewrite (count_cons x r).
  destruct (q x); [|rewrite count_cons]; lia.
Qed.

(** Rewriting a document without changing what [p] sees keeps the count. *)
Lemma count_update_first_same (l : list T) :
  (forall x, p (f x) = p x) -> count p (update_first q f l) = count p l.
Proof.
  intros Hf. induction l as [|x r IH]; [reflexivity|].
  simpl. destruct (q x); rewrite !count_cons; [now rewrite Hf | now rewrite IH].
Qed.

(** Removing the rows that [p] does not see keeps the count. *)
Lemma count_remove_all_other (l : list T) :
  (forall x, In x l -> q x = true -> p x = false) ->
  count p (remove_all q l) = count p l.
Proof.
  induction l as [|x r IH]; intros H; [reflexivity|].
  unfold remove_all in *. simpl. rewrite (count_cons x r).
  destruct (q x) eqn:E; simpl.
  - rewrite (H x (or_introl eq_refl) E). apply IH. intros; apply H; [now right | assumption].
  - rewrite count_cons. f_equal. apply IH. intros; apply H; [now right | assumption].
Qed.

Lemma count_remove_all_self (l : list T) :
  (forall x, p x = true -> q x = true) -> count p (remove_all q l) = 0.
Proof.
  intros H. apply count_zero. intros y Hy. unfold remove_all in Hy.
  apply filter_In in Hy. destruct Hy as [_ Hq].
  destruct (p y) eqn:E; [|reflexivity]. rewrite (H y E) in Hq. discriminate.
Qed.

Lemma In_remove_first (l : list T) (y : T) : In y (remove_first p l) -> In y l.
Proof using Type.
  induction l as [|x r IH]; simpl; [exact (fun H => H)|].
  destruct (p x); simpl; [intros H; right; exact H|].
  intros [-> | H]; [left; reflexivity | right; exact (IH H)].
Qed.

Lemma In_remove_all (l : list T) (y : T) : In y (remove_all p l) -> In y l /\ p y = false.
Proof.
  unfold remove_all. intros H. apply filter_In in H. destruct H as [H1 H2].
  split; [exact H1 | now destruct (p y)].
Qed.

Lemma In_update_first (l : list T) (y : T) :
  In y (update_first p f l) -> In y l \/ exists x, In x l /\ y = f x.
Proof using Type.
  induction l as [|x r IH]; simpl; [intros []|].
  destruct (p x); simpl.
  - intros [<- | H].
    + right. exists x. split; [left; reflexivity | reflexivity].
    + left. right. exact H.
  - intros [<- | H]; [left; left; reflexivity|].
    destruct (IH H) as [H1 | (z & Hz & ->)].
    + left. right. exact H1.
    + right. exists z. split; [right; exact Hz | reflexivity].
Qed.
End Collections.

(** A projection that the rewrite keeps, such as [_id]. *)
Lemma map_update_first (T K : Type) (key : T -> K) (p : T -> bool) (f : T -> T) (l : list T) :
  (forall x, key (f x) = key x) -> map key (update_first p f l) = map key l.
Proof.
  intros Hf. induction l as [|x r IH]; [reflexivity|].
  simpl. destruct (p x); simpl; [now rewrite Hf | now rewrite IH].
Qed.

Lemma NoDup_map_remove_first (T K : Type) (key : T -> K) (p : T -> bool) (l : list T) :
  NoDup (map key l) -> NoDup (map key (remove_first p l)).
Proof.
  induction l as [|x r IH]; simpl; intros H; [constructor|].
  inversion H as [|? ? Hn Hr]; subst.
  destruct (p x); [exact Hr|]. simpl. constructor; [|auto].
  intros Hin. apply Hn. apply in_map_iff in Hin. destruct Hin as (y & Hy & Hin).
  apply in_map_iff. exists y. split; [exact Hy | eapply In_remove_first; eauto].
Qed.

Lemma NoDup_map_remove_all (T K : Type) (key : T -> K) (p : T -> bool) (l : list T) :
  NoDup (map key l) -> NoDup (map key (remove_all p l)).
Proof.
  induction l as [|x r IH]; simpl; intros H; [constructor|].
  inversion H as [|? ? Hn Hr]; subst.
  unfold remove_all in *. simpl. destruct (p x); simpl; [auto|].
  constructor; [|auto].
  intros Hin. apply Hn. apply in_map_iff in Hin. destruct Hin as (y & Hy & Hin).
  apply in_map_iff. exists y. split; [exact Hy|]. apply filter_In in Hin. tauto.
Qed.

Lemma NoDup_map_app_fresh (T : Type) (key : T -> nat) (l : list T) (x : T) (n : nat) :
  (forall y, In y l -> key y < n) -> key x = n ->
  NoDup (map key l) -> NoDup (map key (l ++ [x])).
Proof.
  intros Hl Hx Hn. rewrite map_app. simpl.
  apply NoDup_app; [exact Hn | repeat constructor; intros [] |].
  intros k Hk [<- | []]. apply in_map_iff in Hk. destruct Hk as (y & Hy & Hin).
  specialize (Hl y Hin). lia.
Qed.

(** With unique keys, a stored document is the first one with its key. *)
Lemma NoDup_key_split (T : Type) (key : T -> nat) (l : list T) (x : T) :
  NoDup (map key l) -> In x l ->
  exists l1 l2, l = l1 ++ x :: l2
    /\ (forall y, In y l1 -> Nat.eqb (key y) (key x) = false)
    /\ (forall y, In y l2 -> Nat.eqb (key y) (key x) = false).
Proof.
  intros Hn Hin. apply in_split in Hin. destruct Hin as (l1 & l2 & ->).
  exists l1, l2. split; [reflexivity|].
  rewrite map_app in Hn. simpl in Hn.
  pose proof (NoDup_remove_2 _ _ _ Hn) as Hx.
  split; intros y Hy; apply Nat.eqb_neq; intros E; apply Hx; rewrite <- E;
    apply in_or_app; [left | right]; apply in_map; exact Hy.
Qed.

Lemma has_video_id_find (id : ObjectId) (l : list Video) (v : Video) :
  find (has_video_id id) l = Some v -> video_id v = id.
Proof. intros H. apply find_some in H. destruct H as [_ H]. now apply Nat.eqb_eq in H. Qed.

Lemma has_comment_id_find (id : ObjectId) (l : list Comment) (c : Comment) :
  find (has_comment_id id) l = Some c -> comment_id c = id.
Proof. intros H. apply find_some in H. destruct H as [_ H]. now apply Nat.eqb_eq in H. Qed.

Lemma update_first_ext_find (T : Type) (p : T -> bool) (f g : T -> T) (l : list T) (x : T) :
  find p l = Some x -> f x = g x -> update_first p f l = update_first p g l.
Proof.
  intros H E. destruct (find_split _ p l _ H) as (l1 & l2 & -> & Hx & Hl).
  rewrite !update_first_split by assumption. now rewrite E.
Qed.

(** The indexes read the user and the two references of a row, not its
    kind. *)
Lemma index_conflict_kind (n : nat) (u : ObjectId) (v c : option ObjectId)
      (rows : list Like) :
  index_conflict (mkLike n u v c dislike) rows = index_conflict (mkLike n u v c like) rows.
Proof. reflexivity. Qed.

Lemma found_like_stored (q : LikeQuery) (rows : list Like) (ex : Like) :
  find (like_matches q) rows = Some ex ->
  existsb (has_like_id (like_id ex)) rows = true.
Proof.
  intros H. apply find_some in H. apply existsb_exists. exists ex.
  split; [tauto | apply Nat.eqb_refl].
Qed.

(** The handler's [$set] of the values it computed in memory is the
    adjustment of the stored counters by the row's deltas. *)
Ltac same_write Hfound :=
  unfold with_videos, with_comments, with_likes; simpl; f_equal;
  apply update_first_ext_find with (1 := Hfound);
  match type of Hfound with _ = Some ?d => destruct d end;
  cbv [write_video write_comment assign_video assign_comment_likes assign_comment_dislikes
       loaded value modifiedPaths fold_right write_video_path write_comment_path
       set_video_likes set_video_dislikes set_comment_likes set_comment_dislikes
       video_id video_user video_views video_likes video_dislikes
       comment_id comment_user comment_video comment_likes comment_dislikes
       comment_replies comment_isReply comment_parentComment];
  f_equal; lia.

Ltac react_cases t Hex Hfound :=
  rewrite ?index_conflict_kind;
  cbv beta iota delta [reaction_query target_video target_comment];
  match goal with
  | |- context [find (like_matches ?q) (likes ?db)] =>
      change q with (reaction_query (match q_user q with Some u => u | None => 0 end) t);
      cbv beta iota delta [q_user];
      destruct (find (like_matches (reaction_query _ t)) (likes db)) as [ex|] eqn:Hf; simpl;
      [ rewrite ?(found_like_stored _ _ _ Hf);
        destruct (like_type ex) eqn:Ht; simpl;
        rewrite ?(found_like_stored _ _ _ Hf); simpl; rewrite ?Hex; simpl;
        same_write Hfound
      | rewrite ?index_conflict_kind;
        match goal with
        | |- context [index_conflict ?l ?rows] => destruct (index_conflict l rows) eqn:?
        end; simpl; [reflexivity | rewrite ?Hex; simpl; same_write Hfound] ]
  end.

(** A handler either meets a refusal of the indexes at its create branch,
    and then leaves the store as it found it, or does what [react_spec]
    does. *)
Lemma videos_like_serve (u id : ObjectId) (db : DB) :
  existsb (has_video_id id) (videos db) = true ->
  serve db (POST_videos_like u id)
  = if create_refused u (on_video id) db then db else react_spec u (on_video id) like db.
Proof.
  intros Hex. destruct (existsb_find _ _ _ Hex) as [v Hv].
  pose proof (has_video_id_find _ _ _ Hv) as Hid. subst id.
  unfold serve, create_refused, react_spec, find_reaction. simpl. rewrite Hv. simpl.
  react_cases (on_video (video_id v)) Hex Hv.
Qed.

Lemma videos_dislike_serve (u id : ObjectId) (db : DB) :
  existsb (has_video_id id) (videos db) = true ->
  serve db (POST_videos_dislike u id)
  = if create_refused u (on_video id) db then db else react_spec u (on_video id) dislike db.
Proof.
  intros Hex. destruct (existsb_find _ _ _ Hex) as [v Hv].
  pose proof (has_video_id_find _ _ _ Hv) as Hid. subst id.
  unfold serve, create_refused, react_spec, find_reaction. simpl. rewrite Hv. simpl.
  react_cases (on_video (video_id v)) Hex Hv.
Qed.

Lemma comments_like_serve (u id : ObjectId) (db : DB) :
  existsb (has_comment_id id) (comments db) = true ->
  serve db (POST_comments_like u id)
  = if create_refused u (on_comment id) db then db else react_spec u (on_comment id) like db.
Proof.
  intros Hex. destruct (existsb_find _ _ _ Hex) as [c Hc].
  pose proof (has_comment_id_find _ _ _ Hc) as Hid. subst id.
  unfold serve, create_refused, react_spec, find_reaction. simpl. rewrite Hc. simpl.
  react_cases (on_comment (comment_id c)) Hex Hc.
Qed.

Lemma comments_dislike_serve (u id : ObjectId) (db : DB) :
  existsb (has_comment_id id) (comments db) = true ->
  serve db (POST_comments_dislike u id)
  = if create_refused u (on_comment id) db then db else react_spec u (on_comment id) dislike db.
Proof.
  intros Hex. destruct (existsb_find _ _ _ Hex) as [c Hc].
  pose proof (has_comment_id_find _ _ _ Hc) as Hid. subst id.
  unfold serve, create_refused, react_spec, find_reaction. simpl. rewrite Hc. simpl.
  react_cases (on_comment (comment_id c)) Hex Hc.
Qed.

(** The four handlers are one state machine behind one refusal. *)
Lemma react_serve (actor : ObjectId) (t : Target) (k : ReactionType) (db : DB) :
  target_exists t db = true ->
  serve db (react_request actor t k)
  = if create_refused actor t db then db else react_spec actor t k db.
Proof.
  destruct t, k; simpl; intros H.
  - now apply videos_like_serve.
  - now apply videos_dislike_serve.
  - now apply comments_like_serve.
  - now apply comments_dislike_serve.
Qed.

Lemma react_refines (actor : ObjectId) (t : Target) (k : ReactionType) (db : DB) :
  target_exists t db = true -> create_refused actor t db = false ->
  serve db (react_request actor t k) = react_spec actor t k db.
Proof. intros H Hc. now rewrite react_serve, Hc. Qed.

Lemma react_refused (actor : ObjectId) (t : Target) (k : ReactionType) (db : DB) :
  target_exists t db = true -> create_refused actor t db = true ->
  serve db (react_request actor t k) = db.
Proof. intros H Hc. now rewrite react_serve, Hc. Qed.

(** A refused create is the handler's [catch]: 500, nothing written. *)
Lemma react_refused_run (actor : ObjectId) (t : Target) (k : ReactionType) (db : DB) :
  target_exists t db = true -> create_refused actor t db = true ->
  run (handler (react_request actor t k)) db = (inr (res_message 500 "Server error"), db).
Proof.
  unfold create_refused, find_reaction.
  destruct t as [id | id], k; simpl; intros Hex Hc;
    destruct (existsb_find _ _ _ Hex) as [d Hd];
    first [ pose proof (has_video_id_find _ _ _ Hd) as Hid
          | pose proof (has_comment_id_find _ _ _ Hd) as Hid ];
    subst id; rewrite Hd; simpl;
    unfold reaction_query, target_video, target_comment in Hc;
    match goal with
    | |- context [find ?p (likes db)] => destruct (find p (likes db)); [discriminate|]
    end; simpl; rewrite ?index_conflict_kind, Hc; reflexivity.
Qed.

(** A reaction the actor already has is never refused. *)
Lemma create_refused_state (actor : ObjectId) (t : Target) (db : DB) :
  create_refused actor t db = true -> reaction_state actor t db = None.
Proof.
  unfold create_refused, reaction_state. destruct (find_reaction actor t db); [discriminate|].
  reflexivity.
Qed.

(** On a missing target the handlers answer 404 and write nothing. *)
Lemma react_missing (actor : ObjectId) (t : Target) (k : ReactionType) (db : DB) :
  target_exists t db = false ->
  serve db (react_request actor t k) = db.
Proof.
  destruct t, k; simpl; intros H; unfold serve; simpl;
    match goal with
    | |- context [find ?p ?l] =>
        destruct (find p l) eqn:E; [apply find_existsb in E; congruence | reflexivity]
    end.
Qed.

(** ** What every store call keeps *)

Lemma write_video_id (d : VideoDoc) (v : Video) : video_id (write_video d v) = video_id v.
Proof.
  unfold write_video. induction (modifiedPaths d) as [|p r IH]; simpl; [reflexivity|].
  destruct p; simpl; exact IH.
Qed.

Lemma write_comment_id (d : CommentDoc) (c : Comment) :
  comment_id (write_comment d c) = comment_id c.
Proof.
  unfold write_comment. induction (modifiedPaths d) as [|p r IH]; simpl; [reflexivity|].
  destruct p; simpl; exact IH.
Qed.

Lemma In_app_one (T : Type) (l : list T) (x y : T) : In y (l ++ [x]) -> In y l \/ y = x.
Proof. intros H. apply in_app_or in H. destruct H as [H | [H | []]]; auto. Qed.

Ltac in_collection Hy :=
  lazymatch type of Hy with
  | In _ (_ ++ [_]) => apply In_app_one in Hy; destruct Hy as [Hy | ->]
  | In _ (remove_first _ _) => apply In_remove_first in Hy
  | In _ (remove_all _ _) => apply In_remove_all in Hy; destruct Hy as [Hy _]
  | In _ (update_first _ _ _) =>
      let z := fresh "z" in
      apply In_update_first in Hy; destruct Hy as [Hy | (z & Hy & ->)];
      rewrite ?write_video_id, ?write_comment_id
  | _ => idtac
  end.

Lemma exec_op_ids_below (X : Type) (op : Op X) (db : DB) :
  ids_below db -> ids_below (snd (exec_op op db)).
Proof.
  intros (Hv & Hc & Hl).
  destruct op as [ | | | | | | | | | [parent|] ? | | | | | ]; simpl;
    repeat match goal with
           | |- context [if ?b then _ else _] => destruct b
           end; simpl;
    try (repeat split; assumption);
    unfold ids_below; simpl; repeat split; intros y Hy;
    in_collection Hy; simpl;
    first [specialize (Hv _ Hy) | specialize (Hc _ Hy) | specialize (Hl _ Hy) | idtac];
    lia.
Qed.

Lemma exec_op_ids_unique (X : Type) (op : Op X) (db : DB) :
  ids_below db -> ids_unique db -> ids_unique (snd (exec_op op db)).
Proof.
  intros (Hv & Hc & Hl) (Nv & Nc & Nl).
  destruct op as [ | | | | | | | | | [parent|] ? | | | | | ]; simpl;
    repeat match goal with
           | |- context [if ?b then _ else _] => destruct b
           end; simpl;
    try (repeat split; assumption);
    unfold ids_unique; simpl; repeat split; try assumption;
    try (apply NoDup_map_remove_first; assumption);
    try (apply NoDup_map_remove_all; assumption);
    try (eapply NoDup_map_app_fresh; eauto; reflexivity);
    try (rewrite map_update_first; [assumption | intros; simpl;
         rewrite ?write_video_id, ?write_comment_id; reflexivity]).
Qed.

Lemma opt_id_eqb_eq (a b : option ObjectId) : opt_id_eqb a b = true <-> a = b.
Proof.
  destruct a, b; simpl; split; try discriminate; try reflexivity.
  - intros H. apply Nat.eqb_eq in H. now subst.
  - intros [= ->]. apply Nat.eqb_refl.
Qed.

Lemma reaction_by_spec (actor : ObjectId) (t : Target) (l : Like) :
  reaction_by actor t l = true <->
  like_user l = actor /\
  match t with
  | on_video id => like_video l = Some id
  | on_comment id => like_comment l = Some id
  end.
Proof.
  unfold reaction_by, targets. rewrite andb_true_iff, Nat.eqb_eq.
  destruct t; rewrite opt_id_eqb_eq; tauto.
Qed.

(** The unique indexes refuse a second row for an (actor, target). *)
Lemma no_conflict_no_reaction (l : Like) (rows : list Like) (actor : ObjectId) (t : Target) :
  index_conflict l rows = false -> reaction_by actor t l = true ->
  forall r, In r rows -> reaction_by actor t r = false.
Proof.
  intros Hc Hl r Hr. destruct (reaction_by actor t r) eqn:E; [|reflexivity].
  apply reaction_by_spec in Hl. apply reaction_by_spec in E.
  destruct Hl as [Hu Ht], E as [Hu' Ht'].
  assert (existsb (fun r => same_key (like_user l) (like_video l) (like_user r) (like_video r)
                   || same_key (like_user l) (like_comment l) (like_user r) (like_comment r))
                  rows = true) as Hex.
  { apply existsb_exists. exists r. split; [exact Hr|].
    unfold same_key. rewrite Hu, Hu'. destruct t; rewrite Ht, Ht', !Nat.eqb_refl; simpl;
      rewrite ?Nat.eqb_refl; [reflexivity | apply orb_true_r]. }
  unfold index_conflict in Hc. congruence.
Qed.

Lemma exec_op_unique_reactions (X : Type) (op : Op X) (db : DB) :
  unique_reactions db -> unique_reactions (snd (exec_op op db)).
Proof.
  intros Hu.
  destruct op; simpl;
    repeat match goal with
           | |- context [if ?b then _ else _] => destruct b eqn:?
           end; simpl; try exact Hu; intros actor tg; simpl.
  - (* Like_insert *)
    rewrite count_app, count_cons. unfold count at 2. simpl.
    destruct (reaction_by actor tg _) eqn:E; [|specialize (Hu actor tg); lia].
    rewrite (count_zero _ _ _ (no_conflict_no_reaction _ _ _ _ Heqb E)). lia.
  - (* Like_save *)
    rewrite count_update_first_same; [apply Hu | reflexivity].
  - (* Like_deleteOne *)
    eapply Nat.le_trans; [apply count_remove_first_le | apply Hu].
  - (* Like_deleteMany *)
    eapply Nat.le_trans; [apply count_remove_all_le | apply Hu].
Qed.

Lemma exec_op_store_ok (X : Type) (op : Op X) (db : DB) :
  store_ok db -> store_ok (snd (exec_op op db)).
Proof.
  intros (Hb & Hn & Hu). split; [|split].
  - now apply exec_op_ids_below.
  - now apply exec_op_ids_unique.
  - now apply exec_op_unique_reactions.
Qed.

Lemma run_store_ok (A : Type) (p : Prog A) (db : DB) :
  store_ok db -> store_ok (snd (run p db)).
Proof.
  revert db. induction p as [a | e | X op k IH]; intros db Hok; simpl; try exact Hok.
  pose proof (exec_op_store_ok _ op db Hok) as Hok'.
  destruct (exec_op op db) as [r db']. apply IH. exact Hok'.
Qed.

Lemma step_store_ok (A : Type) (p : Prog A) (db : DB) :
  store_ok db -> store_ok (snd (step p db)).
Proof.
  destruct p as [a | e | X op k]; intros Hok; simpl; try exact Hok.
  pose proof (exec_op_store_ok _ op db Hok) as Hok'.
  destruct (exec_op op db) as [r db']. exact Hok'.
Qed.

Lemma step_nth_store_ok (i : nat) (pool : list (Prog Response)) (db : DB) :
  store_ok db -> store_ok (snd (step_nth i pool db)).
Proof.
  revert i. induction pool as [|p rest IH]; intros i Hok; destruct i as [|j]; simpl;
    try exact Hok.
  - pose proof (step_store_ok _ p db Hok) as H. destruct (step p db). exact H.
  - pose proof (IH j Hok) as H. destruct (step_nth j rest db). exact H.
Qed.

Lemma run_schedule_store_ok (sched : list nat) (pool : list (Prog Response)) (db : DB) :
  store_ok db -> store_ok (snd (run_schedule sched pool db)).
Proof.
  revert pool db. induction sched as [|i sched IH]; intros pool db Hok; simpl; [exact Hok|].
  pose proof (step_nth_store_ok i pool db Hok) as H.
  destruct (step_nth i pool db) as [pool' db']. apply IH. exact H.
Qed.

Lemma empty_db_store_ok : store_ok empty_db.
Proof.
  split; [|split].
  - repeat split; intros ? [].
  - repeat split; constructor.
  - intros actor t. apply Nat.le_0_l.
Qed.

(** ** Uninterrupted service keeps the counters *)

Lemma Target_eqb_eq (a b : Target) : Target_eqb a b = true <-> a = b.
Proof.
  destruct a, b; simpl; rewrite ?Nat.eqb_eq; split; try discriminate; congruence.
Qed.

Lemma find_update_first_same (T : Type) (p : T -> bool) (f : T -> T) (l : list T) :
  (forall x, p (f x) = p x) -> find p (update_first p f l) = option_map f (find p l).
Proof.
  intros Hf. induction l as [|x r IH]; [reflexivity|].
  simpl. destruct (p x) eqn:E; simpl; [now rewrite Hf, E | now rewrite E].
Qed.

Lemma find_update_first_other (T : Type) (p q : T -> bool) (f : T -> T) (l : list T) :
  (forall x, q (f x) = q x) -> (forall x, p x = true -> q x = false) ->
  find q (update_first p f l) = find q l.
Proof.
  intros Hf Hd. induction l as [|x r IH]; [reflexivity|].
  simpl. destruct (p x) eqn:E; simpl.
  - now rewrite Hf, (Hd x E).
  - now rewrite IH.
Qed.

Lemma has_video_id_other (a b : ObjectId) (v : Video) :
  Nat.eqb b a = false -> has_video_id a v = true -> has_video_id b v = false.
Proof.
  unfold has_video_id. intros Hn H. apply Nat.eqb_eq in H.
  now rewrite H, Nat.eqb_sym.
Qed.

Lemma has_comment_id_other (a b : ObjectId) (c : Comment) :
  Nat.eqb b a = false -> has_comment_id a c = true -> has_comment_id b c = false.
Proof.
  unfold has_comment_id. intros Hn H. apply Nat.eqb_eq in H.
  now rewrite H, Nat.eqb_sym.
Qed.

(** [adjust] moves the counters of its target and of nothing else. *)
Lemma counters_adjust (t t' : Target) (dl dd : Z) (db : DB) :
  counters t' (adjust t dl dd db)
  = if Target_eqb t' t
    then option_map (fun c => (fst c + dl, snd c + dd)%Z) (counters t db)
    else counters t' db.
Proof.
  destruct t as [id | id], t' as [id' | id']; simpl; try reflexivity.
  - destruct (Nat.eqb id' id) eqn:E.
    + apply Nat.eqb_eq in E. subst id'.
      rewrite find_update_first_same by reflexivity.
      now destruct (find (has_video_id id) (videos db)).
    + rewrite find_update_first_other;
        [reflexivity | intros x; reflexivity | intros x; now apply has_video_id_other].
  - destruct (Nat.eqb id' id) eqn:E.
    + apply Nat.eqb_eq in E. subst id'.
      rewrite find_update_first_same by reflexivity.
      now destruct (find (has_comment_id id) (comments db)).
    + rewrite find_update_first_other;
        [reflexivity | intros x; reflexivity | intros x; now apply has_comment_id_other].
Qed.

Lemma counters_apply_transition (actor : ObjectId) (t t' : Target) (tr : Transition)
      (ex : option Like) (db : DB) :
  counters t' (apply_transition actor t tr ex db) = counters t' db.
Proof. destruct tr, ex, t'; reflexivity. Qed.

Lemma count_snoc (T : Type) (p : T -> bool) (l : list T) (x : T) :
  count p (l ++ [x]) = count p l + (if p x then 1 else 0).
Proof.
  rewrite count_app, count_cons. change (count p []) with 0. destruct (p x); lia.
Qed.

(** With unique [_id]s, [deleteOne] and [save] reach the row that was read. *)
Lemma like_id_split (rows : list Like) (ex : Like) :
  NoDup (map like_id rows) -> In ex rows ->
  exists l1 l2, rows = l1 ++ ex :: l2
    /\ (forall y, In y l1 -> has_like_id (like_id ex) y = false)
    /\ (forall y, In y l2 -> has_like_id (like_id ex) y = false).
Proof. intros Hn Hin. exact (NoDup_key_split _ like_id rows ex Hn Hin). Qed.

Lemma count_after_delete (p : Like -> bool) (rows : list Like) (ex : Like) :
  NoDup (map like_id rows) -> In ex rows ->
  count p rows
  = count p (remove_first (has_like_id (like_id ex)) rows) + (if p ex then 1 else 0).
Proof.
  intros Hn Hin. destruct (like_id_split _ _ Hn Hin) as (l1 & l2 & -> & H1 & _).
  rewrite remove_first_split; [| apply Nat.eqb_refl | exact H1].
  rewrite !count_app, count_cons. lia.
Qed.

Lemma count_after_update (p : Like -> bool) (f : Like -> Like) (rows : list Like) (ex : Like) :
  NoDup (map like_id rows) -> In ex rows ->
  count p rows + (if p (f ex) then 1 else 0)
  = count p (update_first (has_like_id (like_id ex)) f rows) + (if p ex then 1 else 0).
Proof.
  intros Hn Hin. destruct (like_id_split _ _ Hn Hin) as (l1 & l2 & -> & H1 & _).
  rewrite update_first_split; [| apply Nat.eqb_refl | exact H1].
  rewrite !count_app, !count_cons. lia.
Qed.

Lemma like_matches_reaction_by (actor : ObjectId) (t : Target) (l : Like) :
  like_matches (reaction_query actor t) l = reaction_by actor t l.
Proof.
  unfold like_matches, reaction_query, reaction_by, targets, key_matches, opt_id_eqb.
  destruct t; simpl; rewrite (Nat.eqb_sym actor);
    destruct (like_video l), (like_comment l); simpl;
    rewrite ?andb_true_r, ?andb_false_r; try reflexivity;
    now rewrite (Nat.eqb_sym id).
Qed.

(** A row with one target that points at [t] points at nothing else. *)
Lemma single_target_targets (t t' : Target) (l : Like) :
  single_target l -> targets t l = true -> targets t' l = Target_eqb t' t.
Proof.
  intros [(id & Hv & Hc) | (id & Hv & Hc)]; unfold targets; rewrite Hv, Hc;
    destruct t, t'; simpl; try discriminate; try reflexivity;
    intros H; apply Nat.eqb_eq in H; subst; apply Nat.eqb_sym.
Qed.

Lemma found_reaction (actor : ObjectId) (t : Target) (db : DB) (ex : Like) :
  find_reaction actor t db = Some ex ->
  In ex (likes db) /\ like_user ex = actor /\ targets t ex = true.
Proof.
  unfold find_reaction. intros H. apply find_some in H. destruct H as [Hin Hm].
  rewrite like_matches_reaction_by in Hm. unfold reaction_by in Hm.
  apply andb_true_iff in Hm. destruct Hm as [Hu Ht].
  apply Nat.eqb_eq in Hu. auto.
Qed.

Lemma new_row_targets (actor : ObjectId) (t t' : Target) (k : ReactionType) (n : nat) :
  targets t' (mkLike n actor (target_video t) (target_comment t) k) = Target_eqb t' t.
Proof. destruct t, t'; simpl; try reflexivity; apply Nat.eqb_sym. Qed.

Lemma targets_set_like_type (t : Target) (k : ReactionType) (l : Like) :
  targets t (set_like_type k l) = targets t l.
Proof. destruct t; reflexivity. Qed.

(** Each row of the table moves the numbers of rows by its deltas. *)
Lemma count_apply_transition (actor : ObjectId) (t t' : Target) (k k' : ReactionType)
      (db : DB) :
  NoDup (map like_id (likes db)) -> Forall single_target (likes db) ->
  let ex := find_reaction actor t db in
  let '(tr, (dl, dd)) := transition (option_map like_type ex) k in
  Z.of_nat (count (reaction_of_kind t' k') (likes (apply_transition actor t tr ex db)))
  = (Z.of_nat (count (reaction_of_kind t' k') (likes db))
     + (if Target_eqb t' t then match k' with like => dl | dislike => dd end else 0))%Z.
Proof.
  intros Hn Hs. simpl. destruct (find_reaction actor t db) as [ex|] eqn:Hf.
  - destruct (found_reaction _ _ _ _ Hf) as (Hin & Hu & Ht).
    pose proof (proj1 (Forall_forall _ _) Hs ex Hin) as Hex.
    pose proof (single_target_targets t t' ex Hex Ht) as Htt.
    simpl. destruct (like_type ex) eqn:Hk, k; simpl.
    + pose proof (count_after_delete (reaction_of_kind t' k') _ _ Hn Hin) as Hc.
      unfold reaction_of_kind at 3 in Hc. rewrite Htt, Hk in Hc.
      destruct (Target_eqb t' t), k'; simpl in Hc; cbv iota; lia.
    + pose proof (count_after_update (reaction_of_kind t' k') (set_like_type dislike) _ _ Hn Hin)
        as Hc.
      unfold reaction_of_kind at 2 4 in Hc. simpl in Hc.
      rewrite targets_set_like_type, Htt, Hk in Hc.
      destruct (Target_eqb t' t), k'; simpl in Hc; cbv iota; lia.
    + pose proof (count_after_update (reaction_of_kind t' k') (set_like_type like) _ _ Hn Hin)
        as Hc.
      unfold reaction_of_kind at 2 4 in Hc. simpl in Hc.
      rewrite targets_set_like_type, Htt, Hk in Hc.
      destruct (Target_eqb t' t), k'; simpl in Hc; cbv iota; lia.
    + pose proof (count_after_delete (reaction_of_kind t' k') _ _ Hn Hin) as Hc.
      unfold reaction_of_kind at 3 in Hc. rewrite Htt, Hk in Hc.
      destruct (Target_eqb t' t), k'; simpl in Hc; cbv iota; lia.
  - cbn [option_map transition].
    destruct k; cbn [apply_transition likes]; rewrite count_snoc;
      unfold reaction_of_kind at 2; rewrite new_row_targets; cbn [like_type];
      destruct (Target_eqb t' t), k'; cbn [andb ReactionType_eqb]; cbv iota; lia.
Qed.

(** ** What each request leaves in the store *)

Lemma serve_POST_videos (u : ObjectId) (db : DB) :
  serve db (POST_videos u)
  = mkDB (videos db ++ [mkVideo (next_id db) u 0 0 0]) (comments db) (likes db)
         (S (next_id db)).
Proof. reflexivity. Qed.

Lemma serve_GET_videos_id (id : ObjectId) (db : DB) :
  serve db (GET_videos_id id)
  = with_videos (update_first (has_video_id id)
                   (fun v => set_video_views (video_views v + 1) v) (videos db)) db.
Proof.
  unfold serve. simpl. destruct (find (has_video_id id) (videos db)) as [v|] eqn:Hv; simpl.
  - pose proof (has_video_id_find _ _ _ Hv) as Hid. subst id.
    rewrite (find_existsb _ _ _ _ Hv). simpl. unfold with_videos. f_equal.
    apply update_first_ext_find with (1 := Hv). now destruct v.
  - rewrite update_first_none by (apply find_none_all; exact Hv). now destruct db.
Qed.

Lemma serve_GET_videos_like_status (u id : ObjectId) (db : DB) :
  serve db (GET_videos_like_status u id) = db.
Proof.
  unfold serve. simpl. now destruct (find _ (likes db)).
Qed.

Lemma serve_POST_videos_comments (u id : ObjectId) (db : DB) :
  serve db (POST_videos_comments u id)
  = match find (has_video_id id) (videos db) with
    | None => db
    | Some v => mkDB (videos db)
                     (comments db ++ [mkComment (next_id db) u (video_id v) 0 0 [] false None])
                     (likes db) (S (next_id db))
    end.
Proof.
  unfold serve. simpl. now destruct (find (has_video_id id) (videos db)).
Qed.

Lemma serve_DELETE_videos (u id : ObjectId) (db : DB) :
  serve db (DELETE_videos u id)
  = match find (has_video_id id) (videos db) with
    | None => db
    | Some v =>
        if negb (Nat.eqb (video_user v) u) then db
        else mkDB (remove_first (has_video_id id) (videos db))
                  (remove_all (comment_matches (mkCommentQuery (Some id) None)) (comments db))
                  (remove_all (like_matches (mkLikeQuery None (Some id) None)) (likes db))
                  (next_id db)
    end.
Proof.
  unfold serve. simpl. destruct (find (has_video_id id) (videos db)) as [v|] eqn:Hv; simpl;
    [|reflexivity].
  pose proof (has_video_id_find _ _ _ Hv) as Hid. subst id.
  now destruct (negb (Nat.eqb (video_user v) u)).
Qed.

Lemma find_app_found (T : Type) (p : T -> bool) (l1 l2 : list T) (x : T) :
  find p l1 = Some x -> find p (l1 ++ l2) = Some x.
Proof.
  induction l1 as [|y r IH]; simpl; [discriminate|]. destruct (p y); auto.
Qed.

Lemma serve_POST_comments_replies (u id : ObjectId) (db : DB) :
  serve db (POST_comments_replies u id)
  = match find (has_comment_id id) (comments db) with
    | None => db
    | Some c =>
        mkDB (videos db)
             (update_first (has_comment_id id)
                (set_comment_replies (comment_replies c ++ [next_id db]))
                (comments db ++ [mkComment (next_id db) u (comment_video c) 0 0 [] true (Some id)]))
             (likes db) (S (next_id db))
    end.
Proof.
  unfold serve. simpl. destruct (find (has_comment_id id) (comments db)) as [c|] eqn:Hc; simpl;
    [|reflexivity].
  pose proof (has_comment_id_find _ _ _ Hc) as Hid. subst id.
  rewrite existsb_app, (find_existsb _ _ _ _ Hc). simpl. unfold with_comments. simpl. f_equal.
  apply update_first_ext_find with (x := c); [now apply find_app_found | reflexivity].
Qed.

Lemma serve_DELETE_comments (u id : ObjectId) (db : DB) :
  serve db (DELETE_comments u id)
  = match find (has_comment_id id) (comments db) with
    | None => db
    | Some c =>
        if negb (Nat.eqb (comment_user c) u) then db
        else
          mkDB (videos db)
               (remove_first (has_comment_id id)
                  (if negb (comment_isReply c)
                   then remove_all (comment_matches (mkCommentQuery None (Some id))) (comments db)
                   else match comment_parentComment c with
                        | Some parent =>
                            update_first (has_comment_id parent)
                              (fun p => set_comment_replies
                                 (filter (fun r => negb (Nat.eqb r id)) (comment_replies p)) p)
                              (comments db)
                        | None => comments db
                        end))
               (remove_all (like_matches (mkLikeQuery None None (Some id))) (likes db))
               (next_id db)
    end.
Proof.
  unfold serve. simpl. destruct (find (has_comment_id id) (comments db)) as [c|] eqn:Hc; simpl;
    [|reflexivity].
  pose proof (has_comment_id_find _ _ _ Hc) as Hid. subst id.
  destruct (negb (Nat.eqb (comment_user c) u)); [reflexivity|].
  destruct (comment_isReply c); simpl; [|reflexivity].
  destruct (comment_parentComment c); reflexivity.
Qed.

(** ** The invariant of uninterrupted service *)

Lemma counters_agree_of_consistent (db : DB) : counters_consistent db -> counters_agree db.
Proof.
  intros [Hv Hc] t lk dk H. destruct t as [id | id]; simpl in H.
  - destruct (find (has_video_id id) (videos db)) as [v|] eqn:E; [|discriminate].
    injection H as <- <-. pose proof (has_video_id_find _ _ _ E) as <-.
    apply find_some in E. exact (Hv v (proj1 E)).
  - destruct (find (has_comment_id id) (comments db)) as [c|] eqn:E; [|discriminate].
    injection H as <- <-. pose proof (has_comment_id_find _ _ _ E) as <-.
    apply find_some in E. exact (Hc c (proj1 E)).
Qed.

(** With unique keys, the lookup by key finds the stored document. *)
Lemma NoDup_find_key (T : Type) (key : T -> nat) (l : list T) (x : T) :
  NoDup (map key l) -> In x l -> find (fun y => Nat.eqb (key y) (key x)) l = Some x.
Proof.
  intros Hn Hin.
  destruct (NoDup_key_split _ key l x Hn Hin) as (l1 & l2 & -> & H1 & _).
  rewrite find_app_none by exact H1. simpl. now rewrite Nat.eqb_refl.
Qed.

Lemma counters_consistent_of_agree (db : DB) :
  ids_unique db -> counters_agree db -> counters_consistent db.
Proof.
  intros (Nv & Nc & _) H. split.
  - intros v Hin. apply (H (on_video (video_id v))). simpl.
    change (has_video_id (video_id v)) with (fun y => Nat.eqb (video_id y) (video_id v)).
    now rewrite (NoDup_find_key _ video_id _ _ Nv Hin).
  - intros c Hin. apply (H (on_comment (comment_id c))). simpl.
    change (has_comment_id (comment_id c)) with (fun y => Nat.eqb (comment_id y) (comment_id c)).
    now rewrite (NoDup_find_key _ comment_id _ _ Nc Hin).
Qed.

Lemma likes_adjust (t : Target) (dl dd : Z) (db : DB) : likes (adjust t dl dd db) = likes db.
Proof. now destruct t. Qed.

Lemma next_id_adjust (t : Target) (dl dd : Z) (db : DB) :
  next_id (adjust t dl dd db) = next_id db.
Proof. now destruct t. Qed.

Lemma likes_react_spec (actor : ObjectId) (t : Target) (k : ReactionType) (db : DB) :
  likes (react_spec actor t k db)
  = likes (apply_transition actor t
             (fst (transition (option_map like_type (find_reaction actor t db)) k))
             (find_reaction actor t db) db).
Proof.
  unfold react_spec.
  destruct (transition (option_map like_type (find_reaction actor t db)) k) as [tr [dl dd]].
  apply likes_adjust.
Qed.

Lemma next_id_react_spec (actor : ObjectId) (t : Target) (k : ReactionType) (db : DB) :
  next_id (react_spec actor t k db)
  = next_id (apply_transition actor t
               (fst (transition (option_map like_type (find_reaction actor t db)) k))
               (find_reaction actor t db) db).
Proof.
  unfold react_spec.
  destruct (transition (option_map like_type (find_reaction actor t db)) k) as [tr [dl dd]].
  apply next_id_adjust.
Qed.

(** A row after a transition is a row from before, or the row just created. *)
Lemma apply_transition_rows (actor : ObjectId) (t : Target) (tr : Transition)
      (ex : option Like) (db : DB) (l : Like) :
  In l (likes (apply_transition actor t tr ex db)) ->
  (exists l0, In l0 (likes db)
              /\ like_video l = like_video l0 /\ like_comment l = like_comment l0)
  \/ (l = mkLike (next_id db) actor (target_video t) (target_comment t) (like_type l)
      /\ next_id (apply_transition actor t tr ex db) = S (next_id db)).
Proof.
  destruct tr as [k | | k], ex as [e|]; simpl; intros H;
    try (left; exists l; auto; fail).
  - apply In_app_one in H. destruct H as [H | ->]; [left; exists l; auto | right; auto].
  - apply In_app_one in H. destruct H as [H | ->]; [left; exists l; auto | right; auto].
  - apply In_remove_first in H. left; exists l; auto.
  - apply In_update_first in H. destruct H as [H | (z & Hz & ->)]; left;
      [exists l | exists z]; auto.
Qed.

Lemma apply_transition_next (actor : ObjectId) (t : Target) (tr : Transition)
      (ex : option Like) (db : DB) :
  next_id db <= next_id (apply_transition actor t tr ex db).
Proof. destruct tr, ex; simpl; lia. Qed.

Lemma existsb_update_first (T : Type) (p q : T -> bool) (f : T -> T) (l : list T) :
  (forall x, q (f x) = q x) -> existsb q (update_first p f l) = existsb q l.
Proof.
  intros Hf. induction l as [|x r IH]; [reflexivity|].
  simpl. destruct (p x); simpl; [now rewrite Hf | now rewrite IH].
Qed.

Lemma target_exists_adjust (t t' : Target) (dl dd : Z) (db : DB) :
  target_exists t' (adjust t dl dd db) = target_exists t' db.
Proof.
  destruct t, t'; simpl; try reflexivity; apply existsb_update_first; reflexivity.
Qed.

Lemma target_exists_react_spec (actor : ObjectId) (t t' : Target) (k : ReactionType) (db : DB) :
  target_exists t' (react_spec actor t k db) = target_exists t' db.
Proof.
  unfold react_spec.
  destruct (transition (option_map like_type (find_reaction actor t db)) k) as [tr [dl dd]].
  rewrite target_exists_adjust. now destruct tr, (find_reaction actor t db), t'.
Qed.

Lemma target_exists_below (t : Target) (db : DB) :
  ids_below db -> target_exists t db = true ->
  forall id, target_video t = Some id \/ target_comment t = Some id -> id < next_id db.
Proof.
  intros (Hv & Hc & _) H id Hid. destruct t as [x | x]; simpl in *.
  - destruct Hid as [[= <-] | [=]]. apply existsb_exists in H.
    destruct H as (v & Hin & E). apply Nat.eqb_eq in E. subst x. now apply Hv.
  - destruct Hid as [[=] | [= <-]]. apply existsb_exists in H.
    destruct H as (c & Hin & E). apply Nat.eqb_eq in E. subst x. now apply Hc.
Qed.

Lemma new_row_single_target (actor : ObjectId) (t : Target) (k : ReactionType) (n : nat) :
  single_target (mkLike n actor (target_video t) (target_comment t) k).
Proof. destruct t as [id | id]; [left | right]; exists id; auto. Qed.

Lemma counters_react_spec (actor : ObjectId) (t t' : Target) (k : ReactionType) (db : DB) :
  counters t' (react_spec actor t k db)
  = if Target_eqb t' t
    then option_map
           (fun c => (fst c + fst (snd (transition (reaction_state actor t db) k)),
                      snd c + snd (snd (transition (reaction_state actor t db) k)))%Z)
           (counters t db)
    else counters t' db.
Proof.
  unfold react_spec, reaction_state.
  destruct (transition (option_map like_type (find_reaction actor t db)) k) as [tr [dl dd]].
  rewrite counters_adjust, !counters_apply_transition. reflexivity.
Qed.

Lemma react_spec_counters_agree (actor : ObjectId) (t : Target) (k : ReactionType) (db : DB) :
  NoDup (map like_id (likes db)) -> Forall single_target (likes db) ->
  counters_agree db -> counters_agree (react_spec actor t k db).
Proof.
  intros Hn Hs Hc t' lk dk H.
  rewrite counters_react_spec in H. rewrite likes_react_spec.
  pose proof (count_apply_transition actor t t' k like db Hn Hs) as Hl.
  pose proof (count_apply_transition actor t t' k dislike db Hn Hs) as Hd.
  unfold reaction_state in H. simpl in Hl, Hd.
  destruct (transition (option_map like_type (find_reaction actor t db)) k) as [tr [dl dd]].
  simpl in *. rewrite Hl, Hd.
  destruct (Target_eqb t' t) eqn:E.
  - apply Target_eqb_eq in E. subst t'.
    destruct (counters t db) as [[lk0 dk0]|] eqn:E0; [|discriminate].
    injection H as <- <-. destruct (Hc t lk0 dk0 E0) as [-> ->]. simpl. split; reflexivity.
  - destruct (Hc t' lk dk H) as [-> ->]. split; lia.
Qed.

Lemma react_spec_Inv (actor : ObjectId) (t : Target) (k : ReactionType) (db : DB) :
  target_exists t db = true -> store_ok (react_spec actor t k db) ->
  Inv db -> Inv (react_spec actor t k db).
Proof.
  intros Hex Hok [Hst Htg Hsg Hct Hrs].
  destruct Hst as (Hb & Hn & Hu).
  constructor.
  - exact Hok.
  - intros l id Hin Hid. rewrite likes_react_spec in Hin. rewrite next_id_react_spec.
    pose proof (apply_transition_next actor t
      (fst (transition (option_map like_type (find_reaction actor t db)) k))
      (find_reaction actor t db) db) as Hnx.
    apply apply_transition_rows in Hin.
    destruct Hin as [(l0 & Hin0 & Ev & Ec) | [El Enx]].
    + rewrite Ev, Ec in Hid. specialize (Htg l0 id Hin0 Hid). lia.
    + rewrite El in Hid. simpl in Hid.
      pose proof (target_exists_below t db Hb Hex id Hid). lia.
  - apply Forall_forall. intros l Hin. rewrite likes_react_spec in Hin.
    apply apply_transition_rows in Hin.
    destruct Hin as [(l0 & Hin0 & Ev & Ec) | [El _]].
    + pose proof (proj1 (Forall_forall _ _) Hsg l0 Hin0) as H0.
      unfold single_target in *. now rewrite Ev, Ec.
    + rewrite El. apply new_row_single_target.
  - apply counters_consistent_of_agree; [exact (proj1 (proj2 Hok))|].
    apply react_spec_counters_agree; [exact (proj2 (proj2 Hn)) | exact Hsg |].
    now apply counters_agree_of_consistent.
  - intros l id Hin Hv. rewrite likes_react_spec in Hin.
    change (target_exists (on_video id) (react_spec actor t k db) = true).
    rewrite target_exists_react_spec.
    apply apply_transition_rows in Hin.
    destruct Hin as [(l0 & Hin0 & Ev & Ec) | [El _]].
    + rewrite Ev in Hv. exact (Hrs l0 id Hin0 Hv).
    + rewrite El in Hv. simpl in Hv. destruct t; simpl in Hv; [|discriminate].
      injection Hv as <-. exact Hex.
Qed.

Lemma matches_video_query (id : ObjectId) (l : Like) :
  like_matches (mkLikeQuery None (Some id) None) l = true -> like_video l = Some id.
Proof.
  unfold like_matches, key_matches. cbn [q_user q_video q_comment]. rewrite andb_true_r.
  cbn [andb]. intros H. apply opt_id_eqb_eq in H. now symmetry.
Qed.

Lemma matches_comment_query (id : ObjectId) (l : Like) :
  like_matches (mkLikeQuery None None (Some id)) l = true -> like_comment l = Some id.
Proof.
  unfold like_matches, key_matches. cbn [q_user q_video q_comment andb].
  intros H. apply opt_id_eqb_eq in H. now symmetry.
Qed.

Lemma reaction_of_kind_targets (t : Target) (k : ReactionType) (l : Like) :
  targets t l = false -> reaction_of_kind t k l = false.
Proof. unfold reaction_of_kind. now intros ->. Qed.

(** No row points at an id the generator has not handed out yet. *)
Lemma count_fresh_target (db : DB) (t : Target) (k : ReactionType) :
  targets_below db ->
  (forall id, target_video t = Some id \/ target_comment t = Some id -> next_id db <= id) ->
  count (reaction_of_kind t k) (likes db) = 0.
Proof.
  intros Htg Hid. apply count_zero. intros l Hin. apply reaction_of_kind_targets.
  destruct (targets t l) eqn:E; [|reflexivity].
  destruct t as [id | id]; simpl in E; apply opt_id_eqb_eq in E.
  - specialize (Htg l id Hin (or_introl E)).
    specialize (Hid id (or_introl eq_refl)). lia.
  - specialize (Htg l id Hin (or_intror E)).
    specialize (Hid id (or_intror eq_refl)). lia.
Qed.

(** With unique keys, [deleteOne] by key leaves no document with that key. *)
Lemma NoDup_remove_first_key (T : Type) (key : T -> nat) (id : nat) (l : list T) (x : T) :
  NoDup (map key l) -> In x (remove_first (fun y => Nat.eqb (key y) id) l) ->
  In x l /\ key x <> id.
Proof.
  induction l as [|y r IH]; simpl; intros Hn H; [destruct H|].
  inversion Hn as [|? ? Hy Hr]; subst.
  destruct (Nat.eqb (key y) id) eqn:E.
  - apply Nat.eqb_eq in E. split; [now right|].
    intros Ex. apply Hy. rewrite E, <- Ex. now apply in_map.
  - destruct H as [<- | H].
    + split; [now left | now apply Nat.eqb_neq].
    + destruct (IH Hr H). split; [now right | assumption].
Qed.

(** The counters stay right when every stored target keeps its counters and
    its rows, or is new and has none. *)
Lemma counters_frame (db db' : DB) :
  counters_consistent db ->
  (forall v, In v (videos db') ->
     (exists v0, In v0 (videos db) /\ video_id v = video_id v0
                 /\ video_likes v = video_likes v0 /\ video_dislikes v = video_dislikes v0
                 /\ forall k, count (reaction_of_kind (on_video (video_id v)) k) (likes db')
                              = count (reaction_of_kind (on_video (video_id v)) k) (likes db))
     \/ (video_likes v = 0%Z /\ video_dislikes v = 0%Z
         /\ forall k, count (reaction_of_kind (on_video (video_id v)) k) (likes db') = 0)) ->
  (forall c, In c (comments db') ->
     (exists c0, In c0 (comments db) /\ comment_id c = comment_id c0
                 /\ comment_likes c = comment_likes c0
                 /\ comment_dislikes c = comment_dislikes c0
                 /\ forall k, count (reaction_of_kind (on_comment (comment_id c)) k) (likes db')
                              = count (reaction_of_kind (on_comment (comment_id c)) k) (likes db))
     \/ (comment_likes c = 0%Z /\ comment_dislikes c = 0%Z
         /\ forall k, count (reaction_of_kind (on_comment (comment_id c)) k) (likes db') = 0)) ->
  counters_consistent db'.
Proof.
  intros [Hv Hc] Fv Fc. split.
  - intros v Hin. destruct (Fv v Hin) as [(v0 & Hin0 & Ei & El & Ed & Ek) | (El & Ed & Ek)].
    + rewrite !Ek, El, Ed, Ei. exact (Hv v0 Hin0).
    + now rewrite !Ek, El, Ed.
  - intros c Hin. destruct (Fc c Hin) as [(c0 & Hin0 & Ei & El & Ed & Ek) | (El & Ed & Ek)].
    + rewrite !Ek, El, Ed, Ei. exact (Hc c0 Hin0).
    + now rewrite !Ek, El, Ed.
Qed.

(** A request that creates no row and keeps the videos its rows point at
    keeps the invariant once it keeps the counters. *)
Lemma Inv_frame (db db' : DB) :
  Inv db -> store_ok db' ->
  (forall l, In l (likes db') -> In l (likes db)) ->
  next_id db <= next_id db' ->
  (forall l id, In l (likes db') -> like_video l = Some id ->
                existsb (has_video_id id) (videos db') = true) ->
  counters_consistent db' ->
  Inv db'.
Proof.
  intros [Hst Htg Hsg Hct Hrs] Hok Hl Hn Hr Hc. constructor; try assumption.
  - intros l id Hin Hid. specialize (Htg l id (Hl l Hin) Hid). lia.
  - apply Forall_forall. intros l Hin.
    exact (proj1 (Forall_forall _ _) Hsg l (Hl l Hin)).
Qed.

Lemma serve_store_ok (db : DB) (r : Request) : store_ok db -> store_ok (serve db r).
Proof. apply run_store_ok. Qed.

Lemma POST_videos_Inv (u : ObjectId) (db : DB) : Inv db -> Inv (serve db (POST_videos u)).
Proof.
  intros HI. pose proof HI as [Hst Htg Hsg Hct Hrs].
  pose proof (serve_store_ok db (POST_videos u) Hst) as Hok.
  rewrite serve_POST_videos in *.
  apply (Inv_frame db); simpl; [exact HI | exact Hok | auto | lia | |].
  - intros l id Hin Hv. rewrite existsb_app. rewrite (Hrs l id Hin Hv). reflexivity.
  - apply (counters_frame db); simpl; [exact Hct | |].
    + intros v Hin. apply In_app_one in Hin. destruct Hin as [Hin | ->].
      * left. exists v. auto.
      * right. simpl. repeat split. intros k.
        apply count_fresh_target; [exact Htg|].
        simpl. intros id [[= <-] | [=]]. lia.
    + intros c Hin. left. exists c. auto.
Qed.

Lemma GET_videos_id_Inv (id : ObjectId) (db : DB) : Inv db -> Inv (serve db (GET_videos_id id)).
Proof.
  intros HI. pose proof HI as [Hst Htg Hsg Hct Hrs].
  pose proof (serve_store_ok db (GET_videos_id id) Hst) as Hok.
  rewrite serve_GET_videos_id in *.
  apply (Inv_frame db); simpl; [exact HI | exact Hok | auto | lia | |].
  - intros l x Hin Hv. rewrite existsb_update_first by reflexivity.
    exact (Hrs l x Hin Hv).
  - apply (counters_frame db); simpl; [exact Hct | |].
    + intros v Hin. apply In_update_first in Hin.
      destruct Hin as [Hin | (z & Hz & ->)]; left; [exists v | exists z]; auto.
    + intros c Hin. left. exists c. auto.
Qed.

Lemma POST_videos_comments_Inv (u id : ObjectId) (db : DB) :
  Inv db -> Inv (serve db (POST_videos_comments u id)).
Proof.
  intros HI. pose proof HI as [Hst Htg Hsg Hct Hrs].
  pose proof (serve_store_ok db (POST_videos_comments u id) Hst) as Hok.
  rewrite serve_POST_videos_comments in *.
  destruct (find (has_video_id id) (videos db)) as [v|]; [|exact HI].
  apply (Inv_frame db); simpl; [exact HI | exact Hok | auto | lia | |].
  - exact Hrs.
  - apply (counters_frame db); simpl; [exact Hct | |].
    + intros x Hin. left. exists x. auto.
    + intros c Hin. apply In_app_one in Hin. destruct Hin as [Hin | ->].
      * left. exists c. auto.
      * right. simpl. repeat split. intros k.
        apply count_fresh_target; [exact Htg|].
        simpl. intros x [[=] | [= <-]]. lia.
Qed.

Lemma POST_comments_replies_Inv (u id : ObjectId) (db : DB) :
  Inv db -> Inv (serve db (POST_comments_replies u id)).
Proof.
  intros HI. pose proof HI as [Hst Htg Hsg Hct Hrs].
  pose proof (serve_store_ok db (POST_comments_replies u id) Hst) as Hok.
  rewrite serve_POST_comments_replies in *.
  destruct (find (has_comment_id id) (comments db)) as [c|]; [|exact HI].
  apply (Inv_frame db); simpl; [exact HI | exact Hok | auto | lia | |].
  - exact Hrs.
  - assert (forall k, count (reaction_of_kind (on_comment (next_id db)) k) (likes db) = 0)
      as Hfresh.
    { intros k. apply count_fresh_target; [exact Htg|].
      simpl. intros x [[=] | [= <-]]. lia. }
    apply (counters_frame db); simpl; [exact Hct | |].
    + intros x Hin. left. exists x. auto.
    + intros x Hin. apply In_update_first in Hin.
      destruct Hin as [Hin | (z & Hz & ->)]; simpl.
      * apply In_app_one in Hin. destruct Hin as [Hin | ->];
          [left; exists x; auto | right; simpl; auto].
      * apply In_app_one in Hz. destruct Hz as [Hz | ->];
          [left; exists z; auto | right; simpl; auto].
Qed.

Lemma single_target_video (l : Like) (id : ObjectId) (t : ObjectId) :
  single_target l -> like_video l = Some id -> targets (on_comment t) l = false.
Proof.
  intros [(x & Hv & Hc) | (x & Hv & Hc)] H; [|congruence]. simpl. now rewrite Hc.
Qed.

Lemma single_target_comment (l : Like) (id : ObjectId) (t : ObjectId) :
  single_target l -> like_comment l = Some id -> targets (on_video t) l = false.
Proof.
  intros [(x & Hv & Hc) | (x & Hv & Hc)] H; [congruence|]. simpl. now rewrite Hv.
Qed.

Lemma DELETE_videos_Inv (u id : ObjectId) (db : DB) :
  Inv db -> Inv (serve db (DELETE_videos u id)).
Proof.
  intros HI. pose proof HI as [Hst Htg Hsg Hct Hrs].
  pose proof (serve_store_ok db (DELETE_videos u id) Hst) as Hok.
  rewrite serve_DELETE_videos in *.
  destruct (find (has_video_id id) (videos db)) as [v|]; [|exact HI].
  destruct (negb (Nat.eqb (video_user v) u)); [exact HI|].
  destruct Hst as (_ & (Nv & Nc & Nl) & _).
  apply (Inv_frame db); simpl; [exact HI | exact Hok | | lia | |].
  - intros l Hin. apply In_remove_all in Hin. tauto.
  - intros l x Hin Hv. apply In_remove_all in Hin. destruct Hin as [Hin Hq].
    pose proof (Hrs l x Hin Hv) as Hex. apply existsb_exists in Hex.
    destruct Hex as (w & Hw & Ew). apply Nat.eqb_eq in Ew.
    assert (x <> id) as Hne.
    { intros ->. unfold like_matches, key_matches in Hq. simpl in Hq.
      rewrite Hv in Hq. simpl in Hq. rewrite Nat.eqb_refl in Hq. discriminate. }
    apply existsb_exists. exists w. split; [|now apply Nat.eqb_eq].
    clear -Hw Ew Hne. induction (videos db) as [|y r IH]; simpl in *; [tauto|].
    destruct (has_video_id id y) eqn:E.
    + destruct Hw as [-> | Hw]; [|exact Hw].
      apply Nat.eqb_eq in E. congruence.
    + destruct Hw as [-> | Hw]; [now left | right; auto].
  - apply (counters_frame db); simpl; [exact Hct | |].
    + intros x Hin. apply (NoDup_remove_first_key _ video_id id) in Hin; [|exact Nv].
      destruct Hin as [Hin Hne]. left. exists x. repeat split; auto.
      intros k. apply count_remove_all_other. intros l _ Hq.
      apply matches_video_query in Hq. apply reaction_of_kind_targets. simpl.
      rewrite Hq. simpl. apply Nat.eqb_neq. congruence.
    + intros c Hin. apply In_remove_all in Hin. destruct Hin as [Hin _].
      left. exists c. repeat split; auto.
      intros k. apply count_remove_all_other. intros l Hl Hq.
      apply matches_video_query in Hq. apply reaction_of_kind_targets.
      apply (single_target_video l id); [|exact Hq].
      exact (proj1 (Forall_forall _ _) Hsg l Hl).
Qed.

Lemma DELETE_comments_Inv (u id : ObjectId) (db : DB) :
  Inv db -> Inv (serve db (DELETE_comments u id)).
Proof.
  intros HI. pose proof HI as [Hst Htg Hsg Hct Hrs].
  pose proof (serve_store_ok db (DELETE_comments u id) Hst) as Hok.
  rewrite serve_DELETE_comments in *.
  destruct (find (has_comment_id id) (comments db)) as [c|]; [|exact HI].
  destruct (negb (Nat.eqb (comment_user c) u)); [exact HI|].
  destruct Hst as (_ & (Nv & Nc & Nl) & _).
  apply (Inv_frame db); simpl; [exact HI | exact Hok | | lia | |].
  - intros l Hin. apply In_remove_all in Hin. tauto.
  - intros l x Hin Hv. apply In_remove_all in Hin. destruct Hin as [Hin _].
    exact (Hrs l x Hin Hv).
  - apply (counters_frame db); simpl; [exact Hct | |].
    + intros v Hin. left. exists v. repeat split; auto.
      intros k. apply count_remove_all_other. intros l Hl Hq.
      apply matches_comment_query in Hq. apply reaction_of_kind_targets.
      apply (single_target_comment l id); [|exact Hq].
      exact (proj1 (Forall_forall _ _) Hsg l Hl).
    + intros x Hin.
      assert ((forall k, count (reaction_of_kind (on_comment (comment_id x)) k)
                           (remove_all (like_matches (mkLikeQuery None None (Some id)))
                                       (likes db))
                         = count (reaction_of_kind (on_comment (comment_id x)) k) (likes db))
              \/ comment_id x = id) as Hk.
      { destruct (Nat.eq_dec (comment_id x) id) as [E | Hne]; [now right | left].
        intros k. apply count_remove_all_other. intros l _ Hq.
        apply matches_comment_query in Hq. apply reaction_of_kind_targets. simpl.
        rewrite Hq. simpl. apply Nat.eqb_neq. congruence. }
      destruct (negb (comment_isReply c)).
      * apply (NoDup_remove_first_key _ comment_id id) in Hin;
          [|now apply NoDup_map_remove_all].
        destruct Hin as [Hin Hne]. apply In_remove_all in Hin. destruct Hin as [Hin _].
        left. exists x. do 4 (split; [solve [auto]|]).
        intros k. destruct Hk as [Hk | Hk]; [apply Hk | contradiction].
      * destruct (comment_parentComment c) as [parent|].
        -- apply (NoDup_remove_first_key _ comment_id id) in Hin;
             [|rewrite map_update_first; [exact Nc | reflexivity]].
           destruct Hin as [Hin Hne]. apply In_update_first in Hin.
           destruct Hin as [Hin | (z & Hz & ->)]; left; [exists x | exists z];
             do 4 (split; [solve [auto]|]); intros k;
             (destruct Hk as [Hk | Hk]; [apply Hk | contradiction]).
        -- apply (NoDup_remove_first_key _ comment_id id) in Hin; [|exact Nc].
           destruct Hin as [Hin Hne].
           left. exists x. do 4 (split; [solve [auto]|]).
           intros k. destruct Hk as [Hk | Hk]; [apply Hk | contradiction].
Qed.

Lemma react_Inv (actor : ObjectId) (t : Target) (k : ReactionType) (db : DB) :
  Inv db -> Inv (serve db (react_request actor t k)).
Proof.
  intros HI. pose proof (serve_store_ok db (react_request actor t k) (inv_store HI)) as Hok.
  destruct (target_exists t db) eqn:E.
  - rewrite react_serve in * by exact E.
    destruct (create_refused actor t db); [exact HI | now apply react_spec_Inv].
  - now rewrite react_missing by exact E.
Qed.

Lemma serve_Inv (db : DB) (r : Request) : Inv db -> Inv (serve db r).
Proof.
  intros HI. destruct r as [u | id | u id | u id | u id | u id | u id | u id | u id | u id | u id].
  - now apply POST_videos_Inv.
  - now apply GET_videos_id_Inv.
  - exact (react_Inv u (on_video id) like db HI).
  - exact (react_Inv u (on_video id) dislike db HI).
  - now rewrite serve_GET_videos_like_status.
  - now apply POST_videos_comments_Inv.
  - now apply DELETE_videos_Inv.
  - now apply POST_comments_replies_Inv.
  - exact (react_Inv u (on_comment id) like db HI).
  - exact (react_Inv u (on_comment id) dislike db HI).
  - now apply DELETE_comments_Inv.
Qed.

Lemma empty_db_Inv : Inv empty_db.
Proof.
  constructor.
  - exact empty_db_store_ok.
  - intros l id [].
  - constructor.
  - split; intros ? [].
  - intros l id [].
Qed.

Lemma serve_all_Inv (rs : list Request) (db : DB) : Inv db -> Inv (serve_all rs db).
Proof.
  revert db. induction rs as [|r rs IH]; intros db HI; simpl; [exact HI|].
  apply IH. now apply serve_Inv.
Qed.

Lemma reachable_Inv (db : DB) : reachable db -> Inv db.
Proof. intros [rs ->]. apply serve_all_Inv. exact empty_db_Inv. Qed.

(** ** The reaction state machine *)

(** An actor with a reaction to one video is refused a first reaction to any
    other video, and an actor with a reaction to one comment a first reaction
    to any other comment: the new row and the stored one have the same user
    and both lack the other reference, so they have one key in the index on
    that reference. *)
Lemma create_refused_elsewhere
      (actor : ObjectId) (t t' : Target) (db : DB) (r : Like) :
  reaction_state actor t db = None ->
  In r (likes db) -> single_target r -> reaction_by actor t' r = true ->
  same_collection t t' = true ->
  create_refused actor t db = true.
Proof.
  intros Hnone Hin Hs Hr Hc. unfold create_refused.
  unfold reaction_state in Hnone. destruct (find_reaction actor t db); [discriminate|].
  apply existsb_exists. exists r. split; [exact Hin|].
  apply reaction_by_spec in Hr. destruct Hr as [Hu Ht]. unfold same_key. simpl.
  rewrite Hu, Nat.eqb_refl. simpl.
  destruct t as [id | id], t' as [id' | id']; try discriminate; simpl;
    destruct Hs as [(x & Hv & Hcm) | (x & Hv & Hcm)]; rewrite Hv, Hcm in *;
    try discriminate; simpl; rewrite ?orb_true_r; reflexivity.
Qed.

(** C1. The claim's first two rows fail in the handlers: for an actor who
    holds a reaction to one video (or comment), a like or dislike of any
    other existing video (or comment) they have not reacted to creates no row
    and moves no counter. The insert is refused by the unique indexes, which
    are declared sparse over (user, video) and (user, comment) and so hold
    every row under its user and a null second field; the handler answers
    500 "Server error" and leaves the store as it found it. *)
Theorem C1_create_refused_by_index
        (actor : ObjectId) (t t' : Target) (k : ReactionType) (db : DB) (r : Like) :
  target_exists t db = true ->
  reaction_state actor t db = None ->
  In r (likes db) -> single_target r -> reaction_by actor t' r = true ->
  same_collection t t' = true ->
  run (handler (react_request actor t k)) db = (inr (res_message 500 "Server error"), db)
  /\ reaction_state actor t (serve db (react_request actor t k)) = None
  /\ counters t (serve db (react_request actor t k)) = counters t db.
Proof.
  intros Hex Hnone Hin Hs Hr Hc.
  pose proof (create_refused_elsewhere actor t t' db r Hnone Hin Hs Hr Hc) as Hcr.
  pose proof (react_refused_run actor t k db Hex Hcr) as Hrun.
  unfold serve. rewrite Hrun. simpl. auto.
Qed.

(** C1 at its failing input: user 8 has liked video 0 and likes video 1. *)
Lemma C1_create_refused_by_index_witness :
  run (handler (react_request 8 (on_video 1) like))
      (serve_all [POST_videos 7; POST_videos 7; POST_videos_like 8 0] empty_db)
  = (inr (res_message 500 "Server error"),
     mkDB [mkVideo 0 7 0 1 0; mkVideo 1 7 0 0 0] [] [mkLike 2 8 (Some 0) None like] 3).
Proof.
  refine (proj1 (C1_create_refused_by_index 8 (on_video 1) (on_video 0) like
                   (serve_all [POST_videos 7; POST_videos 7; POST_videos_like 8 0] empty_db)
                   (mkLike 2 8 (Some 0) None like) eq_refl eq_refl _ _ eq_refl eq_refl)).
  - left. reflexivity.
  - left. exists 0. split; reflexivity.
Defined.




(** C3. For every actor and target, at every point of every interleaving of
    any requests at their store calls, and after any requests served one
    after the other, at most one row with that actor and that target is
    stored. *)
Theorem C3_unique_reaction :
  (forall (rs : list Request) (sched : list nat),
      unique_reactions (snd (run_schedule sched (map handler rs) empty_db)))
  /\ (forall rs : list Request, unique_reactions (serve_all rs empty_db)).
Proof.
  split.
  - intros rs sched.
    exact (proj2 (proj2 (run_schedule_store_ok sched (map handler rs) empty_db
                           empty_db_store_ok))).
  - intros rs.
    assert (reachable (serve_all rs empty_db)) as Hr by now exists rs.
    exact (proj2 (proj2 (inv_store (reachable_Inv _ Hr)))).
Qed.

(** ** Toggling *)

Lemma new_row_matches (actor : ObjectId) (t : Target) (k : ReactionType) (n : nat) :
  like_matches (reaction_query actor t)
               (mkLike n actor (target_video t) (target_comment t) k) = true.
Proof.
  rewrite like_matches_reaction_by. unfold reaction_by. simpl.
  rewrite Nat.eqb_refl, new_row_targets. simpl. now apply Target_eqb_eq.
Qed.

(** The store after a first reaction. *)
Lemma react_spec_none (actor : ObjectId) (t : Target) (k : ReactionType) (db : DB) :
  find_reaction actor t db = None ->
  likes (react_spec actor t k db)
  = likes db ++ [mkLike (next_id db) actor (target_video t) (target_comment t) k]
  /\ find_reaction actor t (react_spec actor t k db)
     = Some (mkLike (next_id db) actor (target_video t) (target_comment t) k).
Proof.
  intros Hf.
  assert (likes (react_spec actor t k db)
          = likes db ++ [mkLike (next_id db) actor (target_video t) (target_comment t) k])
    as Hl.
  { rewrite likes_react_spec, Hf. now destruct k. }
  split; [exact Hl|].
  unfold find_reaction in *. rewrite Hl.
  rewrite find_app_none by (apply find_none_all; exact Hf).
  simpl. now rewrite new_row_matches.
Qed.

(** C4. The claim's create-then-delete fails in the handlers: for an actor
    who holds a reaction to one video (or comment) and none to another
    existing one, reacting twice to the second creates nothing and deletes
    nothing. Both requests are refused by the unique indexes and answered
    500 "Server error"; the second request finds no reaction to toggle
    off. *)
Theorem C4_toggle_never_created
        (actor : ObjectId) (t t' : Target) (k : ReactionType) (db : DB) (r : Like) :
  target_exists t db = true ->
  reaction_state actor t db = None ->
  In r (likes db) -> single_target r -> reaction_by actor t' r = true ->
  same_collection t t' = true ->
  let first := run (handler (react_request actor t k)) db in
  let second := run (handler (react_request actor t k)) (snd first) in
  first = (inr (res_message 500 "Server error"), db)
  /\ reaction_state actor t (snd first) = None
  /\ second = (inr (res_message 500 "Server error"), db).
Proof.
  intros Hex Hnone Hin Hs Hr Hc. cbv zeta.
  pose proof (create_refused_elsewhere actor t t' db r Hnone Hin Hs Hr Hc) as Hcr.
  rewrite (react_refused_run actor t k db Hex Hcr). simpl.
  rewrite (react_refused_run actor t k db Hex Hcr). auto.
Qed.

(** C4 at its failing input: user 9 has disliked comment 1 and dislikes
    comment 2 twice. *)
Lemma C4_toggle_never_created_witness :
  let db := serve_all [POST_videos 7; POST_videos_comments 8 0; POST_videos_comments 8 0;
                       POST_comments_dislike 9 1] empty_db in
  run (handler (react_request 9 (on_comment 2) dislike))
      (snd (run (handler (react_request 9 (on_comment 2) dislike)) db))
  = (inr (res_message 500 "Server error"),
     mkDB [mkVideo 0 7 0 0 0]
          [mkComment 1 8 0 0 1 [] false None; mkComment 2 8 0 0 0 [] false None]
          [mkLike 3 9 None (Some 1) dislike] 4).
Proof.
  refine (proj2 (proj2 (C4_toggle_never_created 9 (on_comment 2) (on_comment 1) dislike
                   (serve_all [POST_videos 7; POST_videos_comments 8 0;
                               POST_videos_comments 8 0; POST_comments_dislike 9 1] empty_db)
                   (mkLike 3 9 None (Some 1) dislike) eq_refl eq_refl _ _ eq_refl eq_refl))).
  - left. reflexivity.
  - right. exists 1. split; reflexivity.
Defined.

(** ** Deleting a target *)

(** A successful DELETE of a video leaves no row that points at the video. *)
Lemma DELETE_videos_removes_rows (u id : ObjectId) (db : DB) (v : Video) :
  find (has_video_id id) (videos db) = Some v -> video_user v = u ->
  count (fun l => targets (on_video id) l) (likes (serve db (DELETE_videos u id))) = 0.
Proof.
  intros Hv Hu. rewrite serve_DELETE_videos, Hv, Hu, Nat.eqb_refl. simpl.
  apply count_remove_all_self. intros l H. apply opt_id_eqb_eq in H.
  unfold like_matches, key_matches. simpl. rewrite H. simpl. now rewrite Nat.eqb_refl.
Qed.

(** A successful DELETE of a comment leaves no row that points at the comment. *)
Lemma DELETE_comments_removes_rows (u id : ObjectId) (db : DB) (c : Comment) :
  find (has_comment_id id) (comments db) = Some c -> comment_user c = u ->
  count (fun l => targets (on_comment id) l) (likes (serve db (DELETE_comments u id))) = 0.
Proof.
  intros Hc Hu. rewrite serve_DELETE_comments, Hc, Hu, Nat.eqb_refl. simpl.
  apply count_remove_all_self. intros l H. apply opt_id_eqb_eq in H.
  unfold like_matches, key_matches. simpl. rewrite H. simpl. now rewrite Nat.eqb_refl.
Qed.

(** C5. Deleting a target is claimed to leave no orphaned row, also for the
    comments deleted with a video and the replies deleted with a comment.
    The handlers delete the rows of the target itself only. User 7 uploads
    video 0, user 8 comments (comment 1), user 9 likes the comment (row 2),
    user 7 deletes the video: comment 1 is gone and row 2 still points at it.
    User 9 replies to comment 1 (reply 2), user 7 dislikes the reply (row 3),
    user 8 deletes comment 1: the reply is gone and row 3 still points at
    it. *)
Theorem C5_cascade_leaves_orphans :
  serve_all [POST_videos 7; POST_videos_comments 8 0; POST_comments_like 9 1;
             DELETE_videos 7 0] empty_db
  = mkDB [] [] [mkLike 2 9 None (Some 1) like] 3
  /\ serve_all [POST_videos 7; POST_videos_comments 8 0; POST_comments_replies 9 1;
                POST_comments_dislike 7 2; DELETE_comments 8 1] empty_db
     = mkDB [mkVideo 0 7 0 0 0] [] [mkLike 3 7 None (Some 2) dislike] 4.
Proof. split; reflexivity. Qed.

(** ** Racing requests *)

(** A stored reaction of the actor to the target makes the index refuse a
    second one. *)
Lemma reaction_conflicts (actor : ObjectId) (t : Target) (k : ReactionType) (n : nat)
      (rows : list Like) (l : Like) :
  In l rows -> reaction_by actor t l = true ->
  index_conflict (mkLike n actor (target_video t) (target_comment t) k) rows = true.
Proof.
  intros Hin H. apply reaction_by_spec in H. destruct H as [Hu Ht].
  apply existsb_exists. exists l. split; [exact Hin|].
  unfold same_key. simpl. rewrite Hu, Nat.eqb_refl.
  destruct t as [id | id]; simpl; rewrite Ht, Nat.eqb_refl; simpl;
    first [reflexivity | apply orb_true_r].
Qed.

(** C6, as claimed: a create that loses the race is retried and the caller
    never sees the conflict. Two likes of user 8 on video 0 interleave: both
    read the video and find no reaction, the first creates its row and saves
    the counter, the second's insert is refused by the unique index and its
    handler answers 500 "Server error". *)
Theorem C6_conflict_surfaces :
  run_schedule [0; 0; 1; 1; 0; 0; 1] [videos_like 8 0; videos_like 8 0]
               (serve_all [POST_videos 7] empty_db)
  = ([Ret (res_message_video "Video liked" (mkVideo 0 7 0 1 0));
      Ret (res_message 500 "Server error")],
     mkDB [mkVideo 0 7 0 1 0] [] [mkLike 1 8 (Some 0) None like] 2).
Proof. reflexivity. Qed.

(** C6, amended. When a handler has read an existing target and found no
    reaction of the actor, and by the time of its insert another request has
    stored a reaction of that actor to that target, the insert is refused
    and the handler's next step is its answer, 500 "Server error": it reads
    nothing again, retries nothing and leaves the store as it found it. *)
Theorem C6_conflict_is_server_error
        (actor : ObjectId) (t : Target) (k : ReactionType) (db db' : DB) (l : Like) :
  target_exists t db = true ->
  reaction_state actor t db = None ->
  In l (likes db') -> reaction_by actor t l = true ->
  step (after_reads (handler (react_request actor t k)) db) db'
  = (Ret (res_message 500 "Server error"), db').
Proof.
  intros Hex Hnone Hin Hl.
  assert (find (like_matches (reaction_query actor t)) (likes db) = None) as Hf.
  { unfold reaction_state, find_reaction in Hnone.
    now destruct (find (like_matches (reaction_query actor t)) (likes db)). }
  pose proof (fun k n => reaction_conflicts actor t k n (likes db') l Hin Hl) as Hc.
  unfold after_reads.
  destruct t as [id | id], k; cbn [target_video target_comment] in Hc; simpl in Hex |- *.
  - destruct (existsb_find _ _ _ Hex) as [v Hv]. rewrite Hv. simpl.
    rewrite (has_video_id_find _ _ _ Hv).
    change (mkLikeQuery (Some actor) (Some id) None) with (reaction_query actor (on_video id)).
    rewrite Hf. simpl. now rewrite Hc.
  - destruct (existsb_find _ _ _ Hex) as [v Hv]. rewrite Hv. simpl.
    rewrite (has_video_id_find _ _ _ Hv).
    change (mkLikeQuery (Some actor) (Some id) None) with (reaction_query actor (on_video id)).
    rewrite Hf. simpl. now rewrite Hc.
  - destruct (existsb_find _ _ _ Hex) as [c Hv]. rewrite Hv. simpl.
    rewrite (has_comment_id_find _ _ _ Hv).
    change (mkLikeQuery (Some actor) None (Some id))
      with (reaction_query actor (on_comment id)).
    rewrite Hf. simpl. now rewrite Hc.
  - destruct (existsb_find _ _ _ Hex) as [c Hv]. rewrite Hv. simpl.
    rewrite (has_comment_id_find _ _ _ Hv).
    change (mkLikeQuery (Some actor) None (Some id))
      with (reaction_query actor (on_comment id)).
    rewrite Hf. simpl. now rewrite Hc.
Qed.

(** C6 amended, at the race of the counterexample. *)
Lemma C6_conflict_is_server_error_witness :
  step (after_reads (handler (react_request 8 (on_video 0) like))
                    (serve_all [POST_videos 7] empty_db))
       (serve_all [POST_videos 7; POST_videos_like 8 0] empty_db)
  = (Ret (res_message 500 "Server error"),
     serve_all [POST_videos 7; POST_videos_like 8 0] empty_db).
Proof.
  apply (C6_conflict_is_server_error 8 (on_video 0) like
           (serve_all [POST_videos 7] empty_db)
           (serve_all [POST_videos 7; POST_videos_like 8 0] empty_db)
           (mkLike 1 8 (Some 0) None like)).
  - reflexivity.
  - reflexivity.
  - simpl. left. reflexivity.
  - reflexivity.
Defined.

(** ** Counters below zero *)

Lemma counters_target_exists (t : Target) (db : DB) (c : Z * Z) :
  counters t db = Some c -> target_exists t db = true.
Proof.
  destruct t as [id | id]; simpl; intros H.
  - destruct (find (has_video_id id) (videos db)) eqn:E; [|discriminate].
    exact (find_existsb _ _ _ _ E).
  - destruct (find (has_comment_id id) (comments db)) eqn:E; [|discriminate].
    exact (find_existsb _ _ _ _ E).
Qed.

(** C7, as claimed: no counter is ever negative, and a decrement that would
    go below zero is answered with an error instead of being stored. Users 8
    and 9 like video 0 at the same time: both read [likes = 0] and both save
    [likes = 1], so two rows stand against a counter of 1. Each then takes
    its like back; the second removal is answered "Like removed" and stores
    [likes = -1]. *)
Theorem C7_counter_goes_negative :
  let raced := snd (run_schedule [0; 0; 1; 1; 0; 0; 1; 1] [videos_like 8 0; videos_like 9 0]
                                 (serve_all [POST_videos 7] empty_db)) in
  raced = mkDB [mkVideo 0 7 0 1 0] []
               [mkLike 1 8 (Some 0) None like; mkLike 2 9 (Some 0) None like] 3
  /\ run (videos_like 9 0) (serve raced (POST_videos_like 8 0))
     = (inr (res_message_video "Like removed" (mkVideo 0 7 0 (-1) 0)),
        mkDB [mkVideo 0 7 0 (-1) 0] [] [] 3).
Proof. split; reflexivity. Qed.

(** C7, amended. When every request is served before the next one starts, no
    stored counter is negative; and a reaction request lowers [likes] only
    when it found the actor's like, and [dislikes] only when it found the
    actor's dislike. The handlers have no guard of their own. *)
Theorem C7_counters_nonnegative (db : DB) :
  reachable db ->
  (forall v, In v (videos db) -> (0 <= video_likes v)%Z /\ (0 <= video_dislikes v)%Z)
  /\ (forall c, In c (comments db) -> (0 <= comment_likes c)%Z /\ (0 <= comment_dislikes c)%Z)
  /\ (forall actor t k c c',
         counters t db = Some c ->
         counters t (serve db (react_request actor t k)) = Some c' ->
         ((fst c' < fst c)%Z -> reaction_state actor t db = Some like)
         /\ ((snd c' < snd c)%Z -> reaction_state actor t db = Some dislike)).
Proof.
  intros Hr. destruct (inv_counters (reachable_Inv db Hr)) as [Hv Hc].
  split; [|split].
  - intros v Hin. destruct (Hv v Hin) as [-> ->]. split; apply Nat2Z.is_nonneg.
  - intros c Hin. destruct (Hc c Hin) as [-> ->]. split; apply Nat2Z.is_nonneg.
  - intros actor t k c c' H0 H1.
    rewrite (react_serve actor t k db (counters_target_exists t db c H0)) in H1.
    destruct (create_refused actor t db).
    + rewrite H0 in H1. injection H1 as <-. split; intros; lia.
    + rewrite counters_react_spec, (proj2 (Target_eqb_eq t t) eq_refl), H0 in H1.
      simpl in H1. injection H1 as <-. destruct c as [lk dk]. simpl.
      destruct (reaction_state actor t db) as [[|]|], k; simpl; split; intros;
        try reflexivity; lia.
Qed.

(** C7 amended, after a like and a dislike of one video. *)
Lemma C7_counters_nonnegative_witness :
  Z.le 0 (video_likes (mkVideo 0 7 0 1 1)) /\ Z.le 0 (video_dislikes (mkVideo 0 7 0 1 1)).
Proof.
  refine (proj1 (C7_counters_nonnegative
                   (serve_all [POST_videos 7; POST_videos_like 8 0; POST_videos_dislike 9 0]
                              empty_db) _) (mkVideo 0 7 0 1 1) _).
  - eexists. reflexivity.
  - left. reflexivity.
Defined.

(** ** Like status *)

(** Under the unique key, the row that [findOne] returns is the actor's only
    row on the target. *)
Lemma unique_reaction_found (actor : ObjectId) (t : Target) (db : DB) (ex l : Like) :
  unique_reactions db -> find_reaction actor t db = Some ex ->
  In l (likes db) -> reaction_by actor t l = true -> l = ex.
Proof.
  intros Hu Hf Hin Hl. specialize (Hu actor t). unfold count in Hu.
  unfold find_reaction in Hf. apply find_some in Hf. destruct Hf as [Hex Hm].
  rewrite like_matches_reaction_by in Hm.
  assert (In l (filter (reaction_by actor t) (likes db))) as H1
      by (apply filter_In; auto).
  assert (In ex (filter (reaction_by actor t) (likes db))) as H2
      by (apply filter_In; auto).
  destruct (filter (reaction_by actor t) (likes db)) as [|a [|b r]]; simpl in *.
  - destruct H1.
  - destruct H1 as [<- | []], H2 as [<- | []]. reflexivity.
  - lia.
Qed.

(** C8. For every actor and video id, GET like-status answers
    [{liked, disliked}] and writes nothing; under the unique key, [liked]
    holds exactly when a row of kind like of the actor on the video is
    stored, [disliked] exactly when a row of kind dislike is; the two are
    never both true, and both are false exactly when the actor has no row on
    the video. *)
Theorem C8_like_status (u id : ObjectId) (db : DB) :
  unique_reactions db ->
  exists liked disliked,
    run (videos_like_status u id) db = (inr (res_like_status liked disliked), db)
    /\ (liked = true <->
        exists l, In l (likes db) /\ reaction_by u (on_video id) l = true
                  /\ like_type l = like)
    /\ (disliked = true <->
        exists l, In l (likes db) /\ reaction_by u (on_video id) l = true
                  /\ like_type l = dislike)
    /\ ~ (liked = true /\ disliked = true)
    /\ (liked = false /\ disliked = false <->
        forall l, In l (likes db) -> reaction_by u (on_video id) l = false).
Proof.
  intros Hu. unfold videos_like_status. simpl.
  change (mkLikeQuery (Some u) (Some id) None) with (reaction_query u (on_video id)).
  destruct (find (like_matches (reaction_query u (on_video id))) (likes db)) as [ex|] eqn:Hf.
  - pose proof (unique_reaction_found u (on_video id) db ex) as Huniq.
    specialize (fun l => Huniq l Hu Hf).
    pose proof Hf as Hex. apply find_some in Hex. destruct Hex as [Hin Hm].
    rewrite like_matches_reaction_by in Hm.
    exists (ReactionType_eqb (like_type ex) like), (ReactionType_eqb (like_type ex) dislike).
    simpl. split; [reflexivity|]. split; [|split; [|split]].
    + split.
      * intros H. exists ex. destruct (like_type ex); [auto | discriminate].
      * intros (l & Hl & Hr & Hk). rewrite <- (Huniq l Hl Hr), Hk. reflexivity.
    + split.
      * intros H. exists ex. destruct (like_type ex); [discriminate | auto].
      * intros (l & Hl & Hr & Hk). rewrite <- (Huniq l Hl Hr), Hk. reflexivity.
    + intros [H1 H2]. destruct (like_type ex); discriminate.
    + split.
      * intros [H1 H2]. destruct (like_type ex); discriminate.
      * intros H. specialize (H ex Hin). congruence.
  - exists false, false. simpl. split; [reflexivity|].
    assert (forall l, In l (likes db) -> reaction_by u (on_video id) l = false) as Hnone.
    { intros l Hl. rewrite <- like_matches_reaction_by. exact (find_none _ _ Hf l Hl). }
    split; [|split; [|split]].
    + split; [discriminate|].
      intros (l & Hl & Hr & _). rewrite (Hnone l Hl) in Hr. discriminate.
    + split; [discriminate|].
      intros (l & Hl & Hr & _). rewrite (Hnone l Hl) in Hr. discriminate.
    + intros [H _]. discriminate.
    + split; [intros _; exact Hnone | intros _; split; reflexivity].
Qed.

(** C8 for user 8, who dislikes video 0. *)
Lemma C8_like_status_witness :
  exists liked disliked,
    run (videos_like_status 8 0)
        (serve_all [POST_videos 7; POST_videos_dislike 8 0] empty_db)
    = (inr (res_like_status liked disliked),
       serve_all [POST_videos 7; POST_videos_dislike 8 0] empty_db).
Proof.
  destruct (C8_like_status 8 0 (serve_all [POST_videos 7; POST_videos_dislike 8 0] empty_db))
    as (liked & disliked & H & _).
  - intros actor t. unfold count. simpl.
    destruct (reaction_by actor t _); simpl; lia.
  - exists liked, disliked. exact H.
Defined.

(** ** One target per row *)

Lemma exec_op_single_target (X : Type) (op : Op X) (db : DB) :
  inserts_single_target op -> Forall single_target (likes db) ->
  Forall single_target (likes (snd (exec_op op db))).
Proof.
  intros Hop Hs.
  destruct op; simpl;
    repeat match goal with
           | |- context [if ?b then _ else _] => destruct b
           end; simpl; try exact Hs;
    apply Forall_forall; intros y Hy; in_collection Hy.
  - exact (proj1 (Forall_forall _ _) Hs _ Hy).
  - exact Hop.
  - exact (proj1 (Forall_forall _ _) Hs _ Hy).
  - exact (proj1 (Forall_forall _ _) Hs _ Hy).
  - exact (proj1 (Forall_forall _ _) Hs _ Hy).
  - exact (proj1 (Forall_forall _ _) Hs _ Hy).
Qed.

Lemma step_calls_ok (A : Type) (P : forall X, Op X -> Prop) (p : Prog A) (db : DB) :
  calls_ok P p -> calls_ok P (fst (step p db)).
Proof.
  destruct p as [a | e | X op k]; simpl; try tauto.
  intros [_ Hk]. destruct (exec_op op db) as [r db']. apply Hk.
Qed.

Lemma step_single_target (A : Type) (p : Prog A) (db : DB) :
  calls_ok (@inserts_single_target) p -> Forall single_target (likes db) ->
  Forall single_target (likes (snd (step p db))).
Proof.
  destruct p as [a | e | X op k]; simpl; try tauto.
  intros [Hop _] Hs. pose proof (exec_op_single_target X op db Hop Hs) as H.
  now destruct (exec_op op db).
Qed.

Lemma step_nth_single_target (i : nat) (pool : list (Prog Response)) (db : DB) :
  Forall (calls_ok (@inserts_single_target)) pool -> Forall single_target (likes db) ->
  Forall (calls_ok (@inserts_single_target)) (fst (step_nth i pool db))
  /\ Forall single_target (likes (snd (step_nth i pool db))).
Proof.
  revert i. induction pool as [|p rest IH]; intros i Hp Hs; destruct i as [|j]; simpl;
    try (split; assumption).
  - inversion Hp as [|? ? Hp1 Hp2]; subst.
    pose proof (step_calls_ok _ _ p db Hp1) as H1.
    pose proof (step_single_target _ p db Hp1 Hs) as H2.
    destruct (step p db) as [p' db']. split; [constructor; assumption | exact H2].
  - inversion Hp as [|? ? Hp1 Hp2]; subst.
    destruct (IH j Hp2 Hs) as [H1 H2].
    destruct (step_nth j rest db) as [rest' db']. split; [constructor; assumption | exact H2].
Qed.

Lemma run_schedule_single_target (sched : list nat) (pool : list (Prog Response)) (db : DB) :
  Forall (calls_ok (@inserts_single_target)) pool -> Forall single_target (likes db) ->
  Forall single_target (likes (snd (run_schedule sched pool db))).
Proof.
  revert pool db. induction sched as [|i sched IH]; intros pool db Hp Hs; simpl; [exact Hs|].
  destruct (step_nth_single_target i pool db Hp Hs) as [H1 H2].
  destruct (step_nth i pool db) as [pool' db']. now apply IH.
Qed.

(** Every insert of a handler names a video and no comment, or a comment and
    no video. *)
Lemma handler_inserts_single_target (r : Request) :
  calls_ok (@inserts_single_target) (handler r).
Proof.
  destruct r; simpl;
    repeat (simpl;
            match goal with
            | |- True => exact I
            | |- _ /\ _ => split
            | |- forall _, _ => intro
            | |- single_target _ => first [left; eexists; split; reflexivity
                                          | right; eexists; split; reflexivity]
            | |- context [match ?x with _ => _ end] => destruct x
            | |- context [if ?x then _ else _] => destruct x
            end).
Qed.

(** C9. Every row stored at any point of any interleaving of any requests,
    and after any requests served one after the other, has exactly one
    target: a video and no comment, or a comment and no video. *)
Theorem C9_single_target :
  (forall (rs : list Request) (sched : list nat),
      Forall single_target (likes (snd (run_schedule sched (map handler rs) empty_db))))
  /\ (forall rs : list Request, Forall single_target (likes (serve_all rs empty_db))).
Proof.
  split.
  - intros rs sched. apply run_schedule_single_target; [|constructor].
    apply Forall_forall. intros p Hp. apply in_map_iff in Hp.
    destruct Hp as (r & <- & _). apply handler_inserts_single_target.
  - intros rs.
    assert (reachable (serve_all rs empty_db)) as Hr by now exists rs.
    exact (inv_single (reachable_Inv _ Hr)).
Qed.

(** ** Like status of a missing video *)




(** ** What a reaction request answers *)

Lemma has_video_id_write (id : ObjectId) (d : VideoDoc) (v : Video) :
  has_video_id id (write_video d v) = has_video_id id v.
Proof. unfold has_video_id. now rewrite write_video_id. Qed.

Lemma has_comment_id_write (id : ObjectId) (d : CommentDoc) (c : Comment) :
  has_comment_id id (write_comment d c) = has_comment_id id c.
Proof. unfold has_comment_id. now rewrite write_comment_id. Qed.

(** The document in the answer is the document the save left in the store. *)
Ltac answer_is_stored Hfound :=
  eexists; split; [|reflexivity]; simpl;
  first [ rewrite find_update_first_same by (intros; apply has_video_id_write)
        | rewrite find_update_first_same by (intros; apply has_comment_id_write) ];
  rewrite Hfound; simpl; f_equal;
  match type of Hfound with _ = Some ?d => destruct d end; reflexivity.

Ltac answer_cases t Hex Hfound :=
  match goal with
  | |- context [find (like_matches ?q) (likes ?db)] =>
      change q with (reaction_query (match q_user q with Some u => u | None => 0 end) t);
      cbv beta iota delta [q_user];
      destruct (find (like_matches (reaction_query _ t)) (likes db)) as [ex|] eqn:Hf; simpl;
      [ rewrite ?(found_like_stored _ _ _ Hf);
        destruct (like_type ex) eqn:Ht; simpl;
        rewrite ?(found_like_stored _ _ _ Hf); simpl; rewrite ?Hex; simpl;
        answer_is_stored Hfound
      | match goal with
        | Hcr : create_refused _ _ _ = false |- _ =>
            unfold create_refused, find_reaction in Hcr; rewrite Hf in Hcr; simpl in Hcr;
            rewrite ?index_conflict_kind, Hcr
        end; simpl; rewrite ?Hex; simpl; answer_is_stored Hfound ]
  end.

Lemma react_run (actor : ObjectId) (t : Target) (k : ReactionType) (db : DB) :
  target_exists t db = true -> create_refused actor t db = false ->
  let db' := serve db (react_request actor t k) in
  let message := react_message t (reaction_state actor t db) k in
  match t with
  | on_video id =>
      exists v', find (has_video_id id) (videos db') = Some v'
                 /\ run (handler (react_request actor t k)) db
                    = (inr (res_message_video message v'), db')
  | on_comment id =>
      exists c', find (has_comment_id id) (comments db') = Some c'
                 /\ run (handler (react_request actor t k)) db
                    = (inr (res_message_comment message c'), db')
  end.
Proof.
  intros Hex Hcr. cbv zeta.
  destruct t as [id | id], k; simpl in Hex;
    destruct (existsb_find _ _ _ Hex) as [d Hd];
    first [ pose proof (has_video_id_find _ _ _ Hd) as Hid
          | pose proof (has_comment_id_find _ _ _ Hd) as Hid ];
    subst id; unfold serve, reaction_state, find_reaction; simpl; rewrite Hd; simpl.
  - answer_cases (on_video (video_id d)) Hex Hd.
  - answer_cases (on_video (video_id d)) Hex Hd.
  - answer_cases (on_comment (comment_id d)) Hex Hd.
  - answer_cases (on_comment (comment_id d)) Hex Hd.
Qed.

(** X1. A reaction request on an existing target is answered in one of two
    ways. When the actor has no reaction to the target and the unique
    indexes refuse the new row, the answer is 500 "Server error" and nothing
    is written. Otherwise the answer is 200 with the message of the row of
    the table the handler took and with the target as the store holds it
    after the request, new counters included. *)
Theorem react_answer (actor : ObjectId) (t : Target) (k : ReactionType) (db : DB) :
  target_exists t db = true ->
  let db' := serve db (react_request actor t k) in
  let message := react_message t (reaction_state actor t db) k in
  if create_refused actor t db
  then run (handler (react_request actor t k)) db
       = (inr (res_message 500 "Server error"), db)
  else
    match t with
    | on_video id =>
        exists v', find (has_video_id id) (videos db') = Some v'
                   /\ run (handler (react_request actor t k)) db
                      = (inr (res_message_video message v'), db')
    | on_comment id =>
        exists c', find (has_comment_id id) (comments db') = Some c'
                   /\ run (handler (react_request actor t k)) db
                      = (inr (res_message_comment message c'), db')
    end.
Proof.
  intros Hex. cbv zeta. destruct (create_refused actor t db) eqn:Hcr.
  - exact (react_refused_run actor t k db Hex Hcr).
  - exact (react_run actor t k db Hex Hcr).
Qed.

(** X1 for the first like of video 0. *)
Lemma react_answer_witness :
  exists v',
    find (has_video_id 0)
         (videos (serve (serve_all [POST_videos 7] empty_db)
                        (react_request 8 (on_video 0) like))) = Some v'
    /\ run (handler (react_request 8 (on_video 0) like)) (serve_all [POST_videos 7] empty_db)
       = (inr (res_message_video "Video liked" v'),
          serve (serve_all [POST_videos 7] empty_db) (react_request 8 (on_video 0) like)).
Proof.
  exact (react_answer 8 (on_video 0) like (serve_all [POST_videos 7] empty_db) eq_refl).
Defined.

Lemma react_missing_run (actor : ObjectId) (t : Target) (k : ReactionType) (db : DB) :
  target_exists t db = false ->
  run (handler (react_request actor t k)) db
  = (inr (res_message 404 match t with
                          | on_video _ => "Video not found"
                          | on_comment _ => "Comment not found"
                          end), db).
Proof.
  destruct t, k; simpl; intros H;
    match goal with
    | |- context [find ?p ?l] =>
        destruct (find p l) eqn:E; [apply find_existsb in E; congruence | reflexivity]
    end.
Qed.

(** X2. A reaction request on a target that is not stored answers 404,
    "Video not found" or "Comment not found", and writes nothing. *)
Theorem react_missing_target (actor : ObjectId) (t : Target) (k : ReactionType) (db : DB) :
  target_exists t db = false ->
  run (handler (react_request actor t k)) db
  = (inr (res_message 404 match t with
                          | on_video _ => "Video not found"
                          | on_comment _ => "Comment not found"
                          end), db).
Proof. exact (react_missing_run actor t k db). Qed.

(** X2 for a dislike of a comment of the empty store. *)
Lemma react_missing_target_witness :
  run (handler (react_request 8 (on_comment 3) dislike)) empty_db
  = (inr (res_message 404 "Comment not found"), empty_db).
Proof. exact (react_missing_target 8 (on_comment 3) dislike empty_db eq_refl). Defined.

(** ** Server errors *)



(** ** The reaction state after a request *)

Lemma find_app (T : Type) (p : T -> bool) (l1 l2 : list T) :
  find p (l1 ++ l2) = match find p l1 with Some x => Some x | None => find p l2 end.
Proof.
  induction l1 as [|x r IH]; [reflexivity|]. simpl. now destruct (p x).
Qed.

(** Under the unique key and unique [_id]s, the row that was found splits
    the rows into rows of other (actor, target) pairs. *)
Lemma found_reaction_split (actor : ObjectId) (t : Target) (db : DB) (ex : Like) :
  NoDup (map like_id (likes db)) -> unique_reactions db ->
  find_reaction actor t db = Some ex ->
  exists l1 l2, likes db = l1 ++ ex :: l2
    /\ (forall y, In y l1 -> has_like_id (like_id ex) y = false)
    /\ (forall y, In y (l1 ++ l2) -> like_matches (reaction_query actor t) y = false).
Proof.
  intros Hn Hu Hf. destruct (found_reaction _ _ _ _ Hf) as (Hin & _ & _).
  destruct (like_id_split _ _ Hn Hin) as (l1 & l2 & E & H1 & H2).
  exists l1, l2. split; [exact E|]. split; [exact H1|].
  intros y Hy. rewrite like_matches_reaction_by.
  destruct (reaction_by actor t y) eqn:Er; [|reflexivity].
  assert (In y (likes db)) as Hy'.
  { rewrite E. apply in_app_or in Hy. apply in_or_app. simpl. tauto. }
  pose proof (unique_reaction_found actor t db ex y Hu Hf Hy' Er) as ->.
  apply in_app_or in Hy. destruct Hy as [Hy | Hy];
    [specialize (H1 _ Hy) | specialize (H2 _ Hy)];
    unfold has_like_id in *; rewrite Nat.eqb_refl in *; discriminate.
Qed.

Lemma like_matches_set_like_type (q : LikeQuery) (k : ReactionType) (l : Like) :
  like_matches q (set_like_type k l) = like_matches q l.
Proof. reflexivity. Qed.

Lemma reaction_state_react_spec (actor : ObjectId) (t : Target) (k : ReactionType) (db : DB) :
  NoDup (map like_id (likes db)) -> unique_reactions db ->
  reaction_state actor t (react_spec actor t k db)
  = next_state (reaction_state actor t db) k.
Proof.
  intros Hn Hu. destruct (find_reaction actor t db) as [ex|] eqn:Hf.
  - destruct (found_reaction_split actor t db ex Hn Hu Hf) as (l1 & l2 & E & H1 & H2).
    destruct (found_reaction _ _ _ _ Hf) as (_ & _ & Ht).
    assert (like_matches (reaction_query actor t) ex = true) as Hm.
    { unfold find_reaction in Hf. apply find_some in Hf. tauto. }
    unfold reaction_state at 2. rewrite Hf. simpl.
    unfold reaction_state, find_reaction. rewrite likes_react_spec, Hf. simpl.
    destruct (like_type ex) eqn:Hk, k; simpl; rewrite E.
    + rewrite remove_first_split by (try apply Nat.eqb_refl; exact H1).
      now rewrite (all_find_none _ _ _ H2).
    + rewrite update_first_split by (try apply Nat.eqb_refl; exact H1).
      rewrite find_app, (all_find_none _ _ l1) by (intros; apply H2, in_or_app; tauto).
      simpl. now rewrite like_matches_set_like_type, Hm.
    + rewrite update_first_split by (try apply Nat.eqb_refl; exact H1).
      rewrite find_app, (all_find_none _ _ l1) by (intros; apply H2, in_or_app; tauto).
      simpl. now rewrite like_matches_set_like_type, Hm.
    + rewrite remove_first_split by (try apply Nat.eqb_refl; exact H1).
      now rewrite (all_find_none _ _ _ H2).
  - unfold reaction_state at 2. rewrite Hf. simpl.
    unfold reaction_state. now rewrite (proj2 (react_spec_none actor t k db Hf)).
Qed.

(** X4. Between requests served one after the other, a reaction request on
    an existing target moves the actor's reaction state as the table says,
    from none to the requested kind, from the requested kind to none, from
    the other kind to the requested kind, unless the unique indexes refuse
    the new row of a first reaction: then the state stays none. *)
Theorem react_next_state (actor : ObjectId) (t : Target) (k : ReactionType) (db : DB) :
  reachable db -> target_exists t db = true ->
  reaction_state actor t (serve db (react_request actor t k))
  = if create_refused actor t db then None
    else next_state (reaction_state actor t db) k.
Proof.
  intros Hr Hex. rewrite (react_serve actor t k db Hex).
  destruct (create_refused actor t db) eqn:Hcr.
  - now apply create_refused_state.
  - destruct (inv_store (reachable_Inv db Hr)) as (_ & (_ & _ & Hn) & Hu).
    now apply reaction_state_react_spec.
Qed.

(** X4 for a dislike over a like. *)
Lemma react_next_state_witness :
  reaction_state 8 (on_video 0)
    (serve (serve_all [POST_videos 7; POST_videos_like 8 0] empty_db)
           (react_request 8 (on_video 0) dislike))
  = Some dislike.
Proof.
  refine (react_next_state 8 (on_video 0) dislike
            (serve_all [POST_videos 7; POST_videos_like 8 0] empty_db) _ eq_refl).
  eexists. reflexivity.
Defined.

(** ** How reactions compose *)

Lemma update_first_ext (T : Type) (p : T -> bool) (f g : T -> T) (l : list T) :
  (forall x, f x = g x) -> update_first p f l = update_first p g l.
Proof.
  intros H. induction l as [|x r IH]; [reflexivity|].
  simpl. destruct (p x); [now rewrite H | now rewrite IH].
Qed.

Lemma update_first_twice (T : Type) (p : T -> bool) (f g : T -> T) (l : list T) :
  (forall x, p (f x) = p x) ->
  update_first p g (update_first p f l) = update_first p (fun x => g (f x)) l.
Proof.
  intros H. induction l as [|x r IH]; [reflexivity|].
  simpl. destruct (p x) eqn:E; simpl; [now rewrite H, E | now rewrite E, IH].
Qed.

(** Two adjustments of one target are the adjustment by the sums. *)
Lemma adjust_twice (t : Target) (a b c d : Z) (db : DB) :
  adjust t c d (adjust t a b db) = adjust t (a + c) (b + d) db.
Proof.
  destruct t as [id | id]; unfold adjust, with_videos, with_comments; simpl; f_equal;
    (rewrite update_first_twice by reflexivity); apply update_first_ext;
    intros x; simpl; f_equal; lia.
Qed.

Lemma adjust_with_likes (t : Target) (a b : Z) (rows : list Like) (db : DB) :
  with_likes rows (adjust t a b db) = adjust t a b (with_likes rows db).
Proof. now destruct t. Qed.

Lemma react_flip_spec (actor : ObjectId) (t : Target) (k : ReactionType) (db : DB) :
  ids_below db -> find_reaction actor t db = None ->
  react_spec actor t (opposite k) (react_spec actor t k db)
  = react_spec actor t (opposite k) db.
Proof.
  intros Hb Hf. destruct (react_spec_none actor t k db Hf) as [Hl1 Hf1].
  assert (update_first (has_like_id (next_id db)) (set_like_type (opposite k))
            (likes db ++ [mkLike (next_id db) actor (target_video t) (target_comment t) k])
          = likes db ++ [mkLike (next_id db) actor (target_video t) (target_comment t)
                                (opposite k)]) as Hup.
  { apply update_first_split; [apply Nat.eqb_refl|].
    intros y Hy. apply Nat.eqb_neq. destruct Hb as (_ & _ & Hlk).
    specialize (Hlk y Hy). lia. }
  unfold react_spec at 1. rewrite Hf1. unfold react_spec. rewrite Hf.
  destruct k; simpl in *; rewrite likes_adjust; simpl; rewrite Hup;
    rewrite adjust_with_likes, adjust_twice; reflexivity.
Qed.

(** X5. When the actor has no reaction to an existing target, a reaction
    followed by the opposite reaction leaves the store exactly as the
    opposite reaction alone would: one row, of the second kind, and the
    counters of a single reaction of that kind. *)
Theorem react_flip (actor : ObjectId) (t : Target) (k : ReactionType) (db : DB) :
  ids_below db -> target_exists t db = true -> reaction_state actor t db = None ->
  serve (serve db (react_request actor t k)) (react_request actor t (opposite k))
  = serve db (react_request actor t (opposite k)).
Proof.
  intros Hb Hex Hnone.
  assert (find_reaction actor t db = None) as Hf.
  { unfold reaction_state in Hnone. now destruct (find_reaction actor t db). }
  destruct (create_refused actor t db) eqn:Hcr.
  - now rewrite (react_refused actor t k db Hex Hcr).
  - rewrite (react_refines actor t k db Hex Hcr).
    rewrite (react_refines actor t (opposite k) db Hex Hcr).
    rewrite react_refines.
    + now apply react_flip_spec.
    + now rewrite target_exists_react_spec.
    + unfold create_refused. now rewrite (proj2 (react_spec_none actor t k db Hf)).
Qed.

(** X5 for a like then a dislike of video 0 by user 8. *)
Lemma react_flip_witness :
  serve (serve (serve_all [POST_videos 7] empty_db) (react_request 8 (on_video 0) like))
        (react_request 8 (on_video 0) (opposite like))
  = serve (serve_all [POST_videos 7] empty_db) (react_request 8 (on_video 0) (opposite like)).
Proof.
  refine (react_flip 8 (on_video 0) like (serve_all [POST_videos 7] empty_db) _ eq_refl eq_refl).
  repeat split; simpl; intros x Hx; try destruct Hx as [<- | []]; try destruct Hx; simpl; lia.
Defined.

(** Another actor's request leaves the actor's reaction where it was. *)
Lemma reaction_state_other (a b : ObjectId) (t t' : Target) (k : ReactionType) (db : DB) :
  NoDup (map like_id (likes db)) -> a <> b ->
  reaction_state a t' (react_spec b t k db) = reaction_state a t' db.
Proof.
  intros Hn Hab. unfold reaction_state, find_reaction. rewrite likes_react_spec.
  destruct (find_reaction b t db) as [ex|] eqn:Hf.
  - destruct (found_reaction _ _ _ _ Hf) as (Hin & Hu & _).
    destruct (like_id_split _ _ Hn Hin) as (l1 & l2 & E & H1 & _).
    assert (forall k', like_matches (reaction_query a t') (set_like_type k' ex) = false) as Hm.
    { intros k'. rewrite like_matches_set_like_type, like_matches_reaction_by.
      unfold reaction_by. rewrite Hu. apply Nat.eqb_neq in Hab.
      now rewrite Nat.eqb_sym, Hab. }
    pose proof (Hm (like_type ex)) as Hm0.
    assert (set_like_type (like_type ex) ex = ex) as Eex by now destruct ex.
    rewrite Eex in Hm0.
    simpl. destruct (like_type ex), k; simpl; rewrite E;
      rewrite ?remove_first_split, ?update_first_split
        by (try apply Nat.eqb_refl; exact H1);
      rewrite !find_app; simpl; rewrite ?Hm, ?Hm0; reflexivity.
  - simpl. assert (forall k', like_matches (reaction_query a t')
                       (mkLike (next_id db) b (target_video t) (target_comment t) k')
                     = false) as Hm.
    { intros k'. rewrite like_matches_reaction_by. unfold reaction_by. simpl.
      apply Nat.eqb_neq in Hab. now rewrite Nat.eqb_sym, Hab. }
    destruct k; simpl; rewrite find_app; simpl; rewrite Hm;
      now destruct (find (like_matches (reaction_query a t')) (likes db)).
Qed.

(** The rows of another user weigh nothing in the indexes. *)
Lemma index_conflict_app_other (l r : Like) (rows : list Like) :
  Nat.eqb (like_user l) (like_user r) = false ->
  index_conflict l (rows ++ [r]) = index_conflict l rows.
Proof.
  intros H. unfold index_conflict. rewrite existsb_app. simpl. unfold same_key.
  rewrite H. simpl. now rewrite orb_false_r.
Qed.

Lemma index_conflict_split_other (l ex : Like) (l1 l2 : list Like) :
  Nat.eqb (like_user l) (like_user ex) = false ->
  index_conflict l (l1 ++ ex :: l2) = index_conflict l (l1 ++ l2).
Proof.
  intros H. unfold index_conflict. rewrite !existsb_app. simpl. unfold same_key.
  rewrite H. reflexivity.
Qed.

Lemma index_conflict_set_like_type (l ex : Like) (k : ReactionType) (l1 l2 : list Like) :
  index_conflict l (l1 ++ set_like_type k ex :: l2) = index_conflict l (l1 ++ ex :: l2).
Proof. unfold index_conflict. rewrite !existsb_app. reflexivity. Qed.

(** Another actor's request leaves the actor's refusal where it was. *)
Lemma create_refused_other (a b : ObjectId) (t t' : Target) (k : ReactionType) (db : DB) :
  NoDup (map like_id (likes db)) -> a <> b ->
  create_refused a t' (react_spec b t k db) = create_refused a t' db.
Proof.
  intros Hn Hab. pose proof (reaction_state_other a b t t' k db Hn Hab) as Hs.
  unfold reaction_state in Hs. unfold create_refused.
  destruct (find_reaction a t' (react_spec b t k db)), (find_reaction a t' db);
    try discriminate; try reflexivity.
  clear Hs. rewrite likes_react_spec.
  assert (Nat.eqb a b = false) as Hne by now apply Nat.eqb_neq.
  destruct (find_reaction b t db) as [ex|] eqn:Hf; simpl.
  - destruct (found_reaction _ _ _ _ Hf) as (Hin & Hu & _).
    destruct (like_id_split _ _ Hn Hin) as (l1 & l2 & E & H1 & _).
    destruct (like_type ex), k; simpl; rewrite E;
      rewrite ?remove_first_split, ?update_first_split
        by (try apply Nat.eqb_refl; exact H1);
      rewrite ?index_conflict_set_like_type;
      rewrite ?(index_conflict_split_other _ ex) by (simpl; now rewrite Hu);
      reflexivity.
  - destruct k; simpl; now rewrite index_conflict_app_other by (simpl; exact Hne).
Qed.

(** X6. Between requests served one after the other, the reactions of two
    different actors to one target commute: in either order the target ends
    with the same counters and each actor with the same reaction state. *)
Theorem react_actors_commute (a b : ObjectId) (t : Target) (ka kb : ReactionType) (db : DB) :
  reachable db -> a <> b ->
  let ab := serve (serve db (react_request a t ka)) (react_request b t kb) in
  let ba := serve (serve db (react_request b t kb)) (react_request a t ka) in
  counters t ab = counters t ba
  /\ reaction_state a t ab = reaction_state a t ba
  /\ reaction_state b t ab = reaction_state b t ba.
Proof.
  intros Hr Hab. cbv zeta.
  destruct (target_exists t db) eqn:Hex.
  2:{ repeat rewrite (react_missing _ t _ db Hex). auto. }
  pose proof (reachable_Inv db Hr) as HI.
  pose proof (serve_Inv db (react_request a t ka) HI) as HIa.
  pose proof (serve_Inv db (react_request b t kb) HI) as HIb.
  destruct (inv_store HI) as (_ & (_ & _ & Hn) & Hu).
  assert (b <> a) as Hba by congruence.
  rewrite (react_serve a t ka db Hex) in *. rewrite (react_serve b t kb db Hex) in *.
  destruct (create_refused a t db) eqn:Ha, (create_refused b t db) eqn:Hb;
    repeat rewrite react_serve by (rewrite ?target_exists_react_spec; exact Hex);
    rewrite ?create_refused_other by assumption; rewrite ?Ha, ?Hb; auto.
  destruct (inv_store HIa) as (_ & (_ & _ & Hna) & Hua).
  destruct (inv_store HIb) as (_ & (_ & _ & Hnb) & Hub).
  split; [|split].
  - rewrite !counters_react_spec, (proj2 (Target_eqb_eq t t) eq_refl).
    rewrite (reaction_state_other b a t t ka db Hn Hba).
    rewrite (reaction_state_other a b t t kb db Hn Hab).
    destruct (counters t db) as [[lk dk]|]; [|reflexivity]. simpl. f_equal. f_equal; lia.
  - rewrite (reaction_state_other a b t t kb _ Hna Hab).
    rewrite (reaction_state_react_spec a t ka _ Hnb Hub).
    rewrite (reaction_state_react_spec a t ka _ Hn Hu).
    now rewrite (reaction_state_other a b t t kb db Hn Hab).
  - rewrite (reaction_state_other b a t t ka _ Hnb Hba).
    rewrite (reaction_state_react_spec b t kb _ Hna Hua).
    rewrite (reaction_state_react_spec b t kb _ Hn Hu).
    now rewrite (reaction_state_other b a t t ka db Hn Hba).
Qed.

(** X6 for a like of user 8 and a dislike of user 9 on video 0. *)
Lemma react_actors_commute_witness :
  counters (on_video 0)
    (serve (serve (serve_all [POST_videos 7] empty_db) (react_request 8 (on_video 0) like))
           (react_request 9 (on_video 0) dislike))
  = counters (on_video 0)
      (serve (serve (serve_all [POST_videos 7] empty_db)
                    (react_request 9 (on_video 0) dislike))
             (react_request 8 (on_video 0) like)).
Proof.
  refine (proj1 (react_actors_commute 8 9 (on_video 0) like dislike
                   (serve_all [POST_videos 7] empty_db) _ _)).
  - eexists. reflexivity.
  - discriminate.
Defined.

(** ** Deleting, and who may *)

Lemma In_remove_all_iff (T : Type) (p : T -> bool) (l : list T) (y : T) :
  In y (remove_all p l) <-> In y l /\ p y = false.
Proof.
  unfold remove_all. rewrite filter_In. now destruct (p y).
Qed.

Lemma In_remove_first_other (T : Type) (p : T -> bool) (l : list T) (y : T) :
  In y l -> p y = false -> In y (remove_first p l).
Proof.
  induction l as [|x r IH]; simpl; [tauto|].
  intros [<- | H] Hp.
  - rewrite Hp. now left.
  - destruct (p x); [exact H | right; auto].
Qed.

(** With unique keys, [deleteOne] by key removes the documents with that key
    and no other. *)
Lemma In_remove_first_key_iff (T : Type) (key : T -> nat) (id : nat) (l : list T) (x : T) :
  NoDup (map key l) ->
  In x (remove_first (fun y => Nat.eqb (key y) id) l) <-> In x l /\ key x <> id.
Proof.
  intros Hn. split.
  - now apply NoDup_remove_first_key.
  - intros [Hin Hne]. apply In_remove_first_other; [exact Hin | now apply Nat.eqb_neq].
Qed.

Lemma video_query_false (id : ObjectId) (l : Like) :
  like_matches (mkLikeQuery None (Some id) None) l = false <-> like_video l <> Some id.
Proof.
  split.
  - intros H E. unfold like_matches, key_matches in H. simpl in H.
    rewrite E in H. simpl in H. rewrite Nat.eqb_refl in H. discriminate.
  - intros H. destruct (like_matches _ l) eqn:E; [|reflexivity].
    apply matches_video_query in E. contradiction.
Qed.

Lemma comment_query_false (id : ObjectId) (l : Like) :
  like_matches (mkLikeQuery None None (Some id)) l = false <-> like_comment l <> Some id.
Proof.
  split.
  - intros H E. unfold like_matches, key_matches in H. simpl in H.
    rewrite E in H. simpl in H. rewrite Nat.eqb_refl in H. discriminate.
  - intros H. destruct (like_matches _ l) eqn:E; [|reflexivity].
    apply matches_comment_query in E. contradiction.
Qed.

Lemma comments_of_video_false (id : ObjectId) (c : Comment) :
  comment_matches (mkCommentQuery (Some id) None) c = false <-> comment_video c <> id.
Proof.
  unfold comment_matches, key_matches. simpl. rewrite andb_true_r, Nat.eqb_neq.
  split; intros H E; apply H; congruence.
Qed.

Lemma replies_of_comment_false (id : ObjectId) (c : Comment) :
  comment_matches (mkCommentQuery None (Some id)) c = false
  <-> comment_parentComment c <> Some id.
Proof.
  unfold comment_matches, key_matches. simpl.
  destruct (comment_parentComment c) as [p|]; simpl.
  - rewrite Nat.eqb_neq. split; intros H E; apply H; congruence.
  - split; [discriminate | reflexivity].
Qed.

(** X7. A DELETE of a video that is not stored, or that another user
    uploaded, is answered 404 or 401 and writes nothing. *)
Theorem delete_video_refused (u id : ObjectId) (db : DB) :
  (forall v, find (has_video_id id) (videos db) = Some v -> video_user v <> u) ->
  run (videos_delete u id) db
  = (inr match find (has_video_id id) (videos db) with
         | None => res_message 404 "Video not found"
         | Some _ => res_message 401 "Not authorized to delete this video"
         end, db).
Proof.
  intros H. unfold videos_delete. simpl.
  destruct (find (has_video_id id) (videos db)) as [v|]; [|reflexivity]. simpl.
  specialize (H v eq_refl). apply Nat.eqb_neq in H. now rewrite H.
Qed.

(** X7 for user 8 deleting the video of user 7. *)
Lemma delete_video_refused_witness :
  run (videos_delete 8 0) (serve_all [POST_videos 7] empty_db)
  = (inr (res_message 401 "Not authorized to delete this video"),
     serve_all [POST_videos 7] empty_db).
Proof.
  refine (delete_video_refused 8 0 (serve_all [POST_videos 7] empty_db) _).
  simpl. intros v [= <-]. simpl. discriminate.
Defined.

(** X8. When the uploader deletes a stored video, the answer is 200 "Video
    removed"; the video, every comment on it (replies too) and every
    reaction to it are gone, and every other video, comment and reaction
    stays as it was. *)
Theorem delete_video_effect (u id : ObjectId) (db : DB) (v : Video) :
  ids_unique db ->
  find (has_video_id id) (videos db) = Some v -> video_user v = u ->
  let db' := serve db (DELETE_videos u id) in
  run (videos_delete u id) db = (inr (res_message 200 "Video removed"), db')
  /\ (forall x, In x (videos db') <-> In x (videos db) /\ video_id x <> id)
  /\ (forall c, In c (comments db') <-> In c (comments db) /\ comment_video c <> id)
  /\ (forall l, In l (likes db') <-> In l (likes db) /\ like_video l <> Some id).
Proof.
  intros (Nv & _ & _) Hv Hu. cbv zeta.
  rewrite serve_DELETE_videos, Hv, Hu, Nat.eqb_refl. simpl.
  split; [|split; [|split]].
  - unfold videos_delete. simpl. rewrite Hv. simpl. rewrite Hu, Nat.eqb_refl. simpl.
    now rewrite (has_video_id_find _ _ _ Hv).
  - intros x. exact (In_remove_first_key_iff _ video_id id (videos db) x Nv).
  - intros c. rewrite In_remove_all_iff. now rewrite comments_of_video_false.
  - intros l. rewrite In_remove_all_iff. now rewrite video_query_false.
Qed.

(** X8 for user 7 deleting video 0 with a comment and a like on it. *)
Lemma delete_video_effect_witness :
  run (videos_delete 7 0)
      (serve_all [POST_videos 7; POST_videos_comments 8 0; POST_videos_like 9 0] empty_db)
  = (inr (res_message 200 "Video removed"),
     serve (serve_all [POST_videos 7; POST_videos_comments 8 0; POST_videos_like 9 0] empty_db)
           (DELETE_videos 7 0)).
Proof.
  refine (proj1 (delete_video_effect 7 0
                   (serve_all [POST_videos 7; POST_videos_comments 8 0; POST_videos_like 9 0]
                              empty_db)
                   (mkVideo 0 7 0 1 0) _ eq_refl eq_refl)).
  repeat split; simpl; repeat constructor; simpl; intuition discriminate.
Defined.

(** X9. A DELETE of a comment that is not stored, or that another user
    wrote, is answered 404 or 401 and writes nothing. *)
Theorem delete_comment_refused (u id : ObjectId) (db : DB) :
  (forall c, find (has_comment_id id) (comments db) = Some c -> comment_user c <> u) ->
  run (comments_delete u id) db
  = (inr match find (has_comment_id id) (comments db) with
         | None => res_message 404 "Comment not found"
         | Some _ => res_message 401 "Not authorized to delete this comment"
         end, db).
Proof.
  intros H. unfold comments_delete. simpl.
  destruct (find (has_comment_id id) (comments db)) as [c|]; [|reflexivity]. simpl.
  specialize (H c eq_refl). apply Nat.eqb_neq in H. now rewrite H.
Qed.

(** X9 for the uploader of the video deleting another user's comment. *)
Lemma delete_comment_refused_witness :
  run (comments_delete 7 1) (serve_all [POST_videos 7; POST_videos_comments 8 0] empty_db)
  = (inr (res_message 401 "Not authorized to delete this comment"),
     serve_all [POST_videos 7; POST_videos_comments 8 0] empty_db).
Proof.
  refine (delete_comment_refused 7 1
            (serve_all [POST_videos 7; POST_videos_comments 8 0] empty_db) _).
  simpl. intros c [= <-]. simpl. discriminate.
Defined.

(** X10. When its author deletes a stored top-level comment, the comment,
    its direct replies and the reactions to the comment are gone; every
    other comment and reaction and every video stays as it was. *)
Theorem delete_comment_effect (u id : ObjectId) (db : DB) (c : Comment) :
  ids_unique db ->
  find (has_comment_id id) (comments db) = Some c -> comment_user c = u ->
  comment_isReply c = false ->
  let db' := serve db (DELETE_comments u id) in
  run (comments_delete u id) db = (inr (res_message 200 "Comment removed"), db')
  /\ videos db' = videos db
  /\ (forall x, In x (comments db') <->
                In x (comments db) /\ comment_id x <> id /\ comment_parentComment x <> Some id)
  /\ (forall l, In l (likes db') <-> In l (likes db) /\ like_comment l <> Some id).
Proof.
  intros (_ & Nc & _) Hc Hu Hr. cbv zeta.
  rewrite serve_DELETE_comments, Hc, Hu, Nat.eqb_refl, Hr. simpl.
  split; [|split; [|split]].
  - unfold comments_delete. simpl. rewrite Hc. simpl. rewrite Hu, Nat.eqb_refl, Hr. simpl.
    now rewrite (has_comment_id_find _ _ _ Hc).
  - reflexivity.
  - intros x.
    rewrite (In_remove_first_key_iff _ comment_id id _ x)
      by now apply NoDup_map_remove_all.
    rewrite In_remove_all_iff, replies_of_comment_false. tauto.
  - intros l. rewrite In_remove_all_iff. now rewrite comment_query_false.
Qed.

(** X10 for user 8 deleting comment 1, which has a reply and a like. *)
Lemma delete_comment_effect_witness :
  videos (serve (serve_all [POST_videos 7; POST_videos_comments 8 0;
                            POST_comments_replies 9 1; POST_comments_like 9 1] empty_db)
                (DELETE_comments 8 1))
  = videos (serve_all [POST_videos 7; POST_videos_comments 8 0;
                       POST_comments_replies 9 1; POST_comments_like 9 1] empty_db).
Proof.
  refine (proj1 (proj2 (delete_comment_effect 8 1
                   (serve_all [POST_videos 7; POST_videos_comments 8 0;
                               POST_comments_replies 9 1; POST_comments_like 9 1] empty_db)
                   (mkComment 1 8 0 1 0 [2] false None) _ eq_refl eq_refl eq_refl))).
  repeat split; simpl; repeat constructor; simpl; intuition discriminate.
Defined.

(** ** Replies *)

Lemma update_first_id (T : Type) (p : T -> bool) (f : T -> T) (l : list T) :
  (forall x, In x l -> p x = true -> f x = x) -> update_first p f l = l.
Proof.
  induction l as [|x r IH]; intros H; [reflexivity|].
  simpl. destruct (p x) eqn:E.
  - now rewrite (H x (or_introl eq_refl) E).
  - f_equal. apply IH. intros y Hy. apply H. now right.
Qed.

Lemma filter_all (T : Type) (p : T -> bool) (l : list T) :
  (forall x, In x l -> p x = true) -> filter p l = l.
Proof.
  induction l as [|x r IH]; intros H; [reflexivity|].
  simpl. rewrite (H x (or_introl eq_refl)). f_equal. apply IH. intros y Hy. apply H. now right.
Qed.




(** ** Views *)

(** X12. GET of a stored video answers 200 with the video and one more
    view; in the store that video's [views] is one higher and nothing else
    differs: no counter of any target, no comment, no reaction. GET of a
    video that is not stored answers 404 and writes nothing. *)
Theorem get_video_counts_view (id : ObjectId) (db : DB) :
  let db' := serve db (GET_videos_id id) in
  run (videos_get id) db
  = (inr match find (has_video_id id) (videos db) with
         | Some v => res_video 200 (set_video_views (video_views v + 1) v)
         | None => res_message 404 "Video not found"
         end, db')
  /\ find (has_video_id id) (videos db')
     = option_map (fun v => set_video_views (video_views v + 1) v)
                  (find (has_video_id id) (videos db))
  /\ (forall id', id' <> id ->
        find (has_video_id id') (videos db') = find (has_video_id id') (videos db))
  /\ (forall t, counters t db' = counters t db)
  /\ comments db' = comments db /\ likes db' = likes db.
Proof.
  cbv zeta. split; [|rewrite serve_GET_videos_id; simpl; split; [|split; [|split]]].
  - unfold serve. simpl.
    destruct (find (has_video_id id) (videos db)) as [v|] eqn:Hv; [|reflexivity]. simpl.
    pose proof (has_video_id_find _ _ _ Hv) as <-.
    now rewrite (find_existsb _ _ _ _ Hv).
  - now rewrite find_update_first_same by reflexivity.
  - intros id' Hne. apply find_update_first_other; [reflexivity|].
    intros x. apply has_video_id_other. now apply Nat.eqb_neq.
  - intros [x | x]; simpl; [|reflexivity].
    destruct (Nat.eq_dec x id) as [-> | Hne].
    + rewrite find_update_first_same by reflexivity.
      now destruct (find (has_video_id id) (videos db)).
    + rewrite find_update_first_other; [reflexivity | reflexivity |].
      intros y. apply has_video_id_other. now apply Nat.eqb_neq.
  - split; reflexivity.
Qed.

(** X13. Two GETs of one stored video that both read before either saves
    count one view, not two: each saves the number it read plus one, and
    both answer with that number. *)
Theorem racing_views_count_once (id : ObjectId) (db : DB) (v : Video) :
  find (has_video_id id) (videos db) = Some v ->
  let seen := set_video_views (video_views v + 1) v in
  let after := run_schedule [0; 1; 0; 1] [videos_get id; videos_get id] db in
  fst after = [Ret (res_video 200 seen); Ret (res_video 200 seen)]
  /\ find (has_video_id id) (videos (snd after)) = Some seen
  /\ snd after = serve db (GET_videos_id id).
Proof.
  intros Hv. cbv zeta.
  pose proof (has_video_id_find _ _ _ Hv) as Hid. subst id.
  pose proof (find_existsb _ _ _ _ Hv) as Hex.
  rewrite serve_GET_videos_id.
  simpl. rewrite Hv. simpl. rewrite Hex. simpl.
  rewrite existsb_update_first by (intros; apply has_video_id_write). rewrite Hex. simpl.
  split; [reflexivity|]. split.
  - rewrite !find_update_first_same by (intros; apply has_video_id_write).
    rewrite Hv. simpl. now destruct v.
  - unfold with_videos. simpl. f_equal.
    rewrite update_first_twice by (intros; apply has_video_id_write).
    apply update_first_ext_find with (x := v); [exact Hv | now destruct v].
Qed.

(** X13 for two viewers of video 0. *)
Lemma racing_views_count_once_witness :
  find (has_video_id 0)
       (videos (snd (run_schedule [0; 1; 0; 1] [videos_get 0; videos_get 0]
                                  (serve_all [POST_videos 7] empty_db))))
  = Some (mkVideo 0 7 1 0 0).
Proof.
  exact (proj1 (proj2 (racing_views_count_once 0 (serve_all [POST_videos 7] empty_db)
                         (mkVideo 0 7 0 0 0) eq_refl))).
Defined.

(** ** Uploads *)

(** X14. A file that the upload filter accepts has a directory to go to:
    a file in the field "video" is a video/* file and goes to the videos
    directory, a file in the field "thumbnail" or "avatar" is an image/*
    file and goes to the directory of its field; no accepted file is left
    with the empty path, and no file of any other field is accepted. *)
Theorem accepted_upload_has_directory (fieldname mimetype : string) :
  fileFilter fieldname mimetype = accept_file ->
  destination fieldname <> ""%string
  /\ ((fieldname = "video"%string /\ startsWith mimetype "video/" = true
       /\ destination fieldname = "../uploads/videos"%string)
      \/ (fieldname = "thumbnail"%string /\ startsWith mimetype "image/" = true
          /\ destination fieldname = "../uploads/thumbnails"%string)
      \/ (fieldname = "avatar"%string /\ startsWith mimetype "image/" = true
          /\ destination fieldname = "../uploads/avatars"%string)).
Proof.
  unfold fileFilter, destination.
  destruct (String.eqb fieldname "video") eqn:Ev.
  - apply String.eqb_eq in Ev. destruct (startsWith mimetype "video/") eqn:Em; [|discriminate].
    intros _. split; [discriminate | left; auto].
  - destruct (String.eqb fieldname "thumbnail") eqn:Et; simpl.
    + apply String.eqb_eq in Et.
      destruct (startsWith mimetype "image/") eqn:Em; [|discriminate].
      intros _. split; [discriminate | right; left; auto].
    + destruct (String.eqb fieldname "avatar") eqn:Ea; [|discriminate].
      apply String.eqb_eq in Ea.
      destruct (startsWith mimetype "image/") eqn:Em; [|discriminate].
      intros _. split; [discriminate | right; right; auto].
Qed.

(** X14 for a PNG thumbnail. *)
Lemma accepted_upload_has_directory_witness :
  destination "thumbnail" <> ""%string.
Proof.
  exact (proj1 (accepted_upload_has_directory "thumbnail" "image/png" eq_refl)).
Defined.

(** ** Subscriptions *)

Lemma find_update_first_user (x y : ObjectId) (f : User -> User) (l : list User) :
  (forall u, user_id (f u) = user_id u) ->
  find (has_user_id x) (update_first (has_user_id y) f l)
  = if Nat.eqb x y then option_map f (find (has_user_id x) l) else find (has_user_id x) l.
Proof.
  intros Hf. destruct (Nat.eqb x y) eqn:E.
  - apply Nat.eqb_eq in E. subst y. apply find_update_first_same.
    intros u. unfold has_user_id. now rewrite Hf.
  - apply find_update_first_other.
    + intros u. unfold has_user_id. now rewrite Hf.
    + intros u H. unfold has_user_id in *. apply Nat.eqb_eq in H.
      now rewrite H, Nat.eqb_sym.
Qed.

Lemma subscription_id_split (rows : list Subscription) (s : Subscription) :
  NoDup (map subscription_id rows) -> In s rows ->
  exists l1 l2, rows = l1 ++ s :: l2
    /\ (forall y, In y l1 -> has_subscription_id (subscription_id s) y = false)
    /\ (forall y, In y l2 -> has_subscription_id (subscription_id s) y = false).
Proof. intros Hn Hin. exact (NoDup_key_split _ subscription_id rows s Hn Hin). Qed.

Lemma found_subscription (a c : ObjectId) (rows : list Subscription) (s : Subscription) :
  find (subscription_matches a c) rows = Some s ->
  In s rows /\ subscription_subscriber s = a /\ subscription_channel s = c.
Proof.
  intros H. apply find_some in H. destruct H as [Hin Hm].
  unfold subscription_matches in Hm. apply andb_true_iff in Hm.
  destruct Hm as [H1 H2]. apply Nat.eqb_eq in H1, H2. auto.
Qed.

Lemma no_subscription_no_conflict (a c : ObjectId) (rows : list Subscription) :
  find (subscription_matches a c) rows = None ->
  existsb (subscription_matches a c) rows = false.
Proof. apply find_none_existsb. Qed.

(** X15. Every subscription request keeps the subscriber counts right: if,
    before it, the [subscribers] of every user that a lookup by id returns
    is the number of subscriptions to that id, so it is after it. *)
Theorem subscribers_stay_consistent (r : UserRequest) (db : UserDB) :
  subscription_ids_ok db -> subscribers_consistent db ->
  subscription_ids_ok (snd (user_handler r db))
  /\ subscribers_consistent (snd (user_handler r db)).
Proof.
  intros [Hn Hb] Hc. destruct r as [u p | u p | u p]; simpl.
  - unfold users_subscribe.
    destruct (param_is p u); [now split|].
    destruct (cast_param p) as [id|]; [|now split].
    destruct (find (has_user_id id) (users db)) as [ch|] eqn:Hch; [|now split].
    destruct (find (subscription_matches u id) (subscriptions db)) as [s|] eqn:Hs; [now split|].
    rewrite (no_subscription_no_conflict u id _ Hs). simpl. split.
    + split; simpl.
      * eapply NoDup_map_app_fresh; eauto.
      * intros s Hin. apply In_app_one in Hin. destruct Hin as [Hin | ->]; simpl;
          [specialize (Hb s Hin)|]; lia.
    + intros x w Hw. cbn [snd subscriptions users] in Hw |- *.
      rewrite !find_update_first_user in Hw by reflexivity.
      rewrite count_snoc. cbn [subscription_channel].
      assert (exists w0, find (has_user_id x) (users db) = Some w0
                         /\ user_subscribers w
                            = (user_subscribers w0 + if Nat.eqb x id then 1 else 0)%Z)
        as (w0 & Hw0 & Ew).
      { destruct (find (has_user_id x) (users db)) as [w0|];
          destruct (Nat.eqb x u), (Nat.eqb x id); simpl in Hw; try discriminate;
          injection Hw as <-; exists w0; simpl; split; auto; lia. }
      rewrite Ew, (Hc x w0 Hw0), (Nat.eqb_sym id x). destruct (Nat.eqb x id); lia.
  - unfold users_unsubscribe.
    destruct (cast_param p) as [id|]; [|now split].
    destruct (find (subscription_matches u id) (subscriptions db)) as [s|] eqn:Hs; [|now split].
    destruct (found_subscription _ _ _ _ Hs) as (Hin & _ & Hchan).
    simpl. split.
    + split; simpl.
      * now apply NoDup_map_remove_first.
      * intros y Hy. apply In_remove_first in Hy. auto.
    + intros x w Hw. cbn [snd subscriptions users] in Hw |- *.
      rewrite !find_update_first_user in Hw by reflexivity.
      destruct (subscription_id_split _ _ Hn Hin) as (l1 & l2 & E & H1 & _).
      rewrite E, remove_first_split; [|apply Nat.eqb_refl | exact H1].
      assert (exists w0, find (has_user_id x) (users db) = Some w0
                         /\ user_subscribers w
                            = (user_subscribers w0 + if Nat.eqb x id then -1 else 0)%Z)
        as (w0 & Hw0 & Ew).
      { destruct (find (has_user_id x) (users db)) as [w0|];
          destruct (Nat.eqb x u), (Nat.eqb x id); simpl in Hw; try discriminate;
          injection Hw as <-; exists w0; simpl; split; auto; lia. }
      rewrite Ew, (Hc x w0 Hw0), E, !count_app, count_cons, Hchan, (Nat.eqb_sym id x).
      destruct (Nat.eqb x id); lia.
  - unfold users_subscription_status.
    destruct (cast_param p) as [id|]; [|now split].
    destruct (find _ (subscriptions db)); now split.
Qed.

(** X15 at a store with one channel and one subscriber. *)
Lemma subscribers_stay_consistent_witness :
  subscribers_consistent
    (snd (user_handler (POST_users_subscribe 2 (spelling 1 true))
                       (mkUserDB [mkUser 1 0 []; mkUser 2 0 []] [] 0))).
Proof.
  refine (proj2 (subscribers_stay_consistent (POST_users_subscribe 2 (spelling 1 true))
                   (mkUserDB [mkUser 1 0 []; mkUser 2 0 []] [] 0) _ _)).
  - split; [constructor | intros s []].
  - intros id u H. destruct id as [|[|[|id]]]; simpl in H; try discriminate;
      injection H as <-; reflexivity.
Defined.

(** X16. Every subscription request keeps the (subscriber, channel) key
    unique. The test against subscribing to oneself compares the text of
    the [:id] with [req.user._id.toString()]: a request keeps the store free
    of self-subscriptions unless it is a subscribe whose [:id] is another
    spelling of the user's own id, and such a request, for a stored user not
    yet subscribed to themselves, is answered 200 and stores the
    self-subscription. *)
Theorem subscriptions_stay_unique (r : UserRequest) (db : UserDB) :
  subscriptions_unique db ->
  subscriptions_unique (snd (user_handler r db))
  /\ (no_self_subscription db ->
      (forall u, r <> POST_users_subscribe u (spelling u false)) ->
      no_self_subscription (snd (user_handler r db)))
  /\ (forall u me,
         r = POST_users_subscribe u (spelling u false) ->
         find (has_user_id u) (users db) = Some me ->
         find (subscription_matches u u) (subscriptions db) = None ->
         fst (user_handler r db) = user_res_message 200 "Subscribed successfully"
         /\ In (mkSubscription (user_next_id db) u u)
               (subscriptions (snd (user_handler r db)))).
Proof.
  intros Hu. split; [|split].
  - destruct r as [u p | u p | u p]; simpl.
    + unfold users_subscribe.
      destruct (param_is p u); [exact Hu|].
      destruct (cast_param p) as [id|]; [|exact Hu].
      destruct (find (has_user_id id) (users db)) as [ch|]; [|exact Hu].
      destruct (find (subscription_matches u id) (subscriptions db)) as [s|] eqn:Hf;
        [exact Hu|].
      rewrite (no_subscription_no_conflict u id _ Hf). simpl.
      intros a c. cbn [snd subscriptions]. rewrite count_snoc.
      destruct (subscription_matches a c (mkSubscription (user_next_id db) u id)) eqn:Em;
        [|specialize (Hu a c); lia].
      unfold subscription_matches in Em. simpl in Em. apply andb_true_iff in Em.
      destruct Em as [E1 E2]. apply Nat.eqb_eq in E1, E2. subst a c.
      rewrite (count_zero _ _ _ (find_none_all _ _ _ Hf)). lia.
    + unfold users_unsubscribe.
      destruct (cast_param p) as [id|]; [|exact Hu].
      destruct (find (subscription_matches u id) (subscriptions db)) as [s|]; [|exact Hu].
      simpl. intros a c. eapply Nat.le_trans; [apply count_remove_first_le | apply Hu].
    + unfold users_subscription_status.
      destruct (cast_param p) as [id|]; [|exact Hu].
      now destruct (find _ (subscriptions db)).
  - intros Hs Hr. destruct r as [u p | u p | u p]; simpl.
    + unfold users_subscribe.
      destruct (param_is p u) eqn:Eself; [exact Hs|].
      destruct p as [id canonical|]; simpl; [|exact Hs].
      destruct (find (has_user_id id) (users db)) as [ch|]; [|exact Hs].
      destruct (find (subscription_matches u id) (subscriptions db)) as [s|] eqn:Hf;
        [exact Hs|].
      rewrite (no_subscription_no_conflict u id _ Hf). simpl.
      intros s Hin. apply In_app_one in Hin. destruct Hin as [Hin | ->]; [auto|].
      simpl. intros ->. destruct canonical; simpl in Eself.
      * rewrite Nat.eqb_refl in Eself. discriminate.
      * now apply (Hr id).
    + unfold users_unsubscribe.
      destruct (cast_param p) as [id|]; [|exact Hs].
      destruct (find (subscription_matches u id) (subscriptions db)) as [s|]; [|exact Hs].
      simpl. intros y Hy. apply In_remove_first in Hy. auto.
    + unfold users_subscription_status.
      destruct (cast_param p) as [id|]; [|exact Hs].
      now destruct (find _ (subscriptions db)).
  - intros u me -> Hme Hf. simpl. unfold users_subscribe. simpl.
    rewrite Hme, Hf, (no_subscription_no_conflict u u _ Hf). simpl.
    split; [reflexivity|]. apply in_or_app. right. now left.
Qed.

(** X16 at a store with one channel and one subscriber. *)
Lemma subscriptions_stay_unique_witness :
  subscriptions_unique
    (snd (user_handler (POST_users_subscribe 2 (spelling 1 true))
                       (mkUserDB [mkUser 1 0 []; mkUser 2 0 []] [] 0))).
Proof.
  refine (proj1 (subscriptions_stay_unique (POST_users_subscribe 2 (spelling 1 true))
                   (mkUserDB [mkUser 1 0 []; mkUser 2 0 []] [] 0) _)).
  intros a c. apply Nat.le_0_l.
Defined.

Lemma update_first_comm (T : Type) (p q : T -> bool) (f g : T -> T) (l : list T) :
  (forall x, p x = true -> q x = false) ->
  (forall x, q (f x) = q x) -> (forall x, p (g x) = p x) ->
  update_first p f (update_first q g l) = update_first q g (update_first p f l).
Proof.
  intros Hd Hf Hg. induction l as [|x r IH]; [reflexivity|].
  simpl. destruct (q x) eqn:Eq, (p x) eqn:Ep; simpl.
  - rewrite (Hd x Ep) in Eq. discriminate.
  - now rewrite Hg, Ep, Eq.
  - now rewrite Ep, Hf, Eq.
  - now rewrite Ep, Eq, IH.
Qed.

Lemma has_user_id_disjoint (a b : ObjectId) (u : User) :
  a <> b -> has_user_id a u = true -> has_user_id b u = false.
Proof.
  unfold has_user_id. intros Hab H. apply Nat.eqb_eq in H. apply Nat.eqb_neq. congruence.
Qed.

(** The store after a successful subscribe. *)
Lemma users_subscribe_ok (u id : ObjectId) (canonical : bool) (db : UserDB) (ch : User) :
  id <> u ->
  find (has_user_id id) (users db) = Some ch ->
  find (subscription_matches u id) (subscriptions db) = None ->
  users_subscribe u (spelling id canonical) db
  = (user_res_message 200 "Subscribed successfully",
     mkUserDB (update_first (has_user_id u) (push_subscribedTo id)
                 (update_first (has_user_id id) (inc_subscribers 1) (users db)))
              (subscriptions db ++ [mkSubscription (user_next_id db) u id])
              (S (user_next_id db))).
Proof.
  intros Hne Hch Hs. unfold users_subscribe.
  assert (param_is (spelling id canonical) u = false) as ->.
  { destruct canonical; [now apply Nat.eqb_neq | reflexivity]. }
  simpl. rewrite Hch, Hs.
  now rewrite (no_subscription_no_conflict u id _ Hs).
Qed.

Lemma find_new_subscription (u id n : ObjectId) (rows : list Subscription) :
  find (subscription_matches u id) rows = None ->
  find (subscription_matches u id) (rows ++ [mkSubscription n u id])
  = Some (mkSubscription n u id).
Proof.
  intros Hs. rewrite find_app, Hs. simpl.
  unfold subscription_matches. simpl. now rewrite !Nat.eqb_refl.
Qed.

(** X17. When a user who is not subscribed subscribes to an existing channel
    other than themselves, the answer is 200, the subscription status turns
    true, and an unsubscribe then restores the users and the subscriptions
    exactly: the channel's [subscribers] and the user's [subscribedTo] are
    what they were. The three requests may spell the channel's id each in
    its own way. *)
Theorem subscribe_then_unsubscribe
        (u id : ObjectId) (c1 c2 c3 : bool) (db : UserDB) (ch : User) :
  id <> u ->
  find (has_user_id id) (users db) = Some ch ->
  find (subscription_matches u id) (subscriptions db) = None ->
  (forall s, In s (subscriptions db) -> subscription_id s < user_next_id db) ->
  (forall x, In x (users db) -> user_id x = u -> ~ In id (user_subscribedTo x)) ->
  let db1 := snd (users_subscribe u (spelling id c1) db) in
  fst (users_subscribe u (spelling id c1) db)
  = user_res_message 200 "Subscribed successfully"
  /\ fst (users_subscription_status u (spelling id c2) db1) = user_res_isSubscribed true
  /\ users_unsubscribe u (spelling id c3) db1
     = (user_res_message 200 "Unsubscribed successfully",
        mkUserDB (users db) (subscriptions db) (S (user_next_id db))).
Proof.
  intros Hne Hch Hs Hb Hpull. cbv zeta.
  rewrite (users_subscribe_ok u id c1 db ch Hne Hch Hs). simpl.
  split; [reflexivity|]. split.
  - unfold users_subscription_status. simpl. now rewrite (find_new_subscription u id _ _ Hs).
  - unfold users_unsubscribe. simpl. rewrite (find_new_subscription u id _ _ Hs). simpl.
    f_equal. f_equal.
    + rewrite (update_first_comm _ (has_user_id id) (has_user_id u));
        [| intros x; now apply has_user_id_disjoint | reflexivity | reflexivity].
      rewrite update_first_twice by reflexivity.
      rewrite update_first_twice by reflexivity.
      rewrite (update_first_id _ (has_user_id id)).
      * apply update_first_id. intros x Hx Hp. apply Nat.eqb_eq in Hp.
        destruct x as [xi xs xl]. unfold pull_subscribedTo, push_subscribedTo. simpl in *.
        f_equal. rewrite filter_app. simpl. rewrite Nat.eqb_refl. simpl.
        rewrite app_nil_r. apply filter_all. intros c Hc.
        apply negb_true_iff, Nat.eqb_neq. intros ->.
        exact (Hpull (mkUser xi xs xl) Hx Hp Hc).
      * intros x _ _. destruct x as [xi xs xl]. unfold inc_subscribers. simpl.
        f_equal. lia.
    + rewrite <- (app_nil_r (subscriptions db)) at 2.
      apply remove_first_split; [apply Nat.eqb_refl|].
      intros y Hy. apply Nat.eqb_neq. specialize (Hb y Hy). lia.
Qed.

(** X17 for user 2 and channel 1. *)
Lemma subscribe_then_unsubscribe_witness :
  users_unsubscribe 2 (spelling 1 true)
    (snd (users_subscribe 2 (spelling 1 true)
            (mkUserDB [mkUser 1 0 []; mkUser 2 0 []] [] 0)))
  = (user_res_message 200 "Unsubscribed successfully",
     mkUserDB [mkUser 1 0 []; mkUser 2 0 []] [] 1).
Proof.
  refine (proj2 (proj2 (subscribe_then_unsubscribe 2 1 true true true
                          (mkUserDB [mkUser 1 0 []; mkUser 2 0 []] [] 0)
                          (mkUser 1 0 []) _ eq_refl eq_refl _ _))).
  - discriminate.
  - intros s [].
  - simpl. intros x [<- | [<- | []]] _ [].
Defined.

(** X18. After a successful subscribe, a second subscribe of the same user
    to the same channel is answered 400 "Already subscribed to this
    channel" and writes nothing. *)
Theorem subscribe_twice_refused
        (u id : ObjectId) (c1 c2 : bool) (db : UserDB) (ch : User) :
  id <> u ->
  find (has_user_id id) (users db) = Some ch ->
  find (subscription_matches u id) (subscriptions db) = None ->
  let db1 := snd (users_subscribe u (spelling id c1) db) in
  users_subscribe u (spelling id c2) db1
  = (user_res_message 400 "Already subscribed to this channel", db1).
Proof.
  intros Hne Hch Hs. cbv zeta.
  rewrite (users_subscribe_ok u id c1 db ch Hne Hch Hs). simpl.
  unfold users_subscribe at 1.
  pose proof Hne as Hne'. apply Nat.eqb_neq in Hne'.
  assert (param_is (spelling id c2) u = false) as ->.
  { destruct c2; [exact Hne' | reflexivity]. }
  simpl.
  rewrite !find_update_first_user by reflexivity.
  rewrite Hne', Nat.eqb_refl, Hch. simpl.
  now rewrite (find_new_subscription u id _ _ Hs).
Qed.

(** X18 for user 2 and channel 1. *)
Lemma subscribe_twice_refused_witness :
  users_subscribe 2 (spelling 1 true)
    (snd (users_subscribe 2 (spelling 1 true) (mkUserDB [mkUser 1 0 []; mkUser 2 0 []] [] 0)))
  = (user_res_message 400 "Already subscribed to this channel",
     snd (users_subscribe 2 (spelling 1 true) (mkUserDB [mkUser 1 0 []; mkUser 2 0 []] [] 0))).
Proof.
  refine (subscribe_twice_refused 2 1 true true
            (mkUserDB [mkUser 1 0 []; mkUser 2 0 []] [] 0)
            (mkUser 1 0 []) _ eq_refl eq_refl).
  discriminate.
Defined.

(** ** Racing likes *)

(** X19. Two users, each without a reaction to a stored video and each
    admitted by the unique indexes, who like the video at the same time,
    both reading before either writes, are both answered "Video liked" with
    [likes] one higher; the store then holds both rows and a [likes] that is
    one higher, not two. *)
Theorem racing_likes_lose_an_update (a b id : ObjectId) (db : DB) (v : Video) :
  a <> b ->
  find (has_video_id id) (videos db) = Some v ->
  reaction_state a (on_video id) db = None ->
  reaction_state b (on_video id) db = None ->
  create_refused a (on_video id) db = false ->
  create_refused b (on_video id) db = false ->
  let liked := set_video_likes (video_likes v + 1) v in
  let after := run_schedule [0; 0; 1; 1; 0; 0; 1; 1] [videos_like a id; videos_like b id] db in
  fst after = [Ret (res_message_video "Video liked" liked);
               Ret (res_message_video "Video liked" liked)]
  /\ likes (snd after)
     = likes db ++ [mkLike (next_id db) a (Some id) None like;
                    mkLike (S (next_id db)) b (Some id) None like]
  /\ find (has_video_id id) (videos (snd after)) = Some liked.
Proof.
  intros Hab Hv Ha Hb Ca Cb. cbv zeta.
  pose proof (has_video_id_find _ _ _ Hv) as Hid. subst id.
  pose proof (find_existsb _ _ _ _ Hv) as Hex.
  assert (find (like_matches (reaction_query a (on_video (video_id v)))) (likes db) = None)
    as Hfa.
  { unfold reaction_state, find_reaction in Ha. now destruct (find _ (likes db)). }
  assert (find (like_matches (reaction_query b (on_video (video_id v)))) (likes db) = None)
    as Hfb.
  { unfold reaction_state, find_reaction in Hb. now destruct (find _ (likes db)). }
  unfold create_refused, find_reaction in Ca, Cb. rewrite Hfa in Ca. rewrite Hfb in Cb.
  assert (index_conflict (mkLike (S (next_id db)) b (Some (video_id v)) None like)
            (likes db ++ [mkLike (next_id db) a (Some (video_id v)) None like]) = false)
    as Cb'.
  { rewrite index_conflict_app_other; [exact Cb|].
    simpl. apply Nat.eqb_neq. congruence. }
  cbn [target_video target_comment] in Ca, Cb.
  repeat (progress
            (simpl;
             try change (mkLikeQuery (Some a) (Some (video_id v)) None)
               with (reaction_query a (on_video (video_id v)));
             try change (mkLikeQuery (Some b) (Some (video_id v)) None)
               with (reaction_query b (on_video (video_id v)));
             rewrite ?Hv, ?Hfa, ?Hfb, ?Ca, ?Cb', ?Hex;
             rewrite ?existsb_update_first by (intros; apply has_video_id_write))).
  split; [reflexivity|]. split.
  - now rewrite <- app_assoc.
  - rewrite !find_update_first_same by (intros; apply has_video_id_write).
    rewrite Hv. simpl. now destruct v.
Qed.

(** X19 for users 8 and 9 on video 0. *)
Lemma racing_likes_lose_an_update_witness :
  find (has_video_id 0)
       (videos (snd (run_schedule [0; 0; 1; 1; 0; 0; 1; 1] [videos_like 8 0; videos_like 9 0]
                                  (serve_all [POST_videos 7] empty_db))))
  = Some (mkVideo 0 7 0 1 0).
Proof.
  refine (proj2 (proj2 (racing_likes_lose_an_update 8 9 0 (serve_all [POST_videos 7] empty_db)
                          (mkVideo 0 7 0 0 0) _ eq_refl eq_refl eq_refl eq_refl eq_refl))).
  discriminate.
Defined.

(** ** Like status after a reaction *)

Lemma like_status_run (u id : ObjectId) (db : DB) :
  run (videos_like_status u id) db
  = (inr (res_like_status
            match reaction_state u (on_video id) db with Some like => true | _ => false end
            match reaction_state u (on_video id) db with Some dislike => true | _ => false end),
     db).
Proof.
  unfold videos_like_status, reaction_state, find_reaction. simpl.
  destruct (find _ (likes db)) as [l|]; [|reflexivity]. simpl. now destruct (like_type l).
Qed.

(** X20. Between requests served one after the other, the like status read
    right after a reaction to a stored video is the state the request left:
    liked after a like that was not taking a like back, disliked after a
    dislike that was not taking a dislike back, neither after a take-back,
    and neither after a first reaction that the unique indexes refused. *)
Theorem like_status_after_reaction (u id : ObjectId) (k : ReactionType) (db : DB) :
  reachable db -> target_exists (on_video id) db = true ->
  let db' := serve db (react_request u (on_video id) k) in
  run (videos_like_status u id) db'
  = (inr match (if create_refused u (on_video id) db then None
                else next_state (reaction_state u (on_video id) db) k) with
         | Some like => res_like_status true false
         | Some dislike => res_like_status false true
         | None => res_like_status false false
         end, db').
Proof.
  intros Hr Hex. cbv zeta. rewrite like_status_run.
  rewrite (react_serve u (on_video id) k db Hex).
  destruct (create_refused u (on_video id) db) eqn:Hcr.
  - now rewrite (create_refused_state u (on_video id) db Hcr).
  - destruct (inv_store (reachable_Inv db Hr)) as (_ & (_ & _ & Hn) & Hu).
    rewrite (reaction_state_react_spec u (on_video id) k db Hn Hu).
    now destruct (next_state (reaction_state u (on_video id) db) k) as [[|]|].
Qed.

(** X20 after the first dislike of video 0 by user 8. *)
Lemma like_status_after_reaction_witness :
  run (videos_like_status 8 0)
      (serve (serve_all [POST_videos 7] empty_db) (react_request 8 (on_video 0) dislike))
  = (inr (res_like_status false true),
     serve (serve_all [POST_videos 7] empty_db) (react_request 8 (on_video 0) dislike)).
Proof.
  refine (like_status_after_reaction 8 0 dislike (serve_all [POST_videos 7] empty_db) _ eq_refl).
  eexists. reflexivity.
Defined.

(** ** Reactions the indexes admit *)

(** X21. Wherever the unique indexes do not refuse the row of a first
    reaction, a reaction request on an existing target performs the row of
    the six-row table that (existing reaction or none, requested kind)
    selects: it creates, deletes or updates the actor's row and moves the
    target's counters by the row's deltas; the four handlers (video and
    comment, like and dislike) are the one machine [react_spec], and no
    other target's counters move. *)
Theorem react_state_machine
        (actor : ObjectId) (t : Target) (requested : ReactionType) (db : DB) :
  target_exists t db = true ->
  create_refused actor t db = false ->
  let db' := serve db (react_request actor t requested) in
  let created k :=
    likes db'
    = likes db ++ [mkLike (next_id db) actor (target_video t) (target_comment t) k] in
  let deleted :=
    exists l, find_reaction actor t db = Some l
              /\ likes db' = remove_first (has_like_id (like_id l)) (likes db) in
  let updated k :=
    exists l, find_reaction actor t db = Some l
              /\ likes db'
                 = update_first (has_like_id (like_id l)) (set_like_type k) (likes db) in
  let moved dl dd := counters t db' = shift_counters dl dd (counters t db) in
  db' = react_spec actor t requested db
  /\ (forall t', Target_eqb t' t = false -> counters t' db' = counters t' db)
  /\ match reaction_state actor t db, requested with
     | None, like => created like /\ moved 1%Z 0%Z
     | None, dislike => created dislike /\ moved 0%Z 1%Z
     | Some like, like => deleted /\ moved (-1)%Z 0%Z
     | Some dislike, dislike => deleted /\ moved 0%Z (-1)%Z
     | Some like, dislike => updated dislike /\ moved (-1)%Z 1%Z
     | Some dislike, like => updated like /\ moved 1%Z (-1)%Z
     end.
Proof.
  intros Hex Hcr. cbv zeta. rewrite (react_refines actor t requested db Hex Hcr).
  split; [reflexivity|]. split.
  - intros t' Ht. now rewrite counters_react_spec, Ht.
  - pose proof (counters_react_spec actor t t requested db) as Hc.
    rewrite (proj2 (Target_eqb_eq t t) eq_refl) in Hc.
    pose proof (likes_react_spec actor t requested db) as Hl.
    unfold reaction_state in *. unfold shift_counters.
    destruct (find_reaction actor t db) as [l|] eqn:Hf; simpl in *.
    + destruct (like_type l), requested; simpl in *;
        (split; [exists l; split; [reflexivity | exact Hl] | exact Hc]).
    + destruct requested; simpl in *; (split; [exact Hl | exact Hc]).
Qed.

(** X21 at a comment that user 9, who has liked a video, dislikes. *)
Lemma react_state_machine_witness :
  serve (serve_all [POST_videos 7; POST_videos_comments 8 0; POST_videos_like 9 0] empty_db)
        (react_request 9 (on_comment 1) dislike)
  = react_spec 9 (on_comment 1) dislike
      (serve_all [POST_videos 7; POST_videos_comments 8 0; POST_videos_like 9 0] empty_db).
Proof.
  exact (proj1 (react_state_machine 9 (on_comment 1) dislike
                  (serve_all [POST_videos 7; POST_videos_comments 8 0; POST_videos_like 9 0]
                             empty_db) eq_refl eq_refl)).
Defined.

(** X22. When the actor has no reaction to an existing target and the unique
    indexes admit the new row, reacting twice with the same kind creates
    and then deletes: the first request stores the actor's row of that
    kind, raises the counter of that kind by one and answers "... liked" or
    "... disliked"; the second finds that row, deletes it, lowers the
    counter again and answers "Like removed" or "Dislike removed". The
    actor ends with no reaction, the target with the counters it started
    from, and the rows are the rows from before. *)
Theorem toggle_twice (actor : ObjectId) (t : Target) (k : ReactionType) (db : DB) :
  ids_below db ->
  target_exists t db = true ->
  reaction_state actor t db = None ->
  create_refused actor t db = false ->
  let first := run (handler (react_request actor t k)) db in
  let db1 := snd first in
  let second := run (handler (react_request actor t k)) db1 in
  let db2 := snd second in
  ((exists resp, fst first = inr resp
                 /\ response_message resp = Some (react_message t None k))
   /\ likes db1 = likes db ++ [mkLike (next_id db) actor (target_video t) (target_comment t) k]
   /\ reaction_state actor t db1 = Some k
   /\ counters t db1
      = shift_counters (match k with like => 1 | dislike => 0 end)%Z
                       (match k with like => 0 | dislike => 1 end)%Z (counters t db))
  /\ ((exists resp, fst second = inr resp
                    /\ response_message resp
                       = Some (match k with
                               | like => "Like removed"
                               | dislike => "Dislike removed"
                               end)%string)
      /\ likes db2 = likes db
      /\ reaction_state actor t db2 = None
      /\ counters t db2 = counters t db).
Proof.
  intros Hb Hex Hnone Hcr. cbv zeta.
  assert (find_reaction actor t db = None) as Hf.
  { unfold reaction_state in Hnone. now destruct (find_reaction actor t db). }
  destruct (react_spec_none actor t k db Hf) as [Hl1 Hf1].
  assert (reaction_state actor t (react_spec actor t k db) = Some k) as Hs1
      by (unfold reaction_state; now rewrite Hf1).
  assert (target_exists t (react_spec actor t k db) = true) as Hex1
      by now rewrite target_exists_react_spec.
  assert (create_refused actor t (react_spec actor t k db) = false) as Hcr1
      by (unfold create_refused; now rewrite Hf1).
  pose proof (react_run actor t k db Hex Hcr) as R1.
  pose proof (react_run actor t k _ Hex1 Hcr1) as R2.
  cbv zeta in R1, R2. rewrite (react_refines actor t k db Hex Hcr) in R1.
  rewrite (react_refines actor t k _ Hex1 Hcr1), Hs1 in R2. rewrite Hnone in R1.
  assert (exists resp,
             run (handler (react_request actor t k)) db = (inr resp, react_spec actor t k db)
             /\ response_message resp = Some (react_message t None k)) as (r1 & E1 & M1).
  { destruct t; destruct R1 as (d & _ & ->); eexists; split; reflexivity. }
  assert (exists resp,
             run (handler (react_request actor t k)) (react_spec actor t k db)
             = (inr resp, react_spec actor t k (react_spec actor t k db))
             /\ response_message resp = Some (react_message t (Some k) k)) as (r2 & E2 & M2).
  { destruct t; destruct R2 as (d & _ & ->); eexists; split; reflexivity. }
  rewrite E1. cbn [fst snd]. rewrite E2. cbn [fst snd].
  assert (likes (react_spec actor t k (react_spec actor t k db)) = likes db) as Hl2.
  { rewrite likes_react_spec, Hf1. simpl.
    assert (remove_first (has_like_id (next_id db)) (likes (react_spec actor t k db))
            = likes db) as Hr.
    { rewrite Hl1. rewrite <- (app_nil_r (likes db)) at 2.
      apply remove_first_split; [apply Nat.eqb_refl|].
      intros y Hy. apply Nat.eqb_neq. destruct Hb as (_ & _ & Hlk).
      specialize (Hlk y Hy). lia. }
    destruct k; simpl; exact Hr. }
  split; [split; [exists r1; auto | split; [exact Hl1 | split; [exact Hs1|]]]
         | split; [|split; [exact Hl2 | split]]].
  - rewrite counters_react_spec, (proj2 (Target_eqb_eq t t) eq_refl), Hnone.
    now destruct k.
  - exists r2. split; [reflexivity|]. rewrite M2. now destruct k.
  - unfold reaction_state, find_reaction in *. now rewrite Hl2, Hf.
  - rewrite !counters_react_spec, (proj2 (Target_eqb_eq t t) eq_refl).
    rewrite Hs1, Hnone. simpl.
    destruct (counters t db) as [[lk dk]|]; [|reflexivity].
    destruct k; simpl; f_equal; f_equal; lia.
Qed.

(** X22 for user 8 liking video 0 twice. *)
Lemma toggle_twice_witness :
  likes (snd (run (handler (react_request 8 (on_video 0) like))
                  (snd (run (handler (react_request 8 (on_video 0) like))
                            (serve_all [POST_videos 7] empty_db)))))
  = likes (serve_all [POST_videos 7] empty_db).
Proof.
  refine (proj1 (proj2 (proj2 (toggle_twice 8 (on_video 0) like
                                 (serve_all [POST_videos 7] empty_db)
                                 _ eq_refl eq_refl eq_refl)))).
  repeat split; simpl; intros x Hx; try destruct Hx as [<- | []]; try destruct Hx; simpl; lia.
Defined.
